(** * TF-M crypto client API (tfm_crypto_secure_api.c)

    A shallow embedding of the request-encoding layer of the TF-M crypto
    partition, [secure_fw/partitions/crypto/tfm_crypto_secure_api.c]: every
    [psa_*] entry point builds a [tfm_crypto_pack_iovec] envelope, an array
    of input descriptors and an array of output descriptors, hands them to
    the call primitive ([psa_call] or a veneer) and copies descriptor
    lengths back to the caller.

    The call primitive and the service behind it are external; they are a
    parameter of the development ([service]).  Caller memory is an explicit
    store, so that the operation objects and the [*_length] cells the C code
    reaches through pointers are shared between successive calls.

    The last part models the preprocessor directives of the CC312
    configuration header,
    [platform/ext/accelerator/cc312/crypto_accelerator_config.h], as a
    function on the set of defined macro names. *)

From Stdlib Require Import ZArith List Lia Bool String.
From stdpp Require Import base list strings gmap.
Import ListNotations.

Local Open Scope Z_scope.

(** ** Build configuration *)

(** A preprocessor macro: [None] when it is not defined, [Some v] when it is
    defined with value [v]. *)
Definition macro := option Z.

(** [#ifdef M] *)
Definition ifdef (m : macro) : bool :=
  match m with Some _ => true | None => false end.

(** [#if (M != 0)]: an undefined macro evaluates to 0 in [#if]. *)
Definition if_nonzero (m : macro) : bool :=
  match m with Some v => negb (v =? 0) | None => false end.

Definition psa_status_t := Z.
Definition size_t := Z.
Definition uint32_t := Z.
Definition uint8_t := Z.
Definition psa_key_id_t := Z.
Definition psa_algorithm_t := Z.
Definition psa_key_derivation_step_t := Z.

(** The macros this translation unit tests, and the constants it takes from
    headers that are not part of it (psa/error.h, tfm_crypto_defs.h,
    psa/crypto.h). *)
Record tfm_build := {
  TFM_PSA_API : macro;
  TFM_CRYPTO_KEY_MODULE_DISABLED : macro;
  TFM_CRYPTO_CIPHER_MODULE_DISABLED : macro;
  TFM_CRYPTO_HASH_MODULE_DISABLED : macro;
  TFM_CRYPTO_MAC_MODULE_DISABLED : macro;
  TFM_CRYPTO_AEAD_MODULE_DISABLED : macro;
  TFM_CRYPTO_ASYM_SIGN_MODULE_DISABLED : macro;
  TFM_CRYPTO_ASYM_ENCRYPT_MODULE_DISABLED : macro;
  TFM_CRYPTO_KEY_DERIVATION_MODULE_DISABLED : macro;
  TFM_CRYPTO_RNG_MODULE_DISABLED : macro;
  PSA_SUCCESS : psa_status_t;
  PSA_ERROR_NOT_SUPPORTED : psa_status_t;
  PSA_ERROR_INVALID_ARGUMENT : psa_status_t;
  PSA_ERROR_BAD_STATE : psa_status_t;
  TFM_CRYPTO_MAX_NONCE_LENGTH : Z;
  sizeof_tfm_crypto_pack_iovec : size_t;
  sizeof_psa_key_attributes_t : size_t;
  sizeof_psa_key_id_t : size_t;
  sizeof_psa_hash_operation_t : size_t;
  sizeof_size_t : size_t
}.

Definition sizeof_uint32_t : size_t := 4.

(** ** Data model *)

(** The function identifiers this file puts in the envelope ([srv_id]);
    their numbering, in tfm_crypto_defs.h, plays no part here. *)
Inductive tfm_crypto_sid :=
| TFM_CRYPTO_OPEN_KEY_SID
| TFM_CRYPTO_CLOSE_KEY_SID
| TFM_CRYPTO_IMPORT_KEY_SID
| TFM_CRYPTO_DESTROY_KEY_SID
| TFM_CRYPTO_GET_KEY_ATTRIBUTES_SID
| TFM_CRYPTO_RESET_KEY_ATTRIBUTES_SID
| TFM_CRYPTO_EXPORT_KEY_SID
| TFM_CRYPTO_EXPORT_PUBLIC_KEY_SID
| TFM_CRYPTO_PURGE_KEY_SID
| TFM_CRYPTO_COPY_KEY_SID
| TFM_CRYPTO_CIPHER_GENERATE_IV_SID
| TFM_CRYPTO_CIPHER_SET_IV_SID
| TFM_CRYPTO_CIPHER_ENCRYPT_SETUP_SID
| TFM_CRYPTO_CIPHER_DECRYPT_SETUP_SID
| TFM_CRYPTO_CIPHER_UPDATE_SID
| TFM_CRYPTO_CIPHER_ABORT_SID
| TFM_CRYPTO_CIPHER_FINISH_SID
| TFM_CRYPTO_HASH_SETUP_SID
| TFM_CRYPTO_HASH_UPDATE_SID
| TFM_CRYPTO_HASH_FINISH_SID
| TFM_CRYPTO_HASH_VERIFY_SID
| TFM_CRYPTO_HASH_ABORT_SID
| TFM_CRYPTO_HASH_CLONE_SID
| TFM_CRYPTO_HASH_COMPUTE_SID
| TFM_CRYPTO_HASH_COMPARE_SID
| TFM_CRYPTO_MAC_SIGN_SETUP_SID
| TFM_CRYPTO_MAC_VERIFY_SETUP_SID
| TFM_CRYPTO_MAC_UPDATE_SID
| TFM_CRYPTO_MAC_SIGN_FINISH_SID
| TFM_CRYPTO_MAC_VERIFY_FINISH_SID
| TFM_CRYPTO_MAC_ABORT_SID
| TFM_CRYPTO_AEAD_ENCRYPT_SID
| TFM_CRYPTO_AEAD_DECRYPT_SID
| TFM_CRYPTO_AEAD_ENCRYPT_SETUP_SID
| TFM_CRYPTO_AEAD_DECRYPT_SETUP_SID
| TFM_CRYPTO_AEAD_GENERATE_NONCE_SID
| TFM_CRYPTO_AEAD_SET_NONCE_SID
| TFM_CRYPTO_AEAD_SET_LENGTHS_SID
| TFM_CRYPTO_AEAD_UPDATE_AD_SID
| TFM_CRYPTO_AEAD_UPDATE_SID
| TFM_CRYPTO_AEAD_FINISH_SID
| TFM_CRYPTO_AEAD_VERIFY_SID
| TFM_CRYPTO_AEAD_ABORT_SID
| TFM_CRYPTO_SIGN_MESSAGE_SID
| TFM_CRYPTO_VERIFY_MESSAGE_SID
| TFM_CRYPTO_SIGN_HASH_SID
| TFM_CRYPTO_VERIFY_HASH_SID
| TFM_CRYPTO_ASYMMETRIC_ENCRYPT_SID
| TFM_CRYPTO_ASYMMETRIC_DECRYPT_SID
| TFM_CRYPTO_KEY_DERIVATION_GET_CAPACITY_SID
| TFM_CRYPTO_KEY_DERIVATION_OUTPUT_BYTES_SID
| TFM_CRYPTO_KEY_DERIVATION_INPUT_KEY_SID
| TFM_CRYPTO_KEY_DERIVATION_ABORT_SID
| TFM_CRYPTO_KEY_DERIVATION_KEY_AGREEMENT_SID
| TFM_CRYPTO_GENERATE_RANDOM_SID
| TFM_CRYPTO_GENERATE_KEY_SID
| TFM_CRYPTO_MAC_COMPUTE_SID
| TFM_CRYPTO_MAC_VERIFY_SID
| TFM_CRYPTO_CIPHER_ENCRYPT_SID
| TFM_CRYPTO_CIPHER_DECRYPT_SID
| TFM_CRYPTO_RAW_KEY_AGREEMENT_SID
| TFM_CRYPTO_KEY_DERIVATION_SETUP_SID
| TFM_CRYPTO_KEY_DERIVATION_SET_CAPACITY_SID
| TFM_CRYPTO_KEY_DERIVATION_INPUT_BYTES_SID
| TFM_CRYPTO_KEY_DERIVATION_OUTPUT_KEY_SID.

(** Modelled from the spec: [struct tfm_crypto_aead_pack_input] is declared
    in tfm_crypto_defs.h, which is not among the sources.  It is the inline
    buffer of the envelope with its explicit length, under the names this
    file gives its members. *)
Record tfm_crypto_aead_pack_input := {
  nonce : list uint8_t;
  nonce_length : uint32_t
}.

(** Modelled from the spec: [struct tfm_crypto_pack_iovec], the request
    envelope, is declared in tfm_crypto_defs.h, which is not among the
    sources.  The members are the fields of the envelope header (selector,
    key reference, algorithm, continuation handle, step, capacity and
    length fields, inline buffer), under the names the initialisers of this
    file give them. *)
Record tfm_crypto_pack_iovec := {
  srv_id : tfm_crypto_sid;
  step : psa_key_derivation_step_t;
  key_id : psa_key_id_t;
  alg : psa_algorithm_t;
  op_handle : uint32_t;
  capacity : size_t;
  ad_length : size_t;
  plaintext_length : size_t;
  aead_in : tfm_crypto_aead_pack_input
}.

(** A pointer held by the caller: [NULL] or the address of an object. *)
Inductive pointer :=
| NULL
| Ptr (addr : Z).

Definition is_null (p : pointer) : bool :=
  match p with NULL => true | Ptr _ => false end.

(** [p + i], used for [nonce[idx]]. *)
Definition ptr_add (p : pointer) (i : Z) : pointer :=
  match p with NULL => NULL | Ptr a => Ptr (a + i) end.

(** What the [base] of a descriptor points to: bytes in caller memory (a
    [uint8_t *] or [unsigned char *] argument), one object in caller memory
    (a handle, a key identifier, an attribute structure, a capacity, a hash
    operation), the local envelope [&iov] (with its contents at the time of
    the call), or the local copy of a by-value argument ([&id] in
    [psa_open_key]). *)
Inductive vec_base :=
| at_ptr (p : pointer)
| at_obj (p : pointer)
| at_iov (iov : tfm_crypto_pack_iovec)
| at_local (v : Z).

(** Modelled from the spec: [psa_invec] and [psa_outvec] are declared in
    psa/client.h, which is not among the sources.  A descriptor is a
    reference and a length; this file sets them as [.base] and [.len]. *)
Record psa_vec := {
  base : vec_base;
  len : size_t
}.
Abbreviation psa_invec := psa_vec (only parsing).
Abbreviation psa_outvec := psa_vec (only parsing).

#[global] Instance psa_vec_inhabited : Inhabited psa_vec :=
  populate {| base := at_ptr NULL; len := 0 |}.

(** The two bindings of the call primitive. *)
Inductive entry_point :=
| via_psa_call                    (* psa_call(TFM_CRYPTO_HANDLE, PSA_IPC_CALL, ...) *)
| via_veneer (srv_name : string). (* srv_name##_veneer(...) *)

(** One invocation of the call primitive, with its arguments. *)
Record psa_request := {
  req_entry : entry_point;
  req_in_vec : list psa_invec;
  req_in_len : nat;
  req_out_vec : list psa_outvec;
  req_out_len : nat
}.

(** The descriptors the callee is given: the first [in_len] and [out_len]
    elements of the arrays. *)
Definition dispatched_in (rq : psa_request) : list psa_invec :=
  take (req_in_len rq) (req_in_vec rq).
Definition dispatched_out (rq : psa_request) : list psa_outvec :=
  take (req_out_len rq) (req_out_vec rq).

(** The envelope of a request: what [in_vec[0].base] points to. *)
Definition envelope (rq : psa_request) : option tfm_crypto_pack_iovec :=
  match dispatched_in rq with
  | {| base := at_iov iov |} :: _ => Some iov
  | _ => None
  end.

(** ** Caller memory and the service *)

(** Caller memory, one cell per address: a cell holds one byte of a buffer
    or one object; the bytes of a buffer sit at consecutive addresses. *)
Definition memory := Z -> Z.

Definition mem_write (m : memory) (a : Z) (v : Z) : memory :=
  fun a' => if a' =? a then v else m a'.

(** [xs] written at [a], [a + 1], ... *)
Fixpoint mem_fill (m : memory) (a : Z) (xs : list Z) : memory :=
  match xs with
  | [] => m
  | x :: xs' => mem_fill (mem_write m a x) (a + 1) xs'
  end.

(** What the service does to one output descriptor: the length it leaves in
    [len], and the data it writes from [base] on. *)
Record out_write := {
  w_len : size_t;
  w_data : list Z
}.

Record psa_reply := {
  reply_status : psa_status_t;
  reply_out : list out_write
}.

(** The state the client code runs in: caller memory and the calls made so
    far through the call primitive, each with the reply it got, oldest
    first. *)
Record client := {
  mem : memory;
  calls : list (psa_request * psa_reply)
}.

(** The external service: its answer may depend on everything it has seen. *)
Definition service := client -> psa_request -> psa_reply.

(** ** The client monad: state, and a fault for an access through [NULL] or
       beyond the inline array *)

Definition api (A : Type) := client -> option A * client.

Definition ret {A} (a : A) : api A := fun st => (Some a, st).

Definition bind {A B} (m : api A) (k : A -> api B) : api B :=
  fun st => match m st with
            | (Some a, st') => k a st'
            | (None, st') => (None, st')
            end.

Definition fault {A} : api A := fun st => (None, st).

#[global] Instance api_ret : MRet api := @ret.
#[global] Instance api_bind : MBind api := fun A B k m => bind m k.

(** [*p] as an rvalue. *)
Definition load (p : pointer) : api Z :=
  fun st => match p with
            | NULL => (None, st)
            | Ptr a => (Some (mem st a), st)
            end.

(** [*p = v]. *)
Definition store (p : pointer) (v : Z) : api unit :=
  fun st => match p with
            | NULL => (None, st)
            | Ptr a => (Some tt, {| mem := mem_write (mem st) a v; calls := calls st |})
            end.

(** What a reply leaves in the [i]-th output descriptor handed over: the new
    [len] (the old one when the reply is silent about it) and the data
    written from [base] on (none when the reply is silent). *)
Definition reply_len (rp : psa_reply) (i : nat) (v : psa_outvec) : size_t :=
  match reply_out rp !! i with
  | Some w => w_len w
  | None => len v
  end.

Definition reply_data (rp : psa_reply) (i : nat) : list Z :=
  match reply_out rp !! i with
  | Some w => w_data w
  | None => []
  end.

(** The first cell of the data, which is all of it for an object. *)
Definition reply_word (rp : psa_reply) (i : nat) : option Z :=
  head (reply_data rp i).

(** The cells a descriptor gives access to: [len] of them for bytes, one for
    an object, none behind a null reference or a local. *)
Definition cells (v : psa_vec) : nat :=
  match base v with
  | at_ptr (Ptr _) => Z.to_nat (len v)
  | at_obj (Ptr _) => 1
  | _ => 0
  end.

(** Caller memory once [xs] has been written through the descriptor [v]:
    what does not fit in the cells of [v] is dropped. *)
Definition write_through (v : psa_outvec) (xs : list Z) (m : memory) : memory :=
  match base v with
  | at_ptr (Ptr a) | at_obj (Ptr a) => mem_fill m a (take (cells v) xs)
  | _ => m
  end.

(** The effect of a reply on the output descriptors handed over, from index
    [i] on: their [len] is overwritten in place and the data written lands
    in caller memory, descriptor after descriptor. *)
Fixpoint write_back (rp : psa_reply) (i : nat) (out_vec : list psa_outvec) (m : memory)
  : list psa_outvec * memory :=
  match out_vec with
  | [] => ([], m)
  | v :: out_vec' =>
      let m1 := write_through v (reply_data rp i) m in
      let r := write_back rp (S i) out_vec' m1 in
      ({| base := base v; len := reply_len rp i v |} :: r.1, r.2)
  end.

Section Api.

Context (env : tfm_build) (svc : service).

(** Modelled from the spec: the call primitive ([psa_call] of psa/client.h
    and the veneers of tfm_veneers.h) is external to the sources.  It is a
    synchronous call that takes the input descriptors and the output
    descriptors with their counts and returns a status, the length of each
    output descriptor handed over being overwritten in place and the
    output landing in the memory the descriptor gives access to.  Here it
    records the request, lets the service answer, and returns the status
    and the output array as the callee left it. *)
Definition call_primitive (entry : entry_point)
    (in_vec : list psa_invec) (in_len : nat)
    (out_vec : list psa_outvec) (out_len : nat)
  : api (psa_status_t * list psa_outvec) :=
  fun st =>
    let rq := {| req_entry := entry; req_in_vec := in_vec; req_in_len := in_len;
                 req_out_vec := out_vec; req_out_len := out_len |} in
    let rp := svc st rq in
    let r := write_back rp 0 (take out_len out_vec) (mem st) in
    (Some (reply_status rp, r.1 ++ drop out_len out_vec),
     {| mem := r.2; calls := calls st ++ [(rq, rp)] |}).

(** [psa_call(TFM_CRYPTO_HANDLE, PSA_IPC_CALL, in_vec, in_len, out_vec, out_len)] *)
Definition psa_call := call_primitive via_psa_call.

(** [API_DISPATCH(srv_name, srv_id)] *)
Definition API_DISPATCH (srv_name : string)
    (in_vec : list psa_invec) (out_vec : list psa_outvec)
  : api (psa_status_t * list psa_outvec) :=
  if ifdef (TFM_PSA_API env)
  then psa_call in_vec (length in_vec) out_vec (length out_vec)
  else call_primitive (via_veneer srv_name)
         in_vec (length in_vec) out_vec (length out_vec).

(** [API_DISPATCH_NO_OUTVEC(srv_name, srv_id)] *)
Definition API_DISPATCH_NO_OUTVEC (srv_name : string)
    (in_vec : list psa_invec)
  : api psa_status_t :=
  r ← (if ifdef (TFM_PSA_API env)
       then psa_call in_vec (length in_vec) [] 0%nat
       else call_primitive (via_veneer srv_name) in_vec (length in_vec) [] 0%nat);
  ret (fst r).

End Api.

(** ** Envelope construction *)

(** Members left out of a designated initialiser are zero; every initialiser
    in this file names [srv_id]. *)
Definition iov_init (env : tfm_build) (sid : tfm_crypto_sid) : tfm_crypto_pack_iovec :=
  {| srv_id := sid; step := 0; key_id := 0; alg := 0; op_handle := 0;
     capacity := 0; ad_length := 0; plaintext_length := 0;
     aead_in := {| nonce := replicate (Z.to_nat (TFM_CRYPTO_MAX_NONCE_LENGTH env)) 0;
                   nonce_length := 0 |} |}.

Definition set_step (v : psa_key_derivation_step_t) (i : tfm_crypto_pack_iovec) :=
  {| srv_id := srv_id i; step := v; key_id := key_id i; alg := alg i;
     op_handle := op_handle i; capacity := capacity i; ad_length := ad_length i;
     plaintext_length := plaintext_length i; aead_in := aead_in i |}.

Definition set_key_id (v : psa_key_id_t) (i : tfm_crypto_pack_iovec) :=
  {| srv_id := srv_id i; step := step i; key_id := v; alg := alg i;
     op_handle := op_handle i; capacity := capacity i; ad_length := ad_length i;
     plaintext_length := plaintext_length i; aead_in := aead_in i |}.

Definition set_alg (v : psa_algorithm_t) (i : tfm_crypto_pack_iovec) :=
  {| srv_id := srv_id i; step := step i; key_id := key_id i; alg := v;
     op_handle := op_handle i; capacity := capacity i; ad_length := ad_length i;
     plaintext_length := plaintext_length i; aead_in := aead_in i |}.

Definition set_op_handle (v : uint32_t) (i : tfm_crypto_pack_iovec) :=
  {| srv_id := srv_id i; step := step i; key_id := key_id i; alg := alg i;
     op_handle := v; capacity := capacity i; ad_length := ad_length i;
     plaintext_length := plaintext_length i; aead_in := aead_in i |}.

Definition set_capacity (v : size_t) (i : tfm_crypto_pack_iovec) :=
  {| srv_id := srv_id i; step := step i; key_id := key_id i; alg := alg i;
     op_handle := op_handle i; capacity := v; ad_length := ad_length i;
     plaintext_length := plaintext_length i; aead_in := aead_in i |}.

Definition set_ad_length (v : size_t) (i : tfm_crypto_pack_iovec) :=
  {| srv_id := srv_id i; step := step i; key_id := key_id i; alg := alg i;
     op_handle := op_handle i; capacity := capacity i; ad_length := v;
     plaintext_length := plaintext_length i; aead_in := aead_in i |}.

Definition set_plaintext_length (v : size_t) (i : tfm_crypto_pack_iovec) :=
  {| srv_id := srv_id i; step := step i; key_id := key_id i; alg := alg i;
     op_handle := op_handle i; capacity := capacity i; ad_length := ad_length i;
     plaintext_length := v; aead_in := aead_in i |}.

Definition set_aead_in (v : tfm_crypto_aead_pack_input) (i : tfm_crypto_pack_iovec) :=
  {| srv_id := srv_id i; step := step i; key_id := key_id i; alg := alg i;
     op_handle := op_handle i; capacity := capacity i; ad_length := ad_length i;
     plaintext_length := plaintext_length i; aead_in := v |}.

(** [iov.aead_in.nonce[idx] = b] *)
Definition set_nonce_at (idx : Z) (b : uint8_t) (i : tfm_crypto_pack_iovec) :=
  set_aead_in {| nonce := <[Z.to_nat idx := b]> (nonce (aead_in i));
                 nonce_length := nonce_length (aead_in i) |} i.

(** [iov.aead_in.nonce_length = n] *)
Definition set_nonce_length (n : uint32_t) (i : tfm_crypto_pack_iovec) :=
  set_aead_in {| nonce := nonce (aead_in i); nonce_length := n |} i.

(** [iov.aead_in.nonce[idx] = b] as a statement: a store beyond the inline
    array is a fault. *)
Definition store_nonce (idx : Z) (b : uint8_t) (iov : tfm_crypto_pack_iovec)
  : api tfm_crypto_pack_iovec :=
  if (0 <=? idx) && (idx <? Z.of_nat (length (nonce (aead_in iov))))
  then ret (set_nonce_at idx b iov)
  else fault.

(** [for (size_t idx = 0; idx < nonce_length; idx++)
       iov.aead_in.nonce[idx] = nonce[idx];]
    with [todo] iterations left and the loop variable at [idx]. *)
Fixpoint copy_nonce (todo : nat) (idx : Z) (nonce : pointer)
    (iov : tfm_crypto_pack_iovec) : api tfm_crypto_pack_iovec :=
  match todo with
  | O => ret iov
  | S todo' =>
      b ← load (ptr_add nonce idx);
      iov ← store_nonce idx b iov;
      copy_nonce todo' (idx + 1) nonce iov
  end.

Definition vec (b : vec_base) (l : size_t) : psa_vec := {| base := b; len := l |}.

(** [&(operation->handle)]: the handle is the member of the operation object
    this file touches, and sits at the object's address. *)
Definition handle_of (operation : pointer) : pointer := operation.

(** ** The entry points, in the order of the source file *)

Section EntryPoints.

Context (env : tfm_build) (svc : service).

Local Abbreviation iov_init := (iov_init env).
Local Abbreviation psa_call := (psa_call svc).
Local Abbreviation API_DISPATCH := (API_DISPATCH env svc).
Local Abbreviation API_DISPATCH_NO_OUTVEC := (API_DISPATCH_NO_OUTVEC env svc).

Definition psa_crypto_init : api psa_status_t :=
  ret (PSA_SUCCESS env).

Definition psa_open_key (id : psa_key_id_t) (key_id : pointer)
  : api psa_status_t :=
  if ifdef (TFM_CRYPTO_KEY_MODULE_DISABLED env) then ret (PSA_ERROR_NOT_SUPPORTED env) else
  let iov := iov_init TFM_CRYPTO_OPEN_KEY_SID in
  let in_vec :=
      [vec (at_iov iov) (sizeof_tfm_crypto_pack_iovec env);
       vec (at_local id) (sizeof_psa_key_id_t env)] in
  let out_vec :=
      [vec (at_obj key_id) (sizeof_psa_key_id_t env)] in
  '(status, _) ← API_DISPATCH "tfm_crypto_open_key" in_vec out_vec;
  ret status.

Definition psa_close_key (key_id : psa_key_id_t)
  : api psa_status_t :=
  if ifdef (TFM_CRYPTO_KEY_MODULE_DISABLED env) then ret (PSA_ERROR_NOT_SUPPORTED env) else
  let iov := set_key_id key_id (iov_init TFM_CRYPTO_CLOSE_KEY_SID) in
  let in_vec :=
      [vec (at_iov iov) (sizeof_tfm_crypto_pack_iovec env)] in
  status ← API_DISPATCH_NO_OUTVEC "tfm_crypto_close_key" in_vec;
  ret status.

Definition psa_import_key (attributes : pointer) (data : pointer) (data_length : size_t) (key_id : pointer)
  : api psa_status_t :=
  if ifdef (TFM_CRYPTO_KEY_MODULE_DISABLED env) then ret (PSA_ERROR_NOT_SUPPORTED env) else
  let iov := iov_init TFM_CRYPTO_IMPORT_KEY_SID in
  let in_vec :=
      [vec (at_iov iov) (sizeof_tfm_crypto_pack_iovec env);
       vec (at_obj attributes) (sizeof_psa_key_attributes_t env);
       vec (at_ptr data) (data_length)] in
  let out_vec :=
      [vec (at_obj key_id) (sizeof_psa_key_id_t env)] in
  '(status, _) ← API_DISPATCH "tfm_crypto_import_key" in_vec out_vec;
  ret status.

Definition psa_destroy_key (key_id : psa_key_id_t)
  : api psa_status_t :=
  if ifdef (TFM_CRYPTO_KEY_MODULE_DISABLED env) then ret (PSA_ERROR_NOT_SUPPORTED env) else
  let iov := set_key_id key_id (iov_init TFM_CRYPTO_DESTROY_KEY_SID) in
  let in_vec :=
      [vec (at_iov iov) (sizeof_tfm_crypto_pack_iovec env)] in
  status ← API_DISPATCH_NO_OUTVEC "tfm_crypto_destroy_key" in_vec;
  ret status.

Definition psa_get_key_attributes (key_id : psa_key_id_t) (attributes : pointer)
  : api psa_status_t :=
  if ifdef (TFM_CRYPTO_KEY_MODULE_DISABLED env) then ret (PSA_ERROR_NOT_SUPPORTED env) else
  let iov := set_key_id key_id (iov_init TFM_CRYPTO_GET_KEY_ATTRIBUTES_SID) in
  let in_vec :=
      [vec (at_iov iov) (sizeof_tfm_crypto_pack_iovec env)] in
  let out_vec :=
      [vec (at_obj attributes) (sizeof_psa_key_attributes_t env)] in
  '(status, _) ← API_DISPATCH "tfm_crypto_get_key_attributes" in_vec out_vec;
  ret status.

(** [void psa_reset_key_attributes(psa_key_attributes_t *attributes)]: the
    status of the dispatch is discarded. *)
Definition psa_reset_key_attributes (attributes : pointer)
  : api unit :=
  if ifdef (TFM_CRYPTO_KEY_MODULE_DISABLED env) then ret tt else
  let iov := iov_init TFM_CRYPTO_RESET_KEY_ATTRIBUTES_SID in
  let in_vec :=
      [vec (at_iov iov) (sizeof_tfm_crypto_pack_iovec env)] in
  let out_vec :=
      [vec (at_obj attributes) (sizeof_psa_key_attributes_t env)] in
  _ ← API_DISPATCH "tfm_crypto_reset_key_attributes" in_vec out_vec;
  ret tt.

Definition psa_export_key (key_id : psa_key_id_t) (data : pointer) (data_size : size_t) (data_length : pointer)
  : api psa_status_t :=
  if ifdef (TFM_CRYPTO_KEY_MODULE_DISABLED env) then ret (PSA_ERROR_NOT_SUPPORTED env) else
  let iov := set_key_id key_id (iov_init TFM_CRYPTO_EXPORT_KEY_SID) in
  let in_vec :=
      [vec (at_iov iov) (sizeof_tfm_crypto_pack_iovec env)] in
  let out_vec :=
      [vec (at_ptr data) (data_size)] in
  '(status, out_vec) ← API_DISPATCH "tfm_crypto_export_key" in_vec out_vec;
  store data_length (len (out_vec !!! 0%nat));;
  ret status.

Definition psa_export_public_key (key_id : psa_key_id_t) (data : pointer) (data_size : size_t) (data_length : pointer)
  : api psa_status_t :=
  if ifdef (TFM_CRYPTO_KEY_MODULE_DISABLED env) then ret (PSA_ERROR_NOT_SUPPORTED env) else
  let iov := set_key_id key_id (iov_init TFM_CRYPTO_EXPORT_PUBLIC_KEY_SID) in
  let in_vec :=
      [vec (at_iov iov) (sizeof_tfm_crypto_pack_iovec env)] in
  let out_vec :=
      [vec (at_ptr data) (data_size)] in
  '(status, out_vec) ← API_DISPATCH "tfm_crypto_export_public_key" in_vec out_vec;
  store data_length (len (out_vec !!! 0%nat));;
  ret status.

Definition psa_purge_key (key_id : psa_key_id_t)
  : api psa_status_t :=
  if ifdef (TFM_CRYPTO_KEY_MODULE_DISABLED env) then ret (PSA_ERROR_NOT_SUPPORTED env) else
  let iov := set_key_id key_id (iov_init TFM_CRYPTO_PURGE_KEY_SID) in
  let in_vec :=
      [vec (at_iov iov) (sizeof_tfm_crypto_pack_iovec env)] in
  status ← API_DISPATCH_NO_OUTVEC "tfm_crypto_purge_key" in_vec;
  ret status.

Definition psa_copy_key (source_key_id : psa_key_id_t) (attributes : pointer) (target_key_id : pointer)
  : api psa_status_t :=
  if ifdef (TFM_CRYPTO_KEY_MODULE_DISABLED env) then ret (PSA_ERROR_NOT_SUPPORTED env) else
  let iov := set_key_id source_key_id (iov_init TFM_CRYPTO_COPY_KEY_SID) in
  let in_vec :=
      [vec (at_iov iov) (sizeof_tfm_crypto_pack_iovec env);
       vec (at_obj attributes) (sizeof_psa_key_attributes_t env)] in
  let out_vec :=
      [vec (at_obj target_key_id) (sizeof_psa_key_id_t env)] in
  '(status, _) ← API_DISPATCH "tfm_crypto_copy_key" in_vec out_vec;
  ret status.

Definition psa_cipher_generate_iv (operation : pointer) (iv : pointer) (iv_size : size_t) (iv_length : pointer)
  : api psa_status_t :=
  if ifdef (TFM_CRYPTO_CIPHER_MODULE_DISABLED env) then ret (PSA_ERROR_NOT_SUPPORTED env) else
  handle ← load (handle_of operation);
  let iov := set_op_handle handle (iov_init TFM_CRYPTO_CIPHER_GENERATE_IV_SID) in
  let in_vec :=
      [vec (at_iov iov) (sizeof_tfm_crypto_pack_iovec env)] in
  let out_vec :=
      [vec (at_obj (handle_of operation)) (sizeof_uint32_t);
       vec (at_ptr iv) (iv_size)] in
  '(status, out_vec) ← API_DISPATCH "tfm_crypto_cipher_generate_iv" in_vec out_vec;
  store iv_length (len (out_vec !!! 1%nat));;
  ret status.

Definition psa_cipher_set_iv (operation : pointer) (iv : pointer) (iv_length : size_t)
  : api psa_status_t :=
  if ifdef (TFM_CRYPTO_CIPHER_MODULE_DISABLED env) then ret (PSA_ERROR_NOT_SUPPORTED env) else
  handle ← load (handle_of operation);
  let iov := set_op_handle handle (iov_init TFM_CRYPTO_CIPHER_SET_IV_SID) in
  let in_vec :=
      [vec (at_iov iov) (sizeof_tfm_crypto_pack_iovec env);
       vec (at_ptr iv) (iv_length)] in
  let out_vec :=
      [vec (at_obj (handle_of operation)) (sizeof_uint32_t)] in
  '(status, _) ← API_DISPATCH "tfm_crypto_cipher_set_iv" in_vec out_vec;
  ret status.

Definition psa_cipher_encrypt_setup (operation : pointer) (key_id : psa_key_id_t) (alg : psa_algorithm_t)
  : api psa_status_t :=
  if ifdef (TFM_CRYPTO_CIPHER_MODULE_DISABLED env) then ret (PSA_ERROR_NOT_SUPPORTED env) else
  handle ← load (handle_of operation);
  let iov := set_op_handle handle (set_alg alg (set_key_id key_id (iov_init TFM_CRYPTO_CIPHER_ENCRYPT_SETUP_SID))) in
  let in_vec :=
      [vec (at_iov iov) (sizeof_tfm_crypto_pack_iovec env)] in
  let out_vec :=
      [vec (at_obj (handle_of operation)) (sizeof_uint32_t)] in
  '(status, _) ← API_DISPATCH "tfm_crypto_cipher_encrypt_setup" in_vec out_vec;
  ret status.

Definition psa_cipher_decrypt_setup (operation : pointer) (key_id : psa_key_id_t) (alg : psa_algorithm_t)
  : api psa_status_t :=
  if ifdef (TFM_CRYPTO_CIPHER_MODULE_DISABLED env) then ret (PSA_ERROR_NOT_SUPPORTED env) else
  handle ← load (handle_of operation);
  let iov := set_op_handle handle (set_alg alg (set_key_id key_id (iov_init TFM_CRYPTO_CIPHER_DECRYPT_SETUP_SID))) in
  let in_vec :=
      [vec (at_iov iov) (sizeof_tfm_crypto_pack_iovec env)] in
  let out_vec :=
      [vec (at_obj (handle_of operation)) (sizeof_uint32_t)] in
  '(status, _) ← API_DISPATCH "tfm_crypto_cipher_decrypt_setup" in_vec out_vec;
  ret status.

Definition psa_cipher_update (operation : pointer) (input : pointer) (input_length : size_t) (output : pointer) (output_size : size_t) (output_length : pointer)
  : api psa_status_t :=
  if ifdef (TFM_CRYPTO_CIPHER_MODULE_DISABLED env) then ret (PSA_ERROR_NOT_SUPPORTED env) else
  handle ← load (handle_of operation);
  let iov := set_op_handle handle (iov_init TFM_CRYPTO_CIPHER_UPDATE_SID) in
  let in_vec :=
      [vec (at_iov iov) (sizeof_tfm_crypto_pack_iovec env);
       vec (at_ptr input) (input_length)] in
  let out_vec :=
      [vec (at_obj (handle_of operation)) (sizeof_uint32_t);
       vec (at_ptr output) (output_size)] in
  '(status, out_vec) ← API_DISPATCH "tfm_crypto_cipher_update" in_vec out_vec;
  store output_length (len (out_vec !!! 1%nat));;
  ret status.

Definition psa_cipher_abort (operation : pointer)
  : api psa_status_t :=
  if ifdef (TFM_CRYPTO_CIPHER_MODULE_DISABLED env) then ret (PSA_ERROR_NOT_SUPPORTED env) else
  handle ← load (handle_of operation);
  let iov := set_op_handle handle (iov_init TFM_CRYPTO_CIPHER_ABORT_SID) in
  let in_vec :=
      [vec (at_iov iov) (sizeof_tfm_crypto_pack_iovec env)] in
  let out_vec :=
      [vec (at_obj (handle_of operation)) (sizeof_uint32_t)] in
  '(status, _) ← API_DISPATCH "tfm_crypto_cipher_abort" in_vec out_vec;
  ret status.

Definition psa_cipher_finish (operation : pointer) (output : pointer) (output_size : size_t) (output_length : pointer)
  : api psa_status_t :=
  if ifdef (TFM_CRYPTO_CIPHER_MODULE_DISABLED env) then ret (PSA_ERROR_NOT_SUPPORTED env) else
  handle ← load (handle_of operation);
  let iov := set_op_handle handle (iov_init TFM_CRYPTO_CIPHER_FINISH_SID) in
  let in_vec :=
      [vec (at_iov iov) (sizeof_tfm_crypto_pack_iovec env)] in
  let out_vec :=
      [vec (at_obj (handle_of operation)) (sizeof_uint32_t);
       vec (at_ptr output) (output_size)] in
  '(status, out_vec) ← API_DISPATCH "tfm_crypto_cipher_finish" in_vec out_vec;
  store output_length (len (out_vec !!! 1%nat));;
  ret status.

Definition psa_hash_setup (operation : pointer) (alg : psa_algorithm_t)
  : api psa_status_t :=
  if ifdef (TFM_CRYPTO_HASH_MODULE_DISABLED env) then ret (PSA_ERROR_NOT_SUPPORTED env) else
  handle ← load (handle_of operation);
  let iov := set_op_handle handle (set_alg alg (iov_init TFM_CRYPTO_HASH_SETUP_SID)) in
  let in_vec :=
      [vec (at_iov iov) (sizeof_tfm_crypto_pack_iovec env)] in
  let out_vec :=
      [vec (at_obj (handle_of operation)) (sizeof_uint32_t)] in
  '(status, _) ← API_DISPATCH "tfm_crypto_hash_setup" in_vec out_vec;
  ret status.

Definition psa_hash_update (operation : pointer) (input : pointer) (input_length : size_t)
  : api psa_status_t :=
  if ifdef (TFM_CRYPTO_HASH_MODULE_DISABLED env) then ret (PSA_ERROR_NOT_SUPPORTED env) else
  handle ← load (handle_of operation);
  let iov := set_op_handle handle (iov_init TFM_CRYPTO_HASH_UPDATE_SID) in
  let in_vec :=
      [vec (at_iov iov) (sizeof_tfm_crypto_pack_iovec env);
       vec (at_ptr input) (input_length)] in
  let out_vec :=
      [vec (at_obj (handle_of operation)) (sizeof_uint32_t)] in
  '(status, _) ← API_DISPATCH "tfm_crypto_hash_update" in_vec out_vec;
  ret status.

Definition psa_hash_finish (operation : pointer) (hash : pointer) (hash_size : size_t) (hash_length : pointer)
  : api psa_status_t :=
  if ifdef (TFM_CRYPTO_HASH_MODULE_DISABLED env) then ret (PSA_ERROR_NOT_SUPPORTED env) else
  handle ← load (handle_of operation);
  let iov := set_op_handle handle (iov_init TFM_CRYPTO_HASH_FINISH_SID) in
  let in_vec :=
      [vec (at_iov iov) (sizeof_tfm_crypto_pack_iovec env)] in
  let out_vec :=
      [vec (at_obj (handle_of operation)) (sizeof_uint32_t);
       vec (at_ptr hash) (hash_size)] in
  '(status, out_vec) ← API_DISPATCH "tfm_crypto_hash_finish" in_vec out_vec;
  store hash_length (len (out_vec !!! 1%nat));;
  ret status.

Definition psa_hash_verify (operation : pointer) (hash : pointer) (hash_length : size_t)
  : api psa_status_t :=
  if ifdef (TFM_CRYPTO_HASH_MODULE_DISABLED env) then ret (PSA_ERROR_NOT_SUPPORTED env) else
  handle ← load (handle_of operation);
  let iov := set_op_handle handle (iov_init TFM_CRYPTO_HASH_VERIFY_SID) in
  let in_vec :=
      [vec (at_iov iov) (sizeof_tfm_crypto_pack_iovec env);
       vec (at_ptr hash) (hash_length)] in
  let out_vec :=
      [vec (at_obj (handle_of operation)) (sizeof_uint32_t)] in
  '(status, _) ← API_DISPATCH "tfm_crypto_hash_verify" in_vec out_vec;
  ret status.

Definition psa_hash_abort (operation : pointer)
  : api psa_status_t :=
  if ifdef (TFM_CRYPTO_HASH_MODULE_DISABLED env) then ret (PSA_ERROR_NOT_SUPPORTED env) else
  handle ← load (handle_of operation);
  let iov := set_op_handle handle (iov_init TFM_CRYPTO_HASH_ABORT_SID) in
  let in_vec :=
      [vec (at_iov iov) (sizeof_tfm_crypto_pack_iovec env)] in
  let out_vec :=
      [vec (at_obj (handle_of operation)) (sizeof_uint32_t)] in
  '(status, _) ← API_DISPATCH "tfm_crypto_hash_abort" in_vec out_vec;
  ret status.

Definition psa_hash_clone (source_operation : pointer) (target_operation : pointer)
  : api psa_status_t :=
  if ifdef (TFM_CRYPTO_HASH_MODULE_DISABLED env) then ret (PSA_ERROR_NOT_SUPPORTED env) else
  handle ← load (handle_of source_operation);
  let iov := set_op_handle handle (iov_init TFM_CRYPTO_HASH_CLONE_SID) in
  let in_vec :=
      [vec (at_iov iov) (sizeof_tfm_crypto_pack_iovec env)] in
  let out_vec :=
      [vec (at_obj target_operation) (sizeof_psa_hash_operation_t env)] in
  target_bound ←
    (if is_null target_operation then ret false
     else h ← load (handle_of target_operation); ret (negb (h =? 0)));
  if (target_bound : bool) then ret (PSA_ERROR_BAD_STATE env) else
  '(status, _) ← API_DISPATCH "tfm_crypto_hash_clone" in_vec out_vec;
  ret status.

Definition psa_hash_compute (alg : psa_algorithm_t) (input : pointer) (input_length : size_t) (hash : pointer) (hash_size : size_t) (hash_length : pointer)
  : api psa_status_t :=
  if if_nonzero (TFM_CRYPTO_HASH_MODULE_DISABLED env) then ret (PSA_ERROR_NOT_SUPPORTED env) else
  let iov := set_alg alg (iov_init TFM_CRYPTO_HASH_COMPUTE_SID) in
  let in_vec :=
      [vec (at_iov iov) (sizeof_tfm_crypto_pack_iovec env);
       vec (at_ptr input) (input_length)] in
  let out_vec :=
      [vec (at_ptr hash) (hash_size)] in
  '(status, out_vec) ← API_DISPATCH "tfm_crypto_hash_compute" in_vec out_vec;
  store hash_length (len (out_vec !!! 0%nat));;
  ret status.

Definition psa_hash_compare (alg : psa_algorithm_t) (input : pointer) (input_length : size_t) (hash : pointer) (hash_length : size_t)
  : api psa_status_t :=
  if if_nonzero (TFM_CRYPTO_HASH_MODULE_DISABLED env) then ret (PSA_ERROR_NOT_SUPPORTED env) else
  let iov := set_alg alg (iov_init TFM_CRYPTO_HASH_COMPARE_SID) in
  let in_vec :=
      [vec (at_iov iov) (sizeof_tfm_crypto_pack_iovec env);
       vec (at_ptr input) (input_length);
       vec (at_ptr hash) (hash_length)] in
  status ← API_DISPATCH_NO_OUTVEC "tfm_crypto_hash_compare" in_vec;
  ret status.

Definition psa_mac_sign_setup (operation : pointer) (key_id : psa_key_id_t) (alg : psa_algorithm_t)
  : api psa_status_t :=
  if ifdef (TFM_CRYPTO_MAC_MODULE_DISABLED env) then ret (PSA_ERROR_NOT_SUPPORTED env) else
  handle ← load (handle_of operation);
  let iov := set_op_handle handle (set_alg alg (set_key_id key_id (iov_init TFM_CRYPTO_MAC_SIGN_SETUP_SID))) in
  let in_vec :=
      [vec (at_iov iov) (sizeof_tfm_crypto_pack_iovec env)] in
  let out_vec :=
      [vec (at_obj (handle_of operation)) (sizeof_uint32_t)] in
  '(status, _) ← API_DISPATCH "tfm_crypto_mac_sign_setup" in_vec out_vec;
  ret status.

Definition psa_mac_verify_setup (operation : pointer) (key_id : psa_key_id_t) (alg : psa_algorithm_t)
  : api psa_status_t :=
  if ifdef (TFM_CRYPTO_MAC_MODULE_DISABLED env) then ret (PSA_ERROR_NOT_SUPPORTED env) else
  handle ← load (handle_of operation);
  let iov := set_op_handle handle (set_alg alg (set_key_id key_id (iov_init TFM_CRYPTO_MAC_VERIFY_SETUP_SID))) in
  let in_vec :=
      [vec (at_iov iov) (sizeof_tfm_crypto_pack_iovec env)] in
  let out_vec :=
      [vec (at_obj (handle_of operation)) (sizeof_uint32_t)] in
  '(status, _) ← API_DISPATCH "tfm_crypto_mac_verify_setup" in_vec out_vec;
  ret status.

Definition psa_mac_update (operation : pointer) (input : pointer) (input_length : size_t)
  : api psa_status_t :=
  if ifdef (TFM_CRYPTO_MAC_MODULE_DISABLED env) then ret (PSA_ERROR_NOT_SUPPORTED env) else
  handle ← load (handle_of operation);
  let iov := set_op_handle handle (iov_init TFM_CRYPTO_MAC_UPDATE_SID) in
  let in_vec :=
      [vec (at_iov iov) (sizeof_tfm_crypto_pack_iovec env);
       vec (at_ptr input) (input_length)] in
  let out_vec :=
      [vec (at_obj (handle_of operation)) (sizeof_uint32_t)] in
  '(status, _) ← API_DISPATCH "tfm_crypto_mac_update" in_vec out_vec;
  ret status.

Definition psa_mac_sign_finish (operation : pointer) (mac : pointer) (mac_size : size_t) (mac_length : pointer)
  : api psa_status_t :=
  if ifdef (TFM_CRYPTO_MAC_MODULE_DISABLED env) then ret (PSA_ERROR_NOT_SUPPORTED env) else
  handle ← load (handle_of operation);
  let iov := set_op_handle handle (iov_init TFM_CRYPTO_MAC_SIGN_FINISH_SID) in
  let in_vec :=
      [vec (at_iov iov) (sizeof_tfm_crypto_pack_iovec env)] in
  let out_vec :=
      [vec (at_obj (handle_of operation)) (sizeof_uint32_t);
       vec (at_ptr mac) (mac_size)] in
  '(status, out_vec) ← API_DISPATCH "tfm_crypto_mac_sign_finish" in_vec out_vec;
  store mac_length (len (out_vec !!! 1%nat));;
  ret status.

Definition psa_mac_verify_finish (operation : pointer) (mac : pointer) (mac_length : size_t)
  : api psa_status_t :=
  if ifdef (TFM_CRYPTO_MAC_MODULE_DISABLED env) then ret (PSA_ERROR_NOT_SUPPORTED env) else
  handle ← load (handle_of operation);
  let iov := set_op_handle handle (iov_init TFM_CRYPTO_MAC_VERIFY_FINISH_SID) in
  let in_vec :=
      [vec (at_iov iov) (sizeof_tfm_crypto_pack_iovec env);
       vec (at_ptr mac) (mac_length)] in
  let out_vec :=
      [vec (at_obj (handle_of operation)) (sizeof_uint32_t)] in
  '(status, _) ← API_DISPATCH "tfm_crypto_mac_verify_finish" in_vec out_vec;
  ret status.

Definition psa_mac_abort (operation : pointer)
  : api psa_status_t :=
  if ifdef (TFM_CRYPTO_MAC_MODULE_DISABLED env) then ret (PSA_ERROR_NOT_SUPPORTED env) else
  handle ← load (handle_of operation);
  let iov := set_op_handle handle (iov_init TFM_CRYPTO_MAC_ABORT_SID) in
  let in_vec :=
      [vec (at_iov iov) (sizeof_tfm_crypto_pack_iovec env)] in
  let out_vec :=
      [vec (at_obj (handle_of operation)) (sizeof_uint32_t)] in
  '(status, _) ← API_DISPATCH "tfm_crypto_mac_abort" in_vec out_vec;
  ret status.

Definition psa_aead_encrypt (key_id : psa_key_id_t) (alg : psa_algorithm_t)
    (nonce : pointer) (nonce_length : size_t)
    (additional_data : pointer) (additional_data_length : size_t)
    (plaintext : pointer) (plaintext_length : size_t)
    (ciphertext : pointer) (ciphertext_size : size_t) (ciphertext_length : pointer)
  : api psa_status_t :=
  if ifdef (TFM_CRYPTO_AEAD_MODULE_DISABLED env) then ret (PSA_ERROR_NOT_SUPPORTED env) else
  let iov := set_alg alg (set_key_id key_id (iov_init TFM_CRYPTO_AEAD_ENCRYPT_SID)) in
  (* Sanitize the optional input *)
  if is_null additional_data && negb (additional_data_length =? 0)
  then ret (PSA_ERROR_INVALID_ARGUMENT env) else
  let in_vec :=
      [vec (at_ptr NULL) 0;
       vec (at_ptr plaintext) plaintext_length;
       vec (at_ptr additional_data) additional_data_length] in
  let out_vec :=
      [vec (at_ptr ciphertext) ciphertext_size] in
  if TFM_CRYPTO_MAX_NONCE_LENGTH env <? nonce_length
  then ret (PSA_ERROR_INVALID_ARGUMENT env) else
  iov ← (if negb (is_null nonce)
         then iov ← copy_nonce (Z.to_nat nonce_length) 0 nonce iov;
              ret (set_nonce_length nonce_length iov)
         else ret iov);
  let in_vec := <[0%nat := vec (at_iov iov) (sizeof_tfm_crypto_pack_iovec env)]> in_vec in
  '(status, out_vec) ←
    (if ifdef (TFM_PSA_API env)
     then let in_len := length in_vec in
          let in_len := if is_null additional_data then (in_len - 1)%nat else in_len in
          psa_call in_vec in_len out_vec (length out_vec)
     else API_DISPATCH "tfm_crypto_aead_encrypt" in_vec out_vec);
  store ciphertext_length (len (out_vec !!! 0%nat));;
  ret status.

Definition psa_aead_decrypt (key_id : psa_key_id_t) (alg : psa_algorithm_t)
    (nonce : pointer) (nonce_length : size_t)
    (additional_data : pointer) (additional_data_length : size_t)
    (ciphertext : pointer) (ciphertext_length : size_t)
    (plaintext : pointer) (plaintext_size : size_t) (plaintext_length : pointer)
  : api psa_status_t :=
  if ifdef (TFM_CRYPTO_AEAD_MODULE_DISABLED env) then ret (PSA_ERROR_NOT_SUPPORTED env) else
  let iov := set_alg alg (set_key_id key_id (iov_init TFM_CRYPTO_AEAD_DECRYPT_SID)) in
  (* Sanitize the optional input *)
  if is_null additional_data && negb (additional_data_length =? 0)
  then ret (PSA_ERROR_INVALID_ARGUMENT env) else
  let in_vec :=
      [vec (at_ptr NULL) 0;
       vec (at_ptr ciphertext) ciphertext_length;
       vec (at_ptr additional_data) additional_data_length] in
  let out_vec :=
      [vec (at_ptr plaintext) plaintext_size] in
  if TFM_CRYPTO_MAX_NONCE_LENGTH env <? nonce_length
  then ret (PSA_ERROR_INVALID_ARGUMENT env) else
  iov ← (if negb (is_null nonce)
         then iov ← copy_nonce (Z.to_nat nonce_length) 0 nonce iov;
              ret (set_nonce_length nonce_length iov)
         else ret iov);
  let in_vec := <[0%nat := vec (at_iov iov) (sizeof_tfm_crypto_pack_iovec env)]> in_vec in
  '(status, out_vec) ←
    (if ifdef (TFM_PSA_API env)
     then let in_len := length in_vec in
          let in_len := if is_null additional_data then (in_len - 1)%nat else in_len in
          psa_call in_vec in_len out_vec (length out_vec)
     else API_DISPATCH "tfm_crypto_aead_decrypt" in_vec out_vec);
  store plaintext_length (len (out_vec !!! 0%nat));;
  ret status.

Definition psa_aead_encrypt_setup (operation : pointer) (key : psa_key_id_t) (alg : psa_algorithm_t)
  : api psa_status_t :=
  if ifdef (TFM_CRYPTO_AEAD_MODULE_DISABLED env) then ret (PSA_ERROR_NOT_SUPPORTED env) else
  handle ← load (handle_of operation);
  let iov := set_op_handle handle (set_alg alg (set_key_id key (iov_init TFM_CRYPTO_AEAD_ENCRYPT_SETUP_SID))) in
  let in_vec :=
      [vec (at_iov iov) (sizeof_tfm_crypto_pack_iovec env)] in
  let out_vec :=
      [vec (at_obj (handle_of operation)) (sizeof_uint32_t)] in
  '(status, _) ← API_DISPATCH "tfm_crypto_aead_encrypt_setup" in_vec out_vec;
  ret status.

Definition psa_aead_decrypt_setup (operation : pointer) (key : psa_key_id_t) (alg : psa_algorithm_t)
  : api psa_status_t :=
  if ifdef (TFM_CRYPTO_AEAD_MODULE_DISABLED env) then ret (PSA_ERROR_NOT_SUPPORTED env) else
  handle ← load (handle_of operation);
  let iov := set_op_handle handle (set_alg alg (set_key_id key (iov_init TFM_CRYPTO_AEAD_DECRYPT_SETUP_SID))) in
  let in_vec :=
      [vec (at_iov iov) (sizeof_tfm_crypto_pack_iovec env)] in
  let out_vec :=
      [vec (at_obj (handle_of operation)) (sizeof_uint32_t)] in
  '(status, _) ← API_DISPATCH "tfm_crypto_aead_decrypt_setup" in_vec out_vec;
  ret status.

Definition psa_aead_generate_nonce (operation : pointer) (nonce : pointer) (nonce_size : size_t) (nonce_length : pointer)
  : api psa_status_t :=
  if ifdef (TFM_CRYPTO_AEAD_MODULE_DISABLED env) then ret (PSA_ERROR_NOT_SUPPORTED env) else
  handle ← load (handle_of operation);
  let iov := set_op_handle handle (iov_init TFM_CRYPTO_AEAD_GENERATE_NONCE_SID) in
  let in_vec :=
      [vec (at_iov iov) (sizeof_tfm_crypto_pack_iovec env)] in
  let out_vec :=
      [vec (at_obj (handle_of operation)) (sizeof_uint32_t);
       vec (at_ptr nonce) (nonce_size)] in
  '(status, out_vec) ← API_DISPATCH "tfm_crypto_aead_generate_nonce" in_vec out_vec;
  store nonce_length (len (out_vec !!! 1%nat));;
  ret status.

Definition psa_aead_set_nonce (operation : pointer) (nonce : pointer) (nonce_length : size_t)
  : api psa_status_t :=
  if ifdef (TFM_CRYPTO_AEAD_MODULE_DISABLED env) then ret (PSA_ERROR_NOT_SUPPORTED env) else
  handle ← load (handle_of operation);
  let iov := set_op_handle handle (iov_init TFM_CRYPTO_AEAD_SET_NONCE_SID) in
  let in_vec :=
      [vec (at_iov iov) (sizeof_tfm_crypto_pack_iovec env);
       vec (at_ptr nonce) (nonce_length)] in
  let out_vec :=
      [vec (at_obj (handle_of operation)) (sizeof_uint32_t)] in
  '(status, _) ← API_DISPATCH "tfm_crypto_aead_set_nonce" in_vec out_vec;
  ret status.

Definition psa_aead_set_lengths (operation : pointer) (ad_length : size_t) (plaintext_length : size_t)
  : api psa_status_t :=
  if ifdef (TFM_CRYPTO_AEAD_MODULE_DISABLED env) then ret (PSA_ERROR_NOT_SUPPORTED env) else
  handle ← load (handle_of operation);
  let iov := set_op_handle handle (set_plaintext_length plaintext_length (set_ad_length ad_length (iov_init TFM_CRYPTO_AEAD_SET_LENGTHS_SID))) in
  let in_vec :=
      [vec (at_iov iov) (sizeof_tfm_crypto_pack_iovec env)] in
  let out_vec :=
      [vec (at_obj (handle_of operation)) (sizeof_uint32_t)] in
  '(status, _) ← API_DISPATCH "tfm_crypto_aead_set_lengths" in_vec out_vec;
  ret status.

Definition psa_aead_update_ad (operation : pointer) (input : pointer) (input_length : size_t)
  : api psa_status_t :=
  if ifdef (TFM_CRYPTO_AEAD_MODULE_DISABLED env) then ret (PSA_ERROR_NOT_SUPPORTED env) else
  handle ← load (handle_of operation);
  let iov := set_op_handle handle (iov_init TFM_CRYPTO_AEAD_UPDATE_AD_SID) in
  (* Sanitize the optional input *)
  if is_null input && negb (input_length =? 0)
  then ret (PSA_ERROR_INVALID_ARGUMENT env) else
  let in_vec :=
      [vec (at_iov iov) (sizeof_tfm_crypto_pack_iovec env);
       vec (at_ptr input) input_length] in
  let out_vec :=
      [vec (at_obj (handle_of operation)) sizeof_uint32_t] in
  '(status, _) ←
    (if ifdef (TFM_PSA_API env)
     then let in_len := length in_vec in
          let in_len := if is_null input then (in_len - 1)%nat else in_len in
          psa_call in_vec in_len out_vec (length out_vec)
     else API_DISPATCH "tfm_crypto_aead_update_ad" in_vec out_vec);
  ret status.

Definition psa_aead_update (operation : pointer) (input : pointer) (input_length : size_t)
    (output : pointer) (output_size : size_t) (output_length : pointer)
  : api psa_status_t :=
  if ifdef (TFM_CRYPTO_AEAD_MODULE_DISABLED env) then ret (PSA_ERROR_NOT_SUPPORTED env) else
  handle ← load (handle_of operation);
  let iov := set_op_handle handle (iov_init TFM_CRYPTO_AEAD_UPDATE_SID) in
  (* Sanitize the optional input *)
  if is_null input && negb (input_length =? 0)
  then ret (PSA_ERROR_INVALID_ARGUMENT env) else
  let in_vec :=
      [vec (at_iov iov) (sizeof_tfm_crypto_pack_iovec env);
       vec (at_ptr input) input_length] in
  let out_vec :=
      [vec (at_obj (handle_of operation)) sizeof_uint32_t;
       vec (at_ptr output) output_size] in
  '(status, out_vec) ←
    (if ifdef (TFM_PSA_API env)
     then let in_len := length in_vec in
          let in_len := if is_null input then (in_len - 1)%nat else in_len in
          psa_call in_vec in_len out_vec (length out_vec)
     else API_DISPATCH "tfm_crypto_aead_update" in_vec out_vec);
  store output_length (len (out_vec !!! 1%nat));;
  ret status.

Definition psa_aead_finish (operation : pointer)
    (ciphertext : pointer) (ciphertext_size : size_t) (ciphertext_length : pointer)
    (tag : pointer) (tag_size : size_t) (tag_length : pointer)
  : api psa_status_t :=
  if ifdef (TFM_CRYPTO_AEAD_MODULE_DISABLED env) then ret (PSA_ERROR_NOT_SUPPORTED env) else
  handle ← load (handle_of operation);
  let iov := set_op_handle handle (iov_init TFM_CRYPTO_AEAD_FINISH_SID) in
  (* Sanitize the optional output *)
  if is_null ciphertext && negb (ciphertext_size =? 0)
  then ret (PSA_ERROR_INVALID_ARGUMENT env) else
  let in_vec :=
      [vec (at_iov iov) (sizeof_tfm_crypto_pack_iovec env)] in
  let out_vec :=
      [vec (at_obj (handle_of operation)) sizeof_uint32_t;
       vec (at_ptr tag) tag_size;
       vec (at_ptr ciphertext) ciphertext_size] in
  if ifdef (TFM_PSA_API env)
  then
    let out_len := length out_vec in
    let out_len := if is_null ciphertext || (ciphertext_size =? 0)
                   then (out_len - 1)%nat else out_len in
    if (out_len =? 3)%nat && is_null ciphertext_length
    then ret (PSA_ERROR_INVALID_ARGUMENT env) else
    '(status, out_vec) ← psa_call in_vec (length in_vec) out_vec out_len;
    (if (out_len =? 3)%nat
     then store ciphertext_length (len (out_vec !!! 2%nat))
     else store ciphertext_length 0);;
    store tag_length (len (out_vec !!! 1%nat));;
    ret status
  else
    '(status, out_vec) ← API_DISPATCH "tfm_crypto_aead_finish" in_vec out_vec;
    store ciphertext_length (len (out_vec !!! 2%nat));;
    store tag_length (len (out_vec !!! 1%nat));;
    ret status.

Definition psa_aead_verify (operation : pointer)
    (plaintext : pointer) (plaintext_size : size_t) (plaintext_length : pointer)
    (tag : pointer) (tag_length : size_t)
  : api psa_status_t :=
  if ifdef (TFM_CRYPTO_AEAD_MODULE_DISABLED env) then ret (PSA_ERROR_NOT_SUPPORTED env) else
  handle ← load (handle_of operation);
  let iov := set_op_handle handle (iov_init TFM_CRYPTO_AEAD_VERIFY_SID) in
  (* Sanitize the optional output *)
  if is_null plaintext && negb (plaintext_size =? 0)
  then ret (PSA_ERROR_INVALID_ARGUMENT env) else
  let in_vec :=
      [vec (at_iov iov) (sizeof_tfm_crypto_pack_iovec env);
       vec (at_ptr tag) tag_length] in
  let out_vec :=
      [vec (at_obj (handle_of operation)) sizeof_uint32_t;
       vec (at_ptr plaintext) plaintext_size] in
  if ifdef (TFM_PSA_API env)
  then
    let out_len := length out_vec in
    let out_len := if is_null plaintext || (plaintext_size =? 0)
                   then (out_len - 1)%nat else out_len in
    if (out_len =? 2)%nat && is_null plaintext_length
    then ret (PSA_ERROR_INVALID_ARGUMENT env) else
    '(status, out_vec) ← psa_call in_vec (length in_vec) out_vec out_len;
    (if (out_len =? 2)%nat
     then store plaintext_length (len (out_vec !!! 1%nat))
     else store plaintext_length 0);;
    ret status
  else
    '(status, out_vec) ← API_DISPATCH "tfm_crypto_aead_verify" in_vec out_vec;
    store plaintext_length (len (out_vec !!! 1%nat));;
    ret status.

Definition psa_aead_abort (operation : pointer)
  : api psa_status_t :=
  if ifdef (TFM_CRYPTO_AEAD_MODULE_DISABLED env) then ret (PSA_ERROR_NOT_SUPPORTED env) else
  handle ← load (handle_of operation);
  let iov := set_op_handle handle (iov_init TFM_CRYPTO_AEAD_ABORT_SID) in
  let in_vec :=
      [vec (at_iov iov) (sizeof_tfm_crypto_pack_iovec env)] in
  let out_vec :=
      [vec (at_obj (handle_of operation)) (sizeof_uint32_t)] in
  '(status, _) ← API_DISPATCH "tfm_crypto_aead_abort" in_vec out_vec;
  ret status.

Definition psa_sign_message (key_id : psa_key_id_t) (alg : psa_algorithm_t) (input : pointer) (input_length : size_t) (signature : pointer) (signature_size : size_t) (signature_length : pointer)
  : api psa_status_t :=
  if ifdef (TFM_CRYPTO_ASYM_SIGN_MODULE_DISABLED env) then ret (PSA_ERROR_NOT_SUPPORTED env) else
  let iov := set_alg alg (set_key_id key_id (iov_init TFM_CRYPTO_SIGN_MESSAGE_SID)) in
  let in_vec :=
      [vec (at_iov iov) (sizeof_tfm_crypto_pack_iovec env);
       vec (at_ptr input) (input_length)] in
  let out_vec :=
      [vec (at_ptr signature) (signature_size)] in
  '(status, out_vec) ← API_DISPATCH "tfm_crypto_sign_message" in_vec out_vec;
  store signature_length (len (out_vec !!! 0%nat));;
  ret status.

Definition psa_verify_message (key_id : psa_key_id_t) (alg : psa_algorithm_t) (input : pointer) (input_length : size_t) (signature : pointer) (signature_length : size_t)
  : api psa_status_t :=
  if ifdef (TFM_CRYPTO_ASYM_SIGN_MODULE_DISABLED env) then ret (PSA_ERROR_NOT_SUPPORTED env) else
  let iov := set_alg alg (set_key_id key_id (iov_init TFM_CRYPTO_VERIFY_MESSAGE_SID)) in
  let in_vec :=
      [vec (at_iov iov) (sizeof_tfm_crypto_pack_iovec env);
       vec (at_ptr input) (input_length);
       vec (at_ptr signature) (signature_length)] in
  status ← API_DISPATCH_NO_OUTVEC "tfm_crypto_verify_message" in_vec;
  ret status.

Definition psa_sign_hash (key_id : psa_key_id_t) (alg : psa_algorithm_t) (hash : pointer) (hash_length : size_t) (signature : pointer) (signature_size : size_t) (signature_length : pointer)
  : api psa_status_t :=
  if ifdef (TFM_CRYPTO_ASYM_SIGN_MODULE_DISABLED env) then ret (PSA_ERROR_NOT_SUPPORTED env) else
  let iov := set_alg alg (set_key_id key_id (iov_init TFM_CRYPTO_SIGN_HASH_SID)) in
  let in_vec :=
      [vec (at_iov iov) (sizeof_tfm_crypto_pack_iovec env);
       vec (at_ptr hash) (hash_length)] in
  let out_vec :=
      [vec (at_ptr signature) (signature_size)] in
  '(status, out_vec) ← API_DISPATCH "tfm_crypto_sign_hash" in_vec out_vec;
  store signature_length (len (out_vec !!! 0%nat));;
  ret status.

Definition psa_verify_hash (key_id : psa_key_id_t) (alg : psa_algorithm_t) (hash : pointer) (hash_length : size_t) (signature : pointer) (signature_length : size_t)
  : api psa_status_t :=
  if ifdef (TFM_CRYPTO_ASYM_SIGN_MODULE_DISABLED env) then ret (PSA_ERROR_NOT_SUPPORTED env) else
  let iov := set_alg alg (set_key_id key_id (iov_init TFM_CRYPTO_VERIFY_HASH_SID)) in
  let in_vec :=
      [vec (at_iov iov) (sizeof_tfm_crypto_pack_iovec env);
       vec (at_ptr hash) (hash_length);
       vec (at_ptr signature) (signature_length)] in
  status ← API_DISPATCH_NO_OUTVEC "tfm_crypto_verify_hash" in_vec;
  ret status.

Definition psa_asymmetric_encrypt (key_id : psa_key_id_t) (alg : psa_algorithm_t)
    (input : pointer) (input_length : size_t)
    (salt : pointer) (salt_length : size_t)
    (output : pointer) (output_size : size_t) (output_length : pointer)
  : api psa_status_t :=
  if ifdef (TFM_CRYPTO_ASYM_ENCRYPT_MODULE_DISABLED env) then ret (PSA_ERROR_NOT_SUPPORTED env) else
  let iov := set_alg alg (set_key_id key_id (iov_init TFM_CRYPTO_ASYMMETRIC_ENCRYPT_SID)) in
  (* Sanitize the optional input *)
  if is_null salt && negb (salt_length =? 0)
  then ret (PSA_ERROR_INVALID_ARGUMENT env) else
  let in_vec :=
      [vec (at_iov iov) (sizeof_tfm_crypto_pack_iovec env);
       vec (at_ptr input) input_length;
       vec (at_ptr salt) salt_length] in
  let out_vec :=
      [vec (at_ptr output) output_size] in
  '(status, out_vec) ←
    (if ifdef (TFM_PSA_API env)
     then let in_len := length in_vec in
          let in_len := if is_null salt then (in_len - 1)%nat else in_len in
          psa_call in_vec in_len out_vec (length out_vec)
     else API_DISPATCH "tfm_crypto_asymmetric_encrypt" in_vec out_vec);
  store output_length (len (out_vec !!! 0%nat));;
  ret status.

Definition psa_asymmetric_decrypt (key_id : psa_key_id_t) (alg : psa_algorithm_t)
    (input : pointer) (input_length : size_t)
    (salt : pointer) (salt_length : size_t)
    (output : pointer) (output_size : size_t) (output_length : pointer)
  : api psa_status_t :=
  if ifdef (TFM_CRYPTO_ASYM_ENCRYPT_MODULE_DISABLED env) then ret (PSA_ERROR_NOT_SUPPORTED env) else
  let iov := set_alg alg (set_key_id key_id (iov_init TFM_CRYPTO_ASYMMETRIC_DECRYPT_SID)) in
  (* Sanitize the optional input *)
  if is_null salt && negb (salt_length =? 0)
  then ret (PSA_ERROR_INVALID_ARGUMENT env) else
  let in_vec :=
      [vec (at_iov iov) (sizeof_tfm_crypto_pack_iovec env);
       vec (at_ptr input) input_length;
       vec (at_ptr salt) salt_length] in
  let out_vec :=
      [vec (at_ptr output) output_size] in
  '(status, out_vec) ←
    (if ifdef (TFM_PSA_API env)
     then let in_len := length in_vec in
          let in_len := if is_null salt then (in_len - 1)%nat else in_len in
          psa_call in_vec in_len out_vec (length out_vec)
     else API_DISPATCH "tfm_crypto_asymmetric_decrypt" in_vec out_vec);
  store output_length (len (out_vec !!! 0%nat));;
  ret status.

Definition psa_key_derivation_get_capacity (operation : pointer) (capacity : pointer)
  : api psa_status_t :=
  if ifdef (TFM_CRYPTO_KEY_DERIVATION_MODULE_DISABLED env) then ret (PSA_ERROR_NOT_SUPPORTED env) else
  handle ← load (handle_of operation);
  let iov := set_op_handle handle (iov_init TFM_CRYPTO_KEY_DERIVATION_GET_CAPACITY_SID) in
  let in_vec :=
      [vec (at_iov iov) (sizeof_tfm_crypto_pack_iovec env)] in
  let out_vec :=
      [vec (at_obj (handle_of operation)) (sizeof_uint32_t);
       vec (at_obj capacity) (sizeof_size_t env)] in
  '(status, _) ← API_DISPATCH "tfm_crypto_key_derivation_get_capacity" in_vec out_vec;
  ret status.

Definition psa_key_derivation_output_bytes (operation : pointer) (output : pointer) (output_length : size_t)
  : api psa_status_t :=
  if ifdef (TFM_CRYPTO_KEY_DERIVATION_MODULE_DISABLED env) then ret (PSA_ERROR_NOT_SUPPORTED env) else
  handle ← load (handle_of operation);
  let iov := set_op_handle handle (iov_init TFM_CRYPTO_KEY_DERIVATION_OUTPUT_BYTES_SID) in
  let in_vec :=
      [vec (at_iov iov) (sizeof_tfm_crypto_pack_iovec env)] in
  let out_vec :=
      [vec (at_ptr output) (output_length)] in
  '(status, _) ← API_DISPATCH "tfm_crypto_key_derivation_output_bytes" in_vec out_vec;
  ret status.

Definition psa_key_derivation_input_key (operation : pointer) (step : psa_key_derivation_step_t) (key_id : psa_key_id_t)
  : api psa_status_t :=
  if ifdef (TFM_CRYPTO_KEY_DERIVATION_MODULE_DISABLED env) then ret (PSA_ERROR_NOT_SUPPORTED env) else
  handle ← load (handle_of operation);
  let iov := set_op_handle handle (set_step step (set_key_id key_id (iov_init TFM_CRYPTO_KEY_DERIVATION_INPUT_KEY_SID))) in
  let in_vec :=
      [vec (at_iov iov) (sizeof_tfm_crypto_pack_iovec env)] in
  let out_vec :=
      [vec (at_obj (handle_of operation)) (sizeof_uint32_t)] in
  '(status, _) ← API_DISPATCH "tfm_crypto_key_derivation_input_key" in_vec out_vec;
  ret status.

Definition psa_key_derivation_abort (operation : pointer)
  : api psa_status_t :=
  if ifdef (TFM_CRYPTO_KEY_DERIVATION_MODULE_DISABLED env) then ret (PSA_ERROR_NOT_SUPPORTED env) else
  handle ← load (handle_of operation);
  let iov := set_op_handle handle (iov_init TFM_CRYPTO_KEY_DERIVATION_ABORT_SID) in
  let in_vec :=
      [vec (at_iov iov) (sizeof_tfm_crypto_pack_iovec env)] in
  let out_vec :=
      [vec (at_obj (handle_of operation)) (sizeof_uint32_t)] in
  '(status, _) ← API_DISPATCH "tfm_crypto_key_derivation_abort" in_vec out_vec;
  ret status.

Definition psa_key_derivation_key_agreement (operation : pointer) (step : psa_key_derivation_step_t) (private_key : psa_key_id_t) (peer_key : pointer) (peer_key_length : size_t)
  : api psa_status_t :=
  if ifdef (TFM_CRYPTO_KEY_DERIVATION_MODULE_DISABLED env) then ret (PSA_ERROR_NOT_SUPPORTED env) else
  handle ← load (handle_of operation);
  let iov := set_op_handle handle (set_step step (set_key_id private_key (iov_init TFM_CRYPTO_KEY_DERIVATION_KEY_AGREEMENT_SID))) in
  let in_vec :=
      [vec (at_iov iov) (sizeof_tfm_crypto_pack_iovec env);
       vec (at_ptr peer_key) (peer_key_length)] in
  let out_vec :=
      [vec (at_obj (handle_of operation)) (sizeof_uint32_t)] in
  '(status, _) ← API_DISPATCH "tfm_crypto_key_derivation_key_agreement" in_vec out_vec;
  ret status.

Definition psa_generate_random (output : pointer) (output_size : size_t)
  : api psa_status_t :=
  if ifdef (TFM_CRYPTO_RNG_MODULE_DISABLED env) then ret (PSA_ERROR_NOT_SUPPORTED env) else
  let iov := iov_init TFM_CRYPTO_GENERATE_RANDOM_SID in
  let in_vec :=
      [vec (at_iov iov) (sizeof_tfm_crypto_pack_iovec env)] in
  let out_vec :=
      [vec (at_ptr output) output_size] in
  if output_size =? 0 then ret (PSA_SUCCESS env) else
  '(status, _) ← API_DISPATCH "tfm_crypto_generate_random" in_vec out_vec;
  ret status.

Definition psa_generate_key (attributes : pointer) (key_id : pointer)
  : api psa_status_t :=
  if ifdef (TFM_CRYPTO_KEY_MODULE_DISABLED env) then ret (PSA_ERROR_NOT_SUPPORTED env) else
  let iov := iov_init TFM_CRYPTO_GENERATE_KEY_SID in
  let in_vec :=
      [vec (at_iov iov) (sizeof_tfm_crypto_pack_iovec env);
       vec (at_obj attributes) (sizeof_psa_key_attributes_t env)] in
  let out_vec :=
      [vec (at_obj key_id) (sizeof_psa_key_id_t env)] in
  '(status, _) ← API_DISPATCH "tfm_crypto_generate_key" in_vec out_vec;
  ret status.

Definition psa_mac_compute (key_id : psa_key_id_t) (alg : psa_algorithm_t) (input : pointer) (input_length : size_t) (mac : pointer) (mac_size : size_t) (mac_length : pointer)
  : api psa_status_t :=
  if ifdef (TFM_CRYPTO_MAC_MODULE_DISABLED env) then ret (PSA_ERROR_NOT_SUPPORTED env) else
  let iov := set_alg alg (set_key_id key_id (iov_init TFM_CRYPTO_MAC_COMPUTE_SID)) in
  let in_vec :=
      [vec (at_iov iov) (sizeof_tfm_crypto_pack_iovec env);
       vec (at_ptr input) (input_length)] in
  let out_vec :=
      [vec (at_ptr mac) (mac_size)] in
  '(status, out_vec) ← API_DISPATCH "tfm_crypto_mac_compute" in_vec out_vec;
  store mac_length (len (out_vec !!! 0%nat));;
  ret status.

Definition psa_mac_verify (key_id : psa_key_id_t) (alg : psa_algorithm_t) (input : pointer) (input_length : size_t) (mac : pointer) (mac_length : size_t)
  : api psa_status_t :=
  if ifdef (TFM_CRYPTO_MAC_MODULE_DISABLED env) then ret (PSA_ERROR_NOT_SUPPORTED env) else
  let iov := set_alg alg (set_key_id key_id (iov_init TFM_CRYPTO_MAC_VERIFY_SID)) in
  let in_vec :=
      [vec (at_iov iov) (sizeof_tfm_crypto_pack_iovec env);
       vec (at_ptr input) (input_length);
       vec (at_ptr mac) (mac_length)] in
  status ← API_DISPATCH_NO_OUTVEC "tfm_crypto_mac_verify" in_vec;
  ret status.

Definition psa_cipher_encrypt (key_id : psa_key_id_t) (alg : psa_algorithm_t) (input : pointer) (input_length : size_t) (output : pointer) (output_size : size_t) (output_length : pointer)
  : api psa_status_t :=
  if ifdef (TFM_CRYPTO_CIPHER_MODULE_DISABLED env) then ret (PSA_ERROR_NOT_SUPPORTED env) else
  let iov := set_alg alg (set_key_id key_id (iov_init TFM_CRYPTO_CIPHER_ENCRYPT_SID)) in
  let in_vec :=
      [vec (at_iov iov) (sizeof_tfm_crypto_pack_iovec env);
       vec (at_ptr input) (input_length)] in
  let out_vec :=
      [vec (at_ptr output) (output_size)] in
  '(status, out_vec) ← API_DISPATCH "tfm_crypto_cipher_encrypt" in_vec out_vec;
  store output_length (len (out_vec !!! 0%nat));;
  ret status.

Definition psa_cipher_decrypt (key_id : psa_key_id_t) (alg : psa_algorithm_t) (input : pointer) (input_length : size_t) (output : pointer) (output_size : size_t) (output_length : pointer)
  : api psa_status_t :=
  if ifdef (TFM_CRYPTO_CIPHER_MODULE_DISABLED env) then ret (PSA_ERROR_NOT_SUPPORTED env) else
  let iov := set_alg alg (set_key_id key_id (iov_init TFM_CRYPTO_CIPHER_DECRYPT_SID)) in
  let in_vec :=
      [vec (at_iov iov) (sizeof_tfm_crypto_pack_iovec env);
       vec (at_ptr input) (input_length)] in
  let out_vec :=
      [vec (at_ptr output) (output_size)] in
  '(status, out_vec) ← API_DISPATCH "tfm_crypto_cipher_decrypt" in_vec out_vec;
  store output_length (len (out_vec !!! 0%nat));;
  ret status.

Definition psa_raw_key_agreement (alg : psa_algorithm_t) (private_key : psa_key_id_t) (peer_key : pointer) (peer_key_length : size_t) (output : pointer) (output_size : size_t) (output_length : pointer)
  : api psa_status_t :=
  if ifdef (TFM_CRYPTO_KEY_DERIVATION_MODULE_DISABLED env) then ret (PSA_ERROR_NOT_SUPPORTED env) else
  let iov := set_key_id private_key (set_alg alg (iov_init TFM_CRYPTO_RAW_KEY_AGREEMENT_SID)) in
  let in_vec :=
      [vec (at_iov iov) (sizeof_tfm_crypto_pack_iovec env);
       vec (at_ptr peer_key) (peer_key_length)] in
  let out_vec :=
      [vec (at_ptr output) (output_size)] in
  '(status, out_vec) ← API_DISPATCH "tfm_crypto_raw_key_agreement" in_vec out_vec;
  store output_length (len (out_vec !!! 0%nat));;
  ret status.

Definition psa_key_derivation_setup (operation : pointer) (alg : psa_algorithm_t)
  : api psa_status_t :=
  if ifdef (TFM_CRYPTO_KEY_DERIVATION_MODULE_DISABLED env) then ret (PSA_ERROR_NOT_SUPPORTED env) else
  handle ← load (handle_of operation);
  let iov := set_op_handle handle (set_alg alg (iov_init TFM_CRYPTO_KEY_DERIVATION_SETUP_SID)) in
  let in_vec :=
      [vec (at_iov iov) (sizeof_tfm_crypto_pack_iovec env)] in
  let out_vec :=
      [vec (at_obj (handle_of operation)) (sizeof_uint32_t)] in
  '(status, _) ← API_DISPATCH "tfm_crypto_key_derivation_setup" in_vec out_vec;
  ret status.

Definition psa_key_derivation_set_capacity (operation : pointer) (capacity : size_t)
  : api psa_status_t :=
  if ifdef (TFM_CRYPTO_KEY_DERIVATION_MODULE_DISABLED env) then ret (PSA_ERROR_NOT_SUPPORTED env) else
  handle ← load (handle_of operation);
  let iov := set_op_handle handle (set_capacity capacity (iov_init TFM_CRYPTO_KEY_DERIVATION_SET_CAPACITY_SID)) in
  let in_vec :=
      [vec (at_iov iov) (sizeof_tfm_crypto_pack_iovec env)] in
  let out_vec :=
      [vec (at_obj (handle_of operation)) (sizeof_uint32_t)] in
  '(status, _) ← API_DISPATCH "tfm_crypto_key_derivation_set_capacity" in_vec out_vec;
  ret status.

Definition psa_key_derivation_input_bytes (operation : pointer) (step : psa_key_derivation_step_t) (data : pointer) (data_length : size_t)
  : api psa_status_t :=
  if ifdef (TFM_CRYPTO_KEY_DERIVATION_MODULE_DISABLED env) then ret (PSA_ERROR_NOT_SUPPORTED env) else
  handle ← load (handle_of operation);
  let iov := set_op_handle handle (set_step step (iov_init TFM_CRYPTO_KEY_DERIVATION_INPUT_BYTES_SID)) in
  let in_vec :=
      [vec (at_iov iov) (sizeof_tfm_crypto_pack_iovec env);
       vec (at_ptr data) (data_length)] in
  let out_vec :=
      [vec (at_obj (handle_of operation)) (sizeof_uint32_t)] in
  '(status, _) ← API_DISPATCH "tfm_crypto_key_derivation_input_bytes" in_vec out_vec;
  ret status.

Definition psa_key_derivation_output_key (attributes : pointer) (operation : pointer) (key_id : pointer)
  : api psa_status_t :=
  if ifdef (TFM_CRYPTO_KEY_DERIVATION_MODULE_DISABLED env) then ret (PSA_ERROR_NOT_SUPPORTED env) else
  handle ← load (handle_of operation);
  let iov := set_op_handle handle (iov_init TFM_CRYPTO_KEY_DERIVATION_OUTPUT_KEY_SID) in
  let in_vec :=
      [vec (at_iov iov) (sizeof_tfm_crypto_pack_iovec env);
       vec (at_obj attributes) (sizeof_psa_key_attributes_t env)] in
  let out_vec :=
      [vec (at_obj (handle_of operation)) (sizeof_uint32_t);
       vec (at_obj key_id) (sizeof_psa_key_id_t env)] in
  '(status, _) ← API_DISPATCH "tfm_crypto_key_derivation_output_key" in_vec out_vec;
  ret status.

End EntryPoints.

(** ** Calls as data

    One constructor per entry point, carrying its arguments, so that
    statements can range over every operation of the layer and over
    sequences of calls. *)
Inductive api_call :=
| call_crypto_init
| call_open_key (id : psa_key_id_t) (key_id : pointer)
| call_close_key (key_id : psa_key_id_t)
| call_import_key (attributes : pointer) (data : pointer) (data_length : size_t) (key_id : pointer)
| call_destroy_key (key_id : psa_key_id_t)
| call_get_key_attributes (key_id : psa_key_id_t) (attributes : pointer)
| call_reset_key_attributes (attributes : pointer)
| call_export_key (key_id : psa_key_id_t) (data : pointer) (data_size : size_t) (data_length : pointer)
| call_export_public_key (key_id : psa_key_id_t) (data : pointer) (data_size : size_t) (data_length : pointer)
| call_purge_key (key_id : psa_key_id_t)
| call_copy_key (source_key_id : psa_key_id_t) (attributes : pointer) (target_key_id : pointer)
| call_cipher_generate_iv (operation : pointer) (iv : pointer) (iv_size : size_t) (iv_length : pointer)
| call_cipher_set_iv (operation : pointer) (iv : pointer) (iv_length : size_t)
| call_cipher_encrypt_setup (operation : pointer) (key_id : psa_key_id_t) (alg : psa_algorithm_t)
| call_cipher_decrypt_setup (operation : pointer) (key_id : psa_key_id_t) (alg : psa_algorithm_t)
| call_cipher_update (operation : pointer) (input : pointer) (input_length : size_t) (output : pointer) (output_size : size_t) (output_length : pointer)
| call_cipher_abort (operation : pointer)
| call_cipher_finish (operation : pointer) (output : pointer) (output_size : size_t) (output_length : pointer)
| call_hash_setup (operation : pointer) (alg : psa_algorithm_t)
| call_hash_update (operation : pointer) (input : pointer) (input_length : size_t)
| call_hash_finish (operation : pointer) (hash : pointer) (hash_size : size_t) (hash_length : pointer)
| call_hash_verify (operation : pointer) (hash : pointer) (hash_length : size_t)
| call_hash_abort (operation : pointer)
| call_hash_clone (source_operation : pointer) (target_operation : pointer)
| call_hash_compute (alg : psa_algorithm_t) (input : pointer) (input_length : size_t) (hash : pointer) (hash_size : size_t) (hash_length : pointer)
| call_hash_compare (alg : psa_algorithm_t) (input : pointer) (input_length : size_t) (hash : pointer) (hash_length : size_t)
| call_mac_sign_setup (operation : pointer) (key_id : psa_key_id_t) (alg : psa_algorithm_t)
| call_mac_verify_setup (operation : pointer) (key_id : psa_key_id_t) (alg : psa_algorithm_t)
| call_mac_update (operation : pointer) (input : pointer) (input_length : size_t)
| call_mac_sign_finish (operation : pointer) (mac : pointer) (mac_size : size_t) (mac_length : pointer)
| call_mac_verify_finish (operation : pointer) (mac : pointer) (mac_length : size_t)
| call_mac_abort (operation : pointer)
| call_aead_encrypt (key_id : psa_key_id_t) (alg : psa_algorithm_t) (nonce : pointer) (nonce_length : size_t) (additional_data : pointer) (additional_data_length : size_t) (plaintext : pointer) (plaintext_length : size_t) (ciphertext : pointer) (ciphertext_size : size_t) (ciphertext_length : pointer)
| call_aead_decrypt (key_id : psa_key_id_t) (alg : psa_algorithm_t) (nonce : pointer) (nonce_length : size_t) (additional_data : pointer) (additional_data_length : size_t) (ciphertext : pointer) (ciphertext_length : size_t) (plaintext : pointer) (plaintext_size : size_t) (plaintext_length : pointer)
| call_aead_encrypt_setup (operation : pointer) (key : psa_key_id_t) (alg : psa_algorithm_t)
| call_aead_decrypt_setup (operation : pointer) (key : psa_key_id_t) (alg : psa_algorithm_t)
| call_aead_generate_nonce (operation : pointer) (nonce : pointer) (nonce_size : size_t) (nonce_length : pointer)
| call_aead_set_nonce (operation : pointer) (nonce : pointer) (nonce_length : size_t)
| call_aead_set_lengths (operation : pointer) (ad_length : size_t) (plaintext_length : size_t)
| call_aead_update_ad (operation : pointer) (input : pointer) (input_length : size_t)
| call_aead_update (operation : pointer) (input : pointer) (input_length : size_t) (output : pointer) (output_size : size_t) (output_length : pointer)
| call_aead_finish (operation : pointer) (ciphertext : pointer) (ciphertext_size : size_t) (ciphertext_length : pointer) (tag : pointer) (tag_size : size_t) (tag_length : pointer)
| call_aead_verify (operation : pointer) (plaintext : pointer) (plaintext_size : size_t) (plaintext_length : pointer) (tag : pointer) (tag_length : size_t)
| call_aead_abort (operation : pointer)
| call_sign_message (key_id : psa_key_id_t) (alg : psa_algorithm_t) (input : pointer) (input_length : size_t) (signature : pointer) (signature_size : size_t) (signature_length : pointer)
| call_verify_message (key_id : psa_key_id_t) (alg : psa_algorithm_t) (input : pointer) (input_length : size_t) (signature : pointer) (signature_length : size_t)
| call_sign_hash (key_id : psa_key_id_t) (alg : psa_algorithm_t) (hash : pointer) (hash_length : size_t) (signature : pointer) (signature_size : size_t) (signature_length : pointer)
| call_verify_hash (key_id : psa_key_id_t) (alg : psa_algorithm_t) (hash : pointer) (hash_length : size_t) (signature : pointer) (signature_length : size_t)
| call_asymmetric_encrypt (key_id : psa_key_id_t) (alg : psa_algorithm_t) (input : pointer) (input_length : size_t) (salt : pointer) (salt_length : size_t) (output : pointer) (output_size : size_t) (output_length : pointer)
| call_asymmetric_decrypt (key_id : psa_key_id_t) (alg : psa_algorithm_t) (input : pointer) (input_length : size_t) (salt : pointer) (salt_length : size_t) (output : pointer) (output_size : size_t) (output_length : pointer)
| call_key_derivation_get_capacity (operation : pointer) (capacity : pointer)
| call_key_derivation_output_bytes (operation : pointer) (output : pointer) (output_length : size_t)
| call_key_derivation_input_key (operation : pointer) (step : psa_key_derivation_step_t) (key_id : psa_key_id_t)
| call_key_derivation_abort (operation : pointer)
| call_key_derivation_key_agreement (operation : pointer) (step : psa_key_derivation_step_t) (private_key : psa_key_id_t) (peer_key : pointer) (peer_key_length : size_t)
| call_generate_random (output : pointer) (output_size : size_t)
| call_generate_key (attributes : pointer) (key_id : pointer)
| call_mac_compute (key_id : psa_key_id_t) (alg : psa_algorithm_t) (input : pointer) (input_length : size_t) (mac : pointer) (mac_size : size_t) (mac_length : pointer)
| call_mac_verify (key_id : psa_key_id_t) (alg : psa_algorithm_t) (input : pointer) (input_length : size_t) (mac : pointer) (mac_length : size_t)
| call_cipher_encrypt (key_id : psa_key_id_t) (alg : psa_algorithm_t) (input : pointer) (input_length : size_t) (output : pointer) (output_size : size_t) (output_length : pointer)
| call_cipher_decrypt (key_id : psa_key_id_t) (alg : psa_algorithm_t) (input : pointer) (input_length : size_t) (output : pointer) (output_size : size_t) (output_length : pointer)
| call_raw_key_agreement (alg : psa_algorithm_t) (private_key : psa_key_id_t) (peer_key : pointer) (peer_key_length : size_t) (output : pointer) (output_size : size_t) (output_length : pointer)
| call_key_derivation_setup (operation : pointer) (alg : psa_algorithm_t)
| call_key_derivation_set_capacity (operation : pointer) (capacity : size_t)
| call_key_derivation_input_bytes (operation : pointer) (step : psa_key_derivation_step_t) (data : pointer) (data_length : size_t)
| call_key_derivation_output_key (attributes : pointer) (operation : pointer) (key_id : pointer).

Section Invoke.

Context (env : tfm_build) (svc : service).

(** Performs a call; the result is the returned status, [None] for the one
    [void] entry point. *)
Definition invoke (c : api_call) : api (option psa_status_t) :=
  match c with
  | call_crypto_init =>
      status ← psa_crypto_init env; ret (Some status)
  | call_open_key id key_id =>
      status ← psa_open_key env svc id key_id; ret (Some status)
  | call_close_key key_id =>
      status ← psa_close_key env svc key_id; ret (Some status)
  | call_import_key attributes data data_length key_id =>
      status ← psa_import_key env svc attributes data data_length key_id; ret (Some status)
  | call_destroy_key key_id =>
      status ← psa_destroy_key env svc key_id; ret (Some status)
  | call_get_key_attributes key_id attributes =>
      status ← psa_get_key_attributes env svc key_id attributes; ret (Some status)
  | call_reset_key_attributes attributes =>
      psa_reset_key_attributes env svc attributes;; ret None
  | call_export_key key_id data data_size data_length =>
      status ← psa_export_key env svc key_id data data_size data_length; ret (Some status)
  | call_export_public_key key_id data data_size data_length =>
      status ← psa_export_public_key env svc key_id data data_size data_length; ret (Some status)
  | call_purge_key key_id =>
      status ← psa_purge_key env svc key_id; ret (Some status)
  | call_copy_key source_key_id attributes target_key_id =>
      status ← psa_copy_key env svc source_key_id attributes target_key_id; ret (Some status)
  | call_cipher_generate_iv operation iv iv_size iv_length =>
      status ← psa_cipher_generate_iv env svc operation iv iv_size iv_length; ret (Some status)
  | call_cipher_set_iv operation iv iv_length =>
      status ← psa_cipher_set_iv env svc operation iv iv_length; ret (Some status)
  | call_cipher_encrypt_setup operation key_id alg =>
      status ← psa_cipher_encrypt_setup env svc operation key_id alg; ret (Some status)
  | call_cipher_decrypt_setup operation key_id alg =>
      status ← psa_cipher_decrypt_setup env svc operation key_id alg; ret (Some status)
  | call_cipher_update operation input input_length output output_size output_length =>
      status ← psa_cipher_update env svc operation input input_length output output_size output_length; ret (Some status)
  | call_cipher_abort operation =>
      status ← psa_cipher_abort env svc operation; ret (Some status)
  | call_cipher_finish operation output output_size output_length =>
      status ← psa_cipher_finish env svc operation output output_size output_length; ret (Some status)
  | call_hash_setup operation alg =>
      status ← psa_hash_setup env svc operation alg; ret (Some status)
  | call_hash_update operation input input_length =>
      status ← psa_hash_update env svc operation input input_length; ret (Some status)
  | call_hash_finish operation hash hash_size hash_length =>
      status ← psa_hash_finish env svc operation hash hash_size hash_length; ret (Some status)
  | call_hash_verify operation hash hash_length =>
      status ← psa_hash_verify env svc operation hash hash_length; ret (Some status)
  | call_hash_abort operation =>
      status ← psa_hash_abort env svc operation; ret (Some status)
  | call_hash_clone source_operation target_operation =>
      status ← psa_hash_clone env svc source_operation target_operation; ret (Some status)
  | call_hash_compute alg input input_length hash hash_size hash_length =>
      status ← psa_hash_compute env svc alg input input_length hash hash_size hash_length; ret (Some status)
  | call_hash_compare alg input input_length hash hash_length =>
      status ← psa_hash_compare env svc alg input input_length hash hash_length; ret (Some status)
  | call_mac_sign_setup operation key_id alg =>
      status ← psa_mac_sign_setup env svc operation key_id alg; ret (Some status)
  | call_mac_verify_setup operation key_id alg =>
      status ← psa_mac_verify_setup env svc operation key_id alg; ret (Some status)
  | call_mac_update operation input input_length =>
      status ← psa_mac_update env svc operation input input_length; ret (Some status)
  | call_mac_sign_finish operation mac mac_size mac_length =>
      status ← psa_mac_sign_finish env svc operation mac mac_size mac_length; ret (Some status)
  | call_mac_verify_finish operation mac mac_length =>
      status ← psa_mac_verify_finish env svc operation mac mac_length; ret (Some status)
  | call_mac_abort operation =>
      status ← psa_mac_abort env svc operation; ret (Some status)
  | call_aead_encrypt key_id alg nonce nonce_length additional_data additional_data_length plaintext plaintext_length ciphertext ciphertext_size ciphertext_length =>
      status ← psa_aead_encrypt env svc key_id alg nonce nonce_length additional_data additional_data_length plaintext plaintext_length ciphertext ciphertext_size ciphertext_length; ret (Some status)
  | call_aead_decrypt key_id alg nonce nonce_length additional_data additional_data_length ciphertext ciphertext_length plaintext plaintext_size plaintext_length =>
      status ← psa_aead_decrypt env svc key_id alg nonce nonce_length additional_data additional_data_length ciphertext ciphertext_length plaintext plaintext_size plaintext_length; ret (Some status)
  | call_aead_encrypt_setup operation key alg =>
      status ← psa_aead_encrypt_setup env svc operation key alg; ret (Some status)
  | call_aead_decrypt_setup operation key alg =>
      status ← psa_aead_decrypt_setup env svc operation key alg; ret (Some status)
  | call_aead_generate_nonce operation nonce nonce_size nonce_length =>
      status ← psa_aead_generate_nonce env svc operation nonce nonce_size nonce_length; ret (Some status)
  | call_aead_set_nonce operation nonce nonce_length =>
      status ← psa_aead_set_nonce env svc operation nonce nonce_length; ret (Some status)
  | call_aead_set_lengths operation ad_length plaintext_length =>
      status ← psa_aead_set_lengths env svc operation ad_length plaintext_length; ret (Some status)
  | call_aead_update_ad operation input input_length =>
      status ← psa_aead_update_ad env svc operation input input_length; ret (Some status)
  | call_aead_update operation input input_length output output_size output_length =>
      status ← psa_aead_update env svc operation input input_length output output_size output_length; ret (Some status)
  | call_aead_finish operation ciphertext ciphertext_size ciphertext_length tag tag_size tag_length =>
      status ← psa_aead_finish env svc operation ciphertext ciphertext_size ciphertext_length tag tag_size tag_length; ret (Some status)
  | call_aead_verify operation plaintext plaintext_size plaintext_length tag tag_length =>
      status ← psa_aead_verify env svc operation plaintext plaintext_size plaintext_length tag tag_length; ret (Some status)
  | call_aead_abort operation =>
      status ← psa_aead_abort env svc operation; ret (Some status)
  | call_sign_message key_id alg input input_length signature signature_size signature_length =>
      status ← psa_sign_message env svc key_id alg input input_length signature signature_size signature_length; ret (Some status)
  | call_verify_message key_id alg input input_length signature signature_length =>
      status ← psa_verify_message env svc key_id alg input input_length signature signature_length; ret (Some status)
  | call_sign_hash key_id alg hash hash_length signature signature_size signature_length =>
      status ← psa_sign_hash env svc key_id alg hash hash_length signature signature_size signature_length; ret (Some status)
  | call_verify_hash key_id alg hash hash_length signature signature_length =>
      status ← psa_verify_hash env svc key_id alg hash hash_length signature signature_length; ret (Some status)
  | call_asymmetric_encrypt key_id alg input input_length salt salt_length output output_size output_length =>
      status ← psa_asymmetric_encrypt env svc key_id alg input input_length salt salt_length output output_size output_length; ret (Some status)
  | call_asymmetric_decrypt key_id alg input input_length salt salt_length output output_size output_length =>
      status ← psa_asymmetric_decrypt env svc key_id alg input input_length salt salt_length output output_size output_length; ret (Some status)
  | call_key_derivation_get_capacity operation capacity =>
      status ← psa_key_derivation_get_capacity env svc operation capacity; ret (Some status)
  | call_key_derivation_output_bytes operation output output_length =>
      status ← psa_key_derivation_output_bytes env svc operation output output_length; ret (Some status)
  | call_key_derivation_input_key operation step key_id =>
      status ← psa_key_derivation_input_key env svc operation step key_id; ret (Some status)
  | call_key_derivation_abort operation =>
      status ← psa_key_derivation_abort env svc operation; ret (Some status)
  | call_key_derivation_key_agreement operation step private_key peer_key peer_key_length =>
      status ← psa_key_derivation_key_agreement env svc operation step private_key peer_key peer_key_length; ret (Some status)
  | call_generate_random output output_size =>
      status ← psa_generate_random env svc output output_size; ret (Some status)
  | call_generate_key attributes key_id =>
      status ← psa_generate_key env svc attributes key_id; ret (Some status)
  | call_mac_compute key_id alg input input_length mac mac_size mac_length =>
      status ← psa_mac_compute env svc key_id alg input input_length mac mac_size mac_length; ret (Some status)
  | call_mac_verify key_id alg input input_length mac mac_length =>
      status ← psa_mac_verify env svc key_id alg input input_length mac mac_length; ret (Some status)
  | call_cipher_encrypt key_id alg input input_length output output_size output_length =>
      status ← psa_cipher_encrypt env svc key_id alg input input_length output output_size output_length; ret (Some status)
  | call_cipher_decrypt key_id alg input input_length output output_size output_length =>
      status ← psa_cipher_decrypt env svc key_id alg input input_length output output_size output_length; ret (Some status)
  | call_raw_key_agreement alg private_key peer_key peer_key_length output output_size output_length =>
      status ← psa_raw_key_agreement env svc alg private_key peer_key peer_key_length output output_size output_length; ret (Some status)
  | call_key_derivation_setup operation alg =>
      status ← psa_key_derivation_setup env svc operation alg; ret (Some status)
  | call_key_derivation_set_capacity operation capacity =>
      status ← psa_key_derivation_set_capacity env svc operation capacity; ret (Some status)
  | call_key_derivation_input_bytes operation step data data_length =>
      status ← psa_key_derivation_input_bytes env svc operation step data data_length; ret (Some status)
  | call_key_derivation_output_key attributes operation key_id =>
      status ← psa_key_derivation_output_key env svc attributes operation key_id; ret (Some status)
  end.

(** Performs the calls one after the other; a fault ends the run. *)
Fixpoint run (cs : list api_call) : api unit :=
  match cs with
  | [] => ret tt
  | c :: cs' => invoke c;; run cs'
  end.

End Invoke.

(** ** What each entry point is made of

    The tables below name, for a call, the parts of the entry point the
    statements talk about. *)

(** The preprocessor test that compiles the body of the entry point out. *)
Definition module_disabled (env : tfm_build) (c : api_call) : bool :=
  match c with
  | call_crypto_init => false
  | call_open_key _ _ => ifdef (TFM_CRYPTO_KEY_MODULE_DISABLED env)
  | call_close_key _ => ifdef (TFM_CRYPTO_KEY_MODULE_DISABLED env)
  | call_import_key _ _ _ _ => ifdef (TFM_CRYPTO_KEY_MODULE_DISABLED env)
  | call_destroy_key _ => ifdef (TFM_CRYPTO_KEY_MODULE_DISABLED env)
  | call_get_key_attributes _ _ => ifdef (TFM_CRYPTO_KEY_MODULE_DISABLED env)
  | call_reset_key_attributes _ => ifdef (TFM_CRYPTO_KEY_MODULE_DISABLED env)
  | call_export_key _ _ _ _ => ifdef (TFM_CRYPTO_KEY_MODULE_DISABLED env)
  | call_export_public_key _ _ _ _ => ifdef (TFM_CRYPTO_KEY_MODULE_DISABLED env)
  | call_purge_key _ => ifdef (TFM_CRYPTO_KEY_MODULE_DISABLED env)
  | call_copy_key _ _ _ => ifdef (TFM_CRYPTO_KEY_MODULE_DISABLED env)
  | call_cipher_generate_iv _ _ _ _ => ifdef (TFM_CRYPTO_CIPHER_MODULE_DISABLED env)
  | call_cipher_set_iv _ _ _ => ifdef (TFM_CRYPTO_CIPHER_MODULE_DISABLED env)
  | call_cipher_encrypt_setup _ _ _ => ifdef (TFM_CRYPTO_CIPHER_MODULE_DISABLED env)
  | call_cipher_decrypt_setup _ _ _ => ifdef (TFM_CRYPTO_CIPHER_MODULE_DISABLED env)
  | call_cipher_update _ _ _ _ _ _ => ifdef (TFM_CRYPTO_CIPHER_MODULE_DISABLED env)
  | call_cipher_abort _ => ifdef (TFM_CRYPTO_CIPHER_MODULE_DISABLED env)
  | call_cipher_finish _ _ _ _ => ifdef (TFM_CRYPTO_CIPHER_MODULE_DISABLED env)
  | call_hash_setup _ _ => ifdef (TFM_CRYPTO_HASH_MODULE_DISABLED env)
  | call_hash_update _ _ _ => ifdef (TFM_CRYPTO_HASH_MODULE_DISABLED env)
  | call_hash_finish _ _ _ _ => ifdef (TFM_CRYPTO_HASH_MODULE_DISABLED env)
  | call_hash_verify _ _ _ => ifdef (TFM_CRYPTO_HASH_MODULE_DISABLED env)
  | call_hash_abort _ => ifdef (TFM_CRYPTO_HASH_MODULE_DISABLED env)
  | call_hash_clone _ _ => ifdef (TFM_CRYPTO_HASH_MODULE_DISABLED env)
  | call_hash_compute _ _ _ _ _ _ => if_nonzero (TFM_CRYPTO_HASH_MODULE_DISABLED env)
  | call_hash_compare _ _ _ _ _ => if_nonzero (TFM_CRYPTO_HASH_MODULE_DISABLED env)
  | call_mac_sign_setup _ _ _ => ifdef (TFM_CRYPTO_MAC_MODULE_DISABLED env)
  | call_mac_verify_setup _ _ _ => ifdef (TFM_CRYPTO_MAC_MODULE_DISABLED env)
  | call_mac_update _ _ _ => ifdef (TFM_CRYPTO_MAC_MODULE_DISABLED env)
  | call_mac_sign_finish _ _ _ _ => ifdef (TFM_CRYPTO_MAC_MODULE_DISABLED env)
  | call_mac_verify_finish _ _ _ => ifdef (TFM_CRYPTO_MAC_MODULE_DISABLED env)
  | call_mac_abort _ => ifdef (TFM_CRYPTO_MAC_MODULE_DISABLED env)
  | call_aead_encrypt _ _ _ _ _ _ _ _ _ _ _ => ifdef (TFM_CRYPTO_AEAD_MODULE_DISABLED env)
  | call_aead_decrypt _ _ _ _ _ _ _ _ _ _ _ => ifdef (TFM_CRYPTO_AEAD_MODULE_DISABLED env)
  | call_aead_encrypt_setup _ _ _ => ifdef (TFM_CRYPTO_AEAD_MODULE_DISABLED env)
  | call_aead_decrypt_setup _ _ _ => ifdef (TFM_CRYPTO_AEAD_MODULE_DISABLED env)
  | call_aead_generate_nonce _ _ _ _ => ifdef (TFM_CRYPTO_AEAD_MODULE_DISABLED env)
  | call_aead_set_nonce _ _ _ => ifdef (TFM_CRYPTO_AEAD_MODULE_DISABLED env)
  | call_aead_set_lengths _ _ _ => ifdef (TFM_CRYPTO_AEAD_MODULE_DISABLED env)
  | call_aead_update_ad _ _ _ => ifdef (TFM_CRYPTO_AEAD_MODULE_DISABLED env)
  | call_aead_update _ _ _ _ _ _ => ifdef (TFM_CRYPTO_AEAD_MODULE_DISABLED env)
  | call_aead_finish _ _ _ _ _ _ _ => ifdef (TFM_CRYPTO_AEAD_MODULE_DISABLED env)
  | call_aead_verify _ _ _ _ _ _ => ifdef (TFM_CRYPTO_AEAD_MODULE_DISABLED env)
  | call_aead_abort _ => ifdef (TFM_CRYPTO_AEAD_MODULE_DISABLED env)
  | call_sign_message _ _ _ _ _ _ _ => ifdef (TFM_CRYPTO_ASYM_SIGN_MODULE_DISABLED env)
  | call_verify_message _ _ _ _ _ _ => ifdef (TFM_CRYPTO_ASYM_SIGN_MODULE_DISABLED env)
  | call_sign_hash _ _ _ _ _ _ _ => ifdef (TFM_CRYPTO_ASYM_SIGN_MODULE_DISABLED env)
  | call_verify_hash _ _ _ _ _ _ => ifdef (TFM_CRYPTO_ASYM_SIGN_MODULE_DISABLED env)
  | call_asymmetric_encrypt _ _ _ _ _ _ _ _ _ => ifdef (TFM_CRYPTO_ASYM_ENCRYPT_MODULE_DISABLED env)
  | call_asymmetric_decrypt _ _ _ _ _ _ _ _ _ => ifdef (TFM_CRYPTO_ASYM_ENCRYPT_MODULE_DISABLED env)
  | call_key_derivation_get_capacity _ _ => ifdef (TFM_CRYPTO_KEY_DERIVATION_MODULE_DISABLED env)
  | call_key_derivation_output_bytes _ _ _ => ifdef (TFM_CRYPTO_KEY_DERIVATION_MODULE_DISABLED env)
  | call_key_derivation_input_key _ _ _ => ifdef (TFM_CRYPTO_KEY_DERIVATION_MODULE_DISABLED env)
  | call_key_derivation_abort _ => ifdef (TFM_CRYPTO_KEY_DERIVATION_MODULE_DISABLED env)
  | call_key_derivation_key_agreement _ _ _ _ _ => ifdef (TFM_CRYPTO_KEY_DERIVATION_MODULE_DISABLED env)
  | call_generate_random _ _ => ifdef (TFM_CRYPTO_RNG_MODULE_DISABLED env)
  | call_generate_key _ _ => ifdef (TFM_CRYPTO_KEY_MODULE_DISABLED env)
  | call_mac_compute _ _ _ _ _ _ _ => ifdef (TFM_CRYPTO_MAC_MODULE_DISABLED env)
  | call_mac_verify _ _ _ _ _ _ => ifdef (TFM_CRYPTO_MAC_MODULE_DISABLED env)
  | call_cipher_encrypt _ _ _ _ _ _ _ => ifdef (TFM_CRYPTO_CIPHER_MODULE_DISABLED env)
  | call_cipher_decrypt _ _ _ _ _ _ _ => ifdef (TFM_CRYPTO_CIPHER_MODULE_DISABLED env)
  | call_raw_key_agreement _ _ _ _ _ _ _ => ifdef (TFM_CRYPTO_KEY_DERIVATION_MODULE_DISABLED env)
  | call_key_derivation_setup _ _ => ifdef (TFM_CRYPTO_KEY_DERIVATION_MODULE_DISABLED env)
  | call_key_derivation_set_capacity _ _ => ifdef (TFM_CRYPTO_KEY_DERIVATION_MODULE_DISABLED env)
  | call_key_derivation_input_bytes _ _ _ _ => ifdef (TFM_CRYPTO_KEY_DERIVATION_MODULE_DISABLED env)
  | call_key_derivation_output_key _ _ _ => ifdef (TFM_CRYPTO_KEY_DERIVATION_MODULE_DISABLED env)
  end.

(** The operation object whose handle the entry point puts in the envelope
    ([.op_handle = operation->handle]), for the entry points that take one. *)
Definition operation_of (c : api_call) : option pointer :=
  match c with
  | call_cipher_generate_iv operation _ _ _ => Some operation
  | call_cipher_set_iv operation _ _ => Some operation
  | call_cipher_encrypt_setup operation _ _ => Some operation
  | call_cipher_decrypt_setup operation _ _ => Some operation
  | call_cipher_update operation _ _ _ _ _ => Some operation
  | call_cipher_abort operation => Some operation
  | call_cipher_finish operation _ _ _ => Some operation
  | call_hash_setup operation _ => Some operation
  | call_hash_update operation _ _ => Some operation
  | call_hash_finish operation _ _ _ => Some operation
  | call_hash_verify operation _ _ => Some operation
  | call_hash_abort operation => Some operation
  | call_hash_clone source_operation _ => Some source_operation
  | call_mac_sign_setup operation _ _ => Some operation
  | call_mac_verify_setup operation _ _ => Some operation
  | call_mac_update operation _ _ => Some operation
  | call_mac_sign_finish operation _ _ _ => Some operation
  | call_mac_verify_finish operation _ _ => Some operation
  | call_mac_abort operation => Some operation
  | call_aead_encrypt_setup operation _ _ => Some operation
  | call_aead_decrypt_setup operation _ _ => Some operation
  | call_aead_generate_nonce operation _ _ _ => Some operation
  | call_aead_set_nonce operation _ _ => Some operation
  | call_aead_set_lengths operation _ _ => Some operation
  | call_aead_update_ad operation _ _ => Some operation
  | call_aead_update operation _ _ _ _ _ => Some operation
  | call_aead_finish operation _ _ _ _ _ _ => Some operation
  | call_aead_verify operation _ _ _ _ _ => Some operation
  | call_aead_abort operation => Some operation
  | call_key_derivation_get_capacity operation _ => Some operation
  | call_key_derivation_output_bytes operation _ _ => Some operation
  | call_key_derivation_input_key operation _ _ => Some operation
  | call_key_derivation_abort operation => Some operation
  | call_key_derivation_key_agreement operation _ _ _ _ => Some operation
  | call_key_derivation_setup operation _ => Some operation
  | call_key_derivation_set_capacity operation _ => Some operation
  | call_key_derivation_input_bytes operation _ _ _ => Some operation
  | call_key_derivation_output_key _ operation _ => Some operation
  | _ => None
  end.

(** The [*_length] out-parameters of the entry point, each with the index of
    the output descriptor whose [len] it receives, in the order of the
    assignments. *)
Definition length_reports (c : api_call) : list (pointer * nat) :=
  match c with
  | call_export_key _ _ _ data_length => [(data_length, 0%nat)]
  | call_export_public_key _ _ _ data_length => [(data_length, 0%nat)]
  | call_cipher_generate_iv _ _ _ iv_length => [(iv_length, 1%nat)]
  | call_cipher_update _ _ _ _ _ output_length => [(output_length, 1%nat)]
  | call_cipher_finish _ _ _ output_length => [(output_length, 1%nat)]
  | call_hash_finish _ _ _ hash_length => [(hash_length, 1%nat)]
  | call_hash_compute _ _ _ _ _ hash_length => [(hash_length, 0%nat)]
  | call_mac_sign_finish _ _ _ mac_length => [(mac_length, 1%nat)]
  | call_aead_encrypt _ _ _ _ _ _ _ _ _ _ ciphertext_length => [(ciphertext_length, 0%nat)]
  | call_aead_decrypt _ _ _ _ _ _ _ _ _ _ plaintext_length => [(plaintext_length, 0%nat)]
  | call_aead_generate_nonce _ _ _ nonce_length => [(nonce_length, 1%nat)]
  | call_aead_update _ _ _ _ _ output_length => [(output_length, 1%nat)]
  | call_aead_finish _ _ _ ciphertext_length _ _ tag_length => [(ciphertext_length, 2%nat); (tag_length, 1%nat)]
  | call_aead_verify _ _ _ plaintext_length _ _ => [(plaintext_length, 1%nat)]
  | call_sign_message _ _ _ _ _ _ signature_length => [(signature_length, 0%nat)]
  | call_sign_hash _ _ _ _ _ _ signature_length => [(signature_length, 0%nat)]
  | call_asymmetric_encrypt _ _ _ _ _ _ _ _ output_length => [(output_length, 0%nat)]
  | call_asymmetric_decrypt _ _ _ _ _ _ _ _ output_length => [(output_length, 0%nat)]
  | call_mac_compute _ _ _ _ _ _ mac_length => [(mac_length, 0%nat)]
  | call_cipher_encrypt _ _ _ _ _ _ output_length => [(output_length, 0%nat)]
  | call_cipher_decrypt _ _ _ _ _ _ output_length => [(output_length, 0%nat)]
  | call_raw_key_agreement _ _ _ _ _ _ output_length => [(output_length, 0%nat)]
  | _ => []
  end.

(** The optional buffer of the entry point: its reference and its length. *)
Definition optional_buffer (c : api_call) : option (pointer * size_t) :=
  match c with
  | call_aead_encrypt _ _ _ _ additional_data additional_data_length _ _ _ _ _ => Some (additional_data, additional_data_length)
  | call_aead_decrypt _ _ _ _ additional_data additional_data_length _ _ _ _ _ => Some (additional_data, additional_data_length)
  | call_aead_update_ad _ input input_length => Some (input, input_length)
  | call_aead_update _ input input_length _ _ _ => Some (input, input_length)
  | call_aead_finish _ ciphertext ciphertext_size _ _ _ _ => Some (ciphertext, ciphertext_size)
  | call_aead_verify _ plaintext plaintext_size _ _ _ => Some (plaintext, plaintext_size)
  | call_asymmetric_encrypt _ _ _ _ salt salt_length _ _ _ => Some (salt, salt_length)
  | call_asymmetric_decrypt _ _ _ _ salt salt_length _ _ _ => Some (salt, salt_length)
  | _ => None
  end.

(** The same call with another optional buffer. *)
Definition with_optional (c : api_call) (p : pointer) (l : size_t) : api_call :=
  match c with
  | call_aead_encrypt key_id alg nonce nonce_length _ _ plaintext plaintext_length ciphertext ciphertext_size ciphertext_length =>
      call_aead_encrypt key_id alg nonce nonce_length p l plaintext plaintext_length ciphertext ciphertext_size ciphertext_length
  | call_aead_decrypt key_id alg nonce nonce_length _ _ ciphertext ciphertext_length plaintext plaintext_size plaintext_length =>
      call_aead_decrypt key_id alg nonce nonce_length p l ciphertext ciphertext_length plaintext plaintext_size plaintext_length
  | call_aead_update_ad operation _ _ =>
      call_aead_update_ad operation p l
  | call_aead_update operation _ _ output output_size output_length =>
      call_aead_update operation p l output output_size output_length
  | call_aead_finish operation _ _ ciphertext_length tag tag_size tag_length =>
      call_aead_finish operation p l ciphertext_length tag tag_size tag_length
  | call_aead_verify operation _ _ plaintext_length tag tag_length =>
      call_aead_verify operation p l plaintext_length tag tag_length
  | call_asymmetric_encrypt key_id alg input input_length _ _ output output_size output_length =>
      call_asymmetric_encrypt key_id alg input input_length p l output output_size output_length
  | call_asymmetric_decrypt key_id alg input input_length _ _ output output_size output_length =>
      call_asymmetric_decrypt key_id alg input input_length p l output output_size output_length
  | _ => c
  end.

(** Whether the optional buffer of the entry point is an output. *)
Definition optional_is_output (c : api_call) : bool :=
  match c with
  | call_aead_finish _ _ _ _ _ _ _ => true
  | call_aead_verify _ _ _ _ _ _ => true
  | _ => false
  end.

(** The nonce argument of the one-shot AEAD calls: reference and length. *)
Definition oneshot_nonce (c : api_call) : option (pointer * size_t) :=
  match c with
  | call_aead_encrypt _ _ nonce nonce_length _ _ _ _ _ _ _ => Some (nonce, nonce_length)
  | call_aead_decrypt _ _ nonce nonce_length _ _ _ _ _ _ _ => Some (nonce, nonce_length)
  | _ => None
  end.

(** The function identifier the entry point puts in its envelope
    ([.srv_id = ...]); [psa_crypto_init] builds no envelope. *)
Definition sid_of (c : api_call) : option tfm_crypto_sid :=
  match c with
  | call_crypto_init => None
  | call_open_key _ _ => Some TFM_CRYPTO_OPEN_KEY_SID
  | call_close_key _ => Some TFM_CRYPTO_CLOSE_KEY_SID
  | call_import_key _ _ _ _ => Some TFM_CRYPTO_IMPORT_KEY_SID
  | call_destroy_key _ => Some TFM_CRYPTO_DESTROY_KEY_SID
  | call_get_key_attributes _ _ => Some TFM_CRYPTO_GET_KEY_ATTRIBUTES_SID
  | call_reset_key_attributes _ => Some TFM_CRYPTO_RESET_KEY_ATTRIBUTES_SID
  | call_export_key _ _ _ _ => Some TFM_CRYPTO_EXPORT_KEY_SID
  | call_export_public_key _ _ _ _ => Some TFM_CRYPTO_EXPORT_PUBLIC_KEY_SID
  | call_purge_key _ => Some TFM_CRYPTO_PURGE_KEY_SID
  | call_copy_key _ _ _ => Some TFM_CRYPTO_COPY_KEY_SID
  | call_cipher_generate_iv _ _ _ _ => Some TFM_CRYPTO_CIPHER_GENERATE_IV_SID
  | call_cipher_set_iv _ _ _ => Some TFM_CRYPTO_CIPHER_SET_IV_SID
  | call_cipher_encrypt_setup _ _ _ => Some TFM_CRYPTO_CIPHER_ENCRYPT_SETUP_SID
  | call_cipher_decrypt_setup _ _ _ => Some TFM_CRYPTO_CIPHER_DECRYPT_SETUP_SID
  | call_cipher_update _ _ _ _ _ _ => Some TFM_CRYPTO_CIPHER_UPDATE_SID
  | call_cipher_abort _ => Some TFM_CRYPTO_CIPHER_ABORT_SID
  | call_cipher_finish _ _ _ _ => Some TFM_CRYPTO_CIPHER_FINISH_SID
  | call_hash_setup _ _ => Some TFM_CRYPTO_HASH_SETUP_SID
  | call_hash_update _ _ _ => Some TFM_CRYPTO_HASH_UPDATE_SID
  | call_hash_finish _ _ _ _ => Some TFM_CRYPTO_HASH_FINISH_SID
  | call_hash_verify _ _ _ => Some TFM_CRYPTO_HASH_VERIFY_SID
  | call_hash_abort _ => Some TFM_CRYPTO_HASH_ABORT_SID
  | call_hash_clone _ _ => Some TFM_CRYPTO_HASH_CLONE_SID
  | call_hash_compute _ _ _ _ _ _ => Some TFM_CRYPTO_HASH_COMPUTE_SID
  | call_hash_compare _ _ _ _ _ => Some TFM_CRYPTO_HASH_COMPARE_SID
  | call_mac_sign_setup _ _ _ => Some TFM_CRYPTO_MAC_SIGN_SETUP_SID
  | call_mac_verify_setup _ _ _ => Some TFM_CRYPTO_MAC_VERIFY_SETUP_SID
  | call_mac_update _ _ _ => Some TFM_CRYPTO_MAC_UPDATE_SID
  | call_mac_sign_finish _ _ _ _ => Some TFM_CRYPTO_MAC_SIGN_FINISH_SID
  | call_mac_verify_finish _ _ _ => Some TFM_CRYPTO_MAC_VERIFY_FINISH_SID
  | call_mac_abort _ => Some TFM_CRYPTO_MAC_ABORT_SID
  | call_aead_encrypt _ _ _ _ _ _ _ _ _ _ _ => Some TFM_CRYPTO_AEAD_ENCRYPT_SID
  | call_aead_decrypt _ _ _ _ _ _ _ _ _ _ _ => Some TFM_CRYPTO_AEAD_DECRYPT_SID
  | call_aead_encrypt_setup _ _ _ => Some TFM_CRYPTO_AEAD_ENCRYPT_SETUP_SID
  | call_aead_decrypt_setup _ _ _ => Some TFM_CRYPTO_AEAD_DECRYPT_SETUP_SID
  | call_aead_generate_nonce _ _ _ _ => Some TFM_CRYPTO_AEAD_GENERATE_NONCE_SID
  | call_aead_set_nonce _ _ _ => Some TFM_CRYPTO_AEAD_SET_NONCE_SID
  | call_aead_set_lengths _ _ _ => Some TFM_CRYPTO_AEAD_SET_LENGTHS_SID
  | call_aead_update_ad _ _ _ => Some TFM_CRYPTO_AEAD_UPDATE_AD_SID
  | call_aead_update _ _ _ _ _ _ => Some TFM_CRYPTO_AEAD_UPDATE_SID
  | call_aead_finish _ _ _ _ _ _ _ => Some TFM_CRYPTO_AEAD_FINISH_SID
  | call_aead_verify _ _ _ _ _ _ => Some TFM_CRYPTO_AEAD_VERIFY_SID
  | call_aead_abort _ => Some TFM_CRYPTO_AEAD_ABORT_SID
  | call_sign_message _ _ _ _ _ _ _ => Some TFM_CRYPTO_SIGN_MESSAGE_SID
  | call_verify_message _ _ _ _ _ _ => Some TFM_CRYPTO_VERIFY_MESSAGE_SID
  | call_sign_hash _ _ _ _ _ _ _ => Some TFM_CRYPTO_SIGN_HASH_SID
  | call_verify_hash _ _ _ _ _ _ => Some TFM_CRYPTO_VERIFY_HASH_SID
  | call_asymmetric_encrypt _ _ _ _ _ _ _ _ _ => Some TFM_CRYPTO_ASYMMETRIC_ENCRYPT_SID
  | call_asymmetric_decrypt _ _ _ _ _ _ _ _ _ => Some TFM_CRYPTO_ASYMMETRIC_DECRYPT_SID
  | call_key_derivation_get_capacity _ _ => Some TFM_CRYPTO_KEY_DERIVATION_GET_CAPACITY_SID
  | call_key_derivation_output_bytes _ _ _ => Some TFM_CRYPTO_KEY_DERIVATION_OUTPUT_BYTES_SID
  | call_key_derivation_input_key _ _ _ => Some TFM_CRYPTO_KEY_DERIVATION_INPUT_KEY_SID
  | call_key_derivation_abort _ => Some TFM_CRYPTO_KEY_DERIVATION_ABORT_SID
  | call_key_derivation_key_agreement _ _ _ _ _ => Some TFM_CRYPTO_KEY_DERIVATION_KEY_AGREEMENT_SID
  | call_generate_random _ _ => Some TFM_CRYPTO_GENERATE_RANDOM_SID
  | call_generate_key _ _ => Some TFM_CRYPTO_GENERATE_KEY_SID
  | call_mac_compute _ _ _ _ _ _ _ => Some TFM_CRYPTO_MAC_COMPUTE_SID
  | call_mac_verify _ _ _ _ _ _ => Some TFM_CRYPTO_MAC_VERIFY_SID
  | call_cipher_encrypt _ _ _ _ _ _ _ => Some TFM_CRYPTO_CIPHER_ENCRYPT_SID
  | call_cipher_decrypt _ _ _ _ _ _ _ => Some TFM_CRYPTO_CIPHER_DECRYPT_SID
  | call_raw_key_agreement _ _ _ _ _ _ _ => Some TFM_CRYPTO_RAW_KEY_AGREEMENT_SID
  | call_key_derivation_setup _ _ => Some TFM_CRYPTO_KEY_DERIVATION_SETUP_SID
  | call_key_derivation_set_capacity _ _ => Some TFM_CRYPTO_KEY_DERIVATION_SET_CAPACITY_SID
  | call_key_derivation_input_bytes _ _ _ _ => Some TFM_CRYPTO_KEY_DERIVATION_INPUT_BYTES_SID
  | call_key_derivation_output_key _ _ _ => Some TFM_CRYPTO_KEY_DERIVATION_OUTPUT_KEY_SID
  end.

(** The name of the entry point. *)
Definition entry_name (c : api_call) : string :=
  match c with
  | call_crypto_init => "psa_crypto_init"
  | call_open_key _ _ => "psa_open_key"
  | call_close_key _ => "psa_close_key"
  | call_import_key _ _ _ _ => "psa_import_key"
  | call_destroy_key _ => "psa_destroy_key"
  | call_get_key_attributes _ _ => "psa_get_key_attributes"
  | call_reset_key_attributes _ => "psa_reset_key_attributes"
  | call_export_key _ _ _ _ => "psa_export_key"
  | call_export_public_key _ _ _ _ => "psa_export_public_key"
  | call_purge_key _ => "psa_purge_key"
  | call_copy_key _ _ _ => "psa_copy_key"
  | call_cipher_generate_iv _ _ _ _ => "psa_cipher_generate_iv"
  | call_cipher_set_iv _ _ _ => "psa_cipher_set_iv"
  | call_cipher_encrypt_setup _ _ _ => "psa_cipher_encrypt_setup"
  | call_cipher_decrypt_setup _ _ _ => "psa_cipher_decrypt_setup"
  | call_cipher_update _ _ _ _ _ _ => "psa_cipher_update"
  | call_cipher_abort _ => "psa_cipher_abort"
  | call_cipher_finish _ _ _ _ => "psa_cipher_finish"
  | call_hash_setup _ _ => "psa_hash_setup"
  | call_hash_update _ _ _ => "psa_hash_update"
  | call_hash_finish _ _ _ _ => "psa_hash_finish"
  | call_hash_verify _ _ _ => "psa_hash_verify"
  | call_hash_abort _ => "psa_hash_abort"
  | call_hash_clone _ _ => "psa_hash_clone"
  | call_hash_compute _ _ _ _ _ _ => "psa_hash_compute"
  | call_hash_compare _ _ _ _ _ => "psa_hash_compare"
  | call_mac_sign_setup _ _ _ => "psa_mac_sign_setup"
  | call_mac_verify_setup _ _ _ => "psa_mac_verify_setup"
  | call_mac_update _ _ _ => "psa_mac_update"
  | call_mac_sign_finish _ _ _ _ => "psa_mac_sign_finish"
  | call_mac_verify_finish _ _ _ => "psa_mac_verify_finish"
  | call_mac_abort _ => "psa_mac_abort"
  | call_aead_encrypt _ _ _ _ _ _ _ _ _ _ _ => "psa_aead_encrypt"
  | call_aead_decrypt _ _ _ _ _ _ _ _ _ _ _ => "psa_aead_decrypt"
  | call_aead_encrypt_setup _ _ _ => "psa_aead_encrypt_setup"
  | call_aead_decrypt_setup _ _ _ => "psa_aead_decrypt_setup"
  | call_aead_generate_nonce _ _ _ _ => "psa_aead_generate_nonce"
  | call_aead_set_nonce _ _ _ => "psa_aead_set_nonce"
  | call_aead_set_lengths _ _ _ => "psa_aead_set_lengths"
  | call_aead_update_ad _ _ _ => "psa_aead_update_ad"
  | call_aead_update _ _ _ _ _ _ => "psa_aead_update"
  | call_aead_finish _ _ _ _ _ _ _ => "psa_aead_finish"
  | call_aead_verify _ _ _ _ _ _ => "psa_aead_verify"
  | call_aead_abort _ => "psa_aead_abort"
  | call_sign_message _ _ _ _ _ _ _ => "psa_sign_message"
  | call_verify_message _ _ _ _ _ _ => "psa_verify_message"
  | call_sign_hash _ _ _ _ _ _ _ => "psa_sign_hash"
  | call_verify_hash _ _ _ _ _ _ => "psa_verify_hash"
  | call_asymmetric_encrypt _ _ _ _ _ _ _ _ _ => "psa_asymmetric_encrypt"
  | call_asymmetric_decrypt _ _ _ _ _ _ _ _ _ => "psa_asymmetric_decrypt"
  | call_key_derivation_get_capacity _ _ => "psa_key_derivation_get_capacity"
  | call_key_derivation_output_bytes _ _ _ => "psa_key_derivation_output_bytes"
  | call_key_derivation_input_key _ _ _ => "psa_key_derivation_input_key"
  | call_key_derivation_abort _ => "psa_key_derivation_abort"
  | call_key_derivation_key_agreement _ _ _ _ _ => "psa_key_derivation_key_agreement"
  | call_generate_random _ _ => "psa_generate_random"
  | call_generate_key _ _ => "psa_generate_key"
  | call_mac_compute _ _ _ _ _ _ _ => "psa_mac_compute"
  | call_mac_verify _ _ _ _ _ _ => "psa_mac_verify"
  | call_cipher_encrypt _ _ _ _ _ _ _ => "psa_cipher_encrypt"
  | call_cipher_decrypt _ _ _ _ _ _ _ => "psa_cipher_decrypt"
  | call_raw_key_agreement _ _ _ _ _ _ _ => "psa_raw_key_agreement"
  | call_key_derivation_setup _ _ => "psa_key_derivation_setup"
  | call_key_derivation_set_capacity _ _ => "psa_key_derivation_set_capacity"
  | call_key_derivation_input_bytes _ _ _ _ => "psa_key_derivation_input_bytes"
  | call_key_derivation_output_key _ _ _ => "psa_key_derivation_output_key"
  end.

(** The veneer named after a function identifier: [TFM_CRYPTO_X_SID] goes
    with [tfm_crypto_x_veneer]. *)
Definition veneer_of_sid (sid : tfm_crypto_sid) : string :=
  match sid with
  | TFM_CRYPTO_OPEN_KEY_SID => "tfm_crypto_open_key"
  | TFM_CRYPTO_CLOSE_KEY_SID => "tfm_crypto_close_key"
  | TFM_CRYPTO_IMPORT_KEY_SID => "tfm_crypto_import_key"
  | TFM_CRYPTO_DESTROY_KEY_SID => "tfm_crypto_destroy_key"
  | TFM_CRYPTO_GET_KEY_ATTRIBUTES_SID => "tfm_crypto_get_key_attributes"
  | TFM_CRYPTO_RESET_KEY_ATTRIBUTES_SID => "tfm_crypto_reset_key_attributes"
  | TFM_CRYPTO_EXPORT_KEY_SID => "tfm_crypto_export_key"
  | TFM_CRYPTO_EXPORT_PUBLIC_KEY_SID => "tfm_crypto_export_public_key"
  | TFM_CRYPTO_PURGE_KEY_SID => "tfm_crypto_purge_key"
  | TFM_CRYPTO_COPY_KEY_SID => "tfm_crypto_copy_key"
  | TFM_CRYPTO_CIPHER_GENERATE_IV_SID => "tfm_crypto_cipher_generate_iv"
  | TFM_CRYPTO_CIPHER_SET_IV_SID => "tfm_crypto_cipher_set_iv"
  | TFM_CRYPTO_CIPHER_ENCRYPT_SETUP_SID => "tfm_crypto_cipher_encrypt_setup"
  | TFM_CRYPTO_CIPHER_DECRYPT_SETUP_SID => "tfm_crypto_cipher_decrypt_setup"
  | TFM_CRYPTO_CIPHER_UPDATE_SID => "tfm_crypto_cipher_update"
  | TFM_CRYPTO_CIPHER_ABORT_SID => "tfm_crypto_cipher_abort"
  | TFM_CRYPTO_CIPHER_FINISH_SID => "tfm_crypto_cipher_finish"
  | TFM_CRYPTO_HASH_SETUP_SID => "tfm_crypto_hash_setup"
  | TFM_CRYPTO_HASH_UPDATE_SID => "tfm_crypto_hash_update"
  | TFM_CRYPTO_HASH_FINISH_SID => "tfm_crypto_hash_finish"
  | TFM_CRYPTO_HASH_VERIFY_SID => "tfm_crypto_hash_verify"
  | TFM_CRYPTO_HASH_ABORT_SID => "tfm_crypto_hash_abort"
  | TFM_CRYPTO_HASH_CLONE_SID => "tfm_crypto_hash_clone"
  | TFM_CRYPTO_HASH_COMPUTE_SID => "tfm_crypto_hash_compute"
  | TFM_CRYPTO_HASH_COMPARE_SID => "tfm_crypto_hash_compare"
  | TFM_CRYPTO_MAC_SIGN_SETUP_SID => "tfm_crypto_mac_sign_setup"
  | TFM_CRYPTO_MAC_VERIFY_SETUP_SID => "tfm_crypto_mac_verify_setup"
  | TFM_CRYPTO_MAC_UPDATE_SID => "tfm_crypto_mac_update"
  | TFM_CRYPTO_MAC_SIGN_FINISH_SID => "tfm_crypto_mac_sign_finish"
  | TFM_CRYPTO_MAC_VERIFY_FINISH_SID => "tfm_crypto_mac_verify_finish"
  | TFM_CRYPTO_MAC_ABORT_SID => "tfm_crypto_mac_abort"
  | TFM_CRYPTO_AEAD_ENCRYPT_SID => "tfm_crypto_aead_encrypt"
  | TFM_CRYPTO_AEAD_DECRYPT_SID => "tfm_crypto_aead_decrypt"
  | TFM_CRYPTO_AEAD_ENCRYPT_SETUP_SID => "tfm_crypto_aead_encrypt_setup"
  | TFM_CRYPTO_AEAD_DECRYPT_SETUP_SID => "tfm_crypto_aead_decrypt_setup"
  | TFM_CRYPTO_AEAD_GENERATE_NONCE_SID => "tfm_crypto_aead_generate_nonce"
  | TFM_CRYPTO_AEAD_SET_NONCE_SID => "tfm_crypto_aead_set_nonce"
  | TFM_CRYPTO_AEAD_SET_LENGTHS_SID => "tfm_crypto_aead_set_lengths"
  | TFM_CRYPTO_AEAD_UPDATE_AD_SID => "tfm_crypto_aead_update_ad"
  | TFM_CRYPTO_AEAD_UPDATE_SID => "tfm_crypto_aead_update"
  | TFM_CRYPTO_AEAD_FINISH_SID => "tfm_crypto_aead_finish"
  | TFM_CRYPTO_AEAD_VERIFY_SID => "tfm_crypto_aead_verify"
  | TFM_CRYPTO_AEAD_ABORT_SID => "tfm_crypto_aead_abort"
  | TFM_CRYPTO_SIGN_MESSAGE_SID => "tfm_crypto_sign_message"
  | TFM_CRYPTO_VERIFY_MESSAGE_SID => "tfm_crypto_verify_message"
  | TFM_CRYPTO_SIGN_HASH_SID => "tfm_crypto_sign_hash"
  | TFM_CRYPTO_VERIFY_HASH_SID => "tfm_crypto_verify_hash"
  | TFM_CRYPTO_ASYMMETRIC_ENCRYPT_SID => "tfm_crypto_asymmetric_encrypt"
  | TFM_CRYPTO_ASYMMETRIC_DECRYPT_SID => "tfm_crypto_asymmetric_decrypt"
  | TFM_CRYPTO_KEY_DERIVATION_GET_CAPACITY_SID => "tfm_crypto_key_derivation_get_capacity"
  | TFM_CRYPTO_KEY_DERIVATION_OUTPUT_BYTES_SID => "tfm_crypto_key_derivation_output_bytes"
  | TFM_CRYPTO_KEY_DERIVATION_INPUT_KEY_SID => "tfm_crypto_key_derivation_input_key"
  | TFM_CRYPTO_KEY_DERIVATION_ABORT_SID => "tfm_crypto_key_derivation_abort"
  | TFM_CRYPTO_KEY_DERIVATION_KEY_AGREEMENT_SID => "tfm_crypto_key_derivation_key_agreement"
  | TFM_CRYPTO_GENERATE_RANDOM_SID => "tfm_crypto_generate_random"
  | TFM_CRYPTO_GENERATE_KEY_SID => "tfm_crypto_generate_key"
  | TFM_CRYPTO_MAC_COMPUTE_SID => "tfm_crypto_mac_compute"
  | TFM_CRYPTO_MAC_VERIFY_SID => "tfm_crypto_mac_verify"
  | TFM_CRYPTO_CIPHER_ENCRYPT_SID => "tfm_crypto_cipher_encrypt"
  | TFM_CRYPTO_CIPHER_DECRYPT_SID => "tfm_crypto_cipher_decrypt"
  | TFM_CRYPTO_RAW_KEY_AGREEMENT_SID => "tfm_crypto_raw_key_agreement"
  | TFM_CRYPTO_KEY_DERIVATION_SETUP_SID => "tfm_crypto_key_derivation_setup"
  | TFM_CRYPTO_KEY_DERIVATION_SET_CAPACITY_SID => "tfm_crypto_key_derivation_set_capacity"
  | TFM_CRYPTO_KEY_DERIVATION_INPUT_BYTES_SID => "tfm_crypto_key_derivation_input_bytes"
  | TFM_CRYPTO_KEY_DERIVATION_OUTPUT_KEY_SID => "tfm_crypto_key_derivation_output_key"
  end.

(** ** Two concrete builds

    The IPC build ([TFM_PSA_API] defined) and the library build (veneers),
    both with every module present, and the values the PSA headers give the
    constants. *)
Definition ipc_build : tfm_build :=
  {| TFM_PSA_API := Some 1;
     TFM_CRYPTO_KEY_MODULE_DISABLED := None;
     TFM_CRYPTO_CIPHER_MODULE_DISABLED := None;
     TFM_CRYPTO_HASH_MODULE_DISABLED := None;
     TFM_CRYPTO_MAC_MODULE_DISABLED := None;
     TFM_CRYPTO_AEAD_MODULE_DISABLED := None;
     TFM_CRYPTO_ASYM_SIGN_MODULE_DISABLED := None;
     TFM_CRYPTO_ASYM_ENCRYPT_MODULE_DISABLED := None;
     TFM_CRYPTO_KEY_DERIVATION_MODULE_DISABLED := None;
     TFM_CRYPTO_RNG_MODULE_DISABLED := None;
     PSA_SUCCESS := 0;
     PSA_ERROR_NOT_SUPPORTED := -134;
     PSA_ERROR_INVALID_ARGUMENT := -135;
     PSA_ERROR_BAD_STATE := -137;
     TFM_CRYPTO_MAX_NONCE_LENGTH := 16;
     sizeof_tfm_crypto_pack_iovec := 56;
     sizeof_psa_key_attributes_t := 28;
     sizeof_psa_key_id_t := 4;
     sizeof_psa_hash_operation_t := 4;
     sizeof_size_t := 4 |}.

Definition library_build : tfm_build :=
  {| TFM_PSA_API := None;
     TFM_CRYPTO_KEY_MODULE_DISABLED := None;
     TFM_CRYPTO_CIPHER_MODULE_DISABLED := None;
     TFM_CRYPTO_HASH_MODULE_DISABLED := None;
     TFM_CRYPTO_MAC_MODULE_DISABLED := None;
     TFM_CRYPTO_AEAD_MODULE_DISABLED := None;
     TFM_CRYPTO_ASYM_SIGN_MODULE_DISABLED := None;
     TFM_CRYPTO_ASYM_ENCRYPT_MODULE_DISABLED := None;
     TFM_CRYPTO_KEY_DERIVATION_MODULE_DISABLED := None;
     TFM_CRYPTO_RNG_MODULE_DISABLED := None;
     PSA_SUCCESS := 0;
     PSA_ERROR_NOT_SUPPORTED := -134;
     PSA_ERROR_INVALID_ARGUMENT := -135;
     PSA_ERROR_BAD_STATE := -137;
     TFM_CRYPTO_MAX_NONCE_LENGTH := 16;
     sizeof_tfm_crypto_pack_iovec := 56;
     sizeof_psa_key_attributes_t := 28;
     sizeof_psa_key_id_t := 4;
     sizeof_psa_hash_operation_t := 4;
     sizeof_size_t := 4 |}.

(** A service that hands out a fresh handle on every call (the number of
    calls seen so far, plus one) and fills every output buffer with it. *)
Definition counting_service : service :=
  fun st rq =>
    {| reply_status := 0;
       reply_out :=
         map (fun v => {| w_len := len v;
                          w_data := replicate (cells v)
                                      (Z.of_nat (length (calls st)) + 1) |})
             (dispatched_out rq) |}.

(** A service that fails every request, after having produced [n] bytes, or
    as many as fit, in each output buffer. *)
Definition failing_service (status : psa_status_t) (n : size_t) : service :=
  fun st rq =>
    {| reply_status := status;
       reply_out :=
         map (fun v => {| w_len := Z.min n (len v);
                          w_data := replicate (Z.to_nat (Z.min n (len v))) 0 |})
             (dispatched_out rq) |}.

(** Caller memory with every cell zero, and no call made yet. *)
Definition fresh_client : client :=
  {| mem := fun _ => 0; calls := [] |}.

(** ** Notions the statements are written with *)

(** The inline nonce of an envelope nobody wrote a nonce into. *)
Definition blank_nonce (env : tfm_build) : tfm_crypto_aead_pack_input :=
  {| nonce := replicate (Z.to_nat (TFM_CRYPTO_MAX_NONCE_LENGTH env)) 0;
     nonce_length := 0 |}.

(** What it means for a one-shot AEAD call, run from [st] with result [r],
    to have gone through with a blank inline nonce: one request went
    through the channel, its envelope carries a zeroed nonce of length 0,
    and the status returned is the one the service gave. *)
Definition sent_with_blank_nonce (env : tfm_build) (svc : service) (st : client)
    (output_length : pointer) (r : option psa_status_t * client) : Prop :=
  exists rq,
    calls r.2 = calls st ++ [(rq, svc st rq)] /\
    aead_in <$> envelope rq = Some (blank_nonce env) /\
    (output_length <> NULL -> r.1 = Some (reply_status (svc st rq))).

(** What it means for a call, run from [st] with result [r], to have elided
    its last output descriptor: one request went through the channel, with
    [out_len] output descriptors out of an array of [out_len + 1], and the
    length out-parameter of the elided output holds 0. *)
Definition elided_output (st : client) (out_len : nat) (length_cell : pointer)
    (r : option psa_status_t * client) : Prop :=
  exists rq rp,
    calls r.2 = calls st ++ [(rq, rp)] /\
    req_out_len rq = out_len /\
    length (req_out_vec rq) = S out_len /\
    forall cl, length_cell = Ptr cl -> mem r.2 cl = 0.

(** What it means for a call, run from [st] with result [r], to have kept
    its last output descriptor: one request went through the channel, with
    the output array handed over whole, and [d] as its last element. *)
Definition kept_output (st : client) (d : psa_outvec)
    (r : option psa_status_t * client) : Prop :=
  exists rq rp,
    calls r.2 = calls st ++ [(rq, rp)] /\
    req_out_len rq = length (req_out_vec rq) /\
    last (req_out_vec rq) = Some d.

(** The call primitive refuses a call with [in_num + out_num] above
    [PSA_MAX_IOVEC] (psa_api.h); a request within the limit has at most
    four descriptors. *)
Definition within_iovec_limit (rq : psa_request) : Prop :=
  (req_in_len rq + req_out_len rq <= 4)%nat.

(** [emits P m]: whatever the state, [m] only adds requests to the log of
    the channel, and every request it adds satisfies [P]. *)
Definition emits (P : psa_request -> Prop) {A} (m : api A) : Prop :=
  forall st, exists xs,
    calls (m st).2 = calls st ++ xs /\ Forall (fun x => P x.1) xs.

(** The envelope after the nonce copy loop, as a function of caller memory. *)
Fixpoint copied_nonce (m : memory) (todo : nat) (idx : Z) (a : Z)
    (iov : tfm_crypto_pack_iovec) : tfm_crypto_pack_iovec :=
  match todo with
  | O => iov
  | S todo' => copied_nonce m todo' (idx + 1) a (set_nonce_at idx (m (a + idx)) iov)
  end.

(** [one_fewer d rq rq']: the request [rq'] hands over the descriptors of
    [rq], at the same indices, and then [d], as last input or as last
    output; in the arrays of [rq] the place of [d] is taken by a null
    descriptor that lies just beyond the count handed over. *)
Definition one_fewer (d : psa_vec) (rq rq' : psa_request) : Prop :=
  (dispatched_in rq' = dispatched_in rq ++ [d] /\
   req_in_vec rq = dispatched_in rq ++ [vec (at_ptr NULL) 0] /\
   dispatched_out rq' = dispatched_out rq)
  \/
  (dispatched_out rq' = dispatched_out rq ++ [d] /\
   req_out_vec rq = dispatched_out rq ++ [vec (at_ptr NULL) 0] /\
   dispatched_in rq' = dispatched_in rq).

(** A call the local checks let through, whatever its optional buffer:
    the module is compiled in, the operation object and the length
    out-parameters are objects, and the nonce of a one-shot AEAD call fits
    in the envelope. *)
Definition reaches_dispatch (env : tfm_build) (c : api_call) : Prop :=
  module_disabled env c = false /\
  operation_of c <> Some NULL /\
  (forall p n, oneshot_nonce c = Some (p, n) -> n <= TFM_CRYPTO_MAX_NONCE_LENGTH env) /\
  (NULL ∉ (length_reports c).*1).

(** [kept_whole d rq rq']: both requests hand their arrays over whole, and
    the arrays are the same but for the place of [d], the last of its array
    in [rq'], which holds a null descriptor in [rq]. *)
Definition kept_whole (d : psa_vec) (rq rq' : psa_request) : Prop :=
  req_in_len rq = length (req_in_vec rq) /\
  req_out_len rq = length (req_out_vec rq) /\
  req_in_len rq' = length (req_in_vec rq') /\
  req_out_len rq' = length (req_out_vec rq') /\
  ((exists pre,
      req_in_vec rq' = pre ++ [d] /\
      req_in_vec rq = pre ++ [vec (at_ptr NULL) 0] /\
      req_out_vec rq' = req_out_vec rq)
   \/
   (exists pre,
      req_out_vec rq' = pre ++ [d] /\
      req_out_vec rq = pre ++ [vec (at_ptr NULL) 0] /\
      req_in_vec rq' = req_in_vec rq)).

(** [omission_trims env svc c st b l]: if the call [c], given the optional
    buffer at [b] with length [l], sends a request, then [c] without the
    optional buffer, run from the same state, sends a request with that one
    descriptor fewer. *)
Definition omission_trims (env : tfm_build) (svc : service) (c : api_call)
    (st : client) (b : Z) (l : size_t) : Prop :=
  forall rq' rp',
    calls (invoke env svc (with_optional c (Ptr b) l) st).2 = calls st ++ [(rq', rp')] ->
    exists rq rp,
      calls (invoke env svc (with_optional c NULL 0) st).2 = calls st ++ [(rq, rp)] /\
      one_fewer (vec (at_ptr (Ptr b)) l) rq rq'.

(** The [len] of the [i]-th output descriptor after the exchange: the reply
    decides for the descriptors handed over, the others keep theirs. *)
Definition len_after (rq : psa_request) (rp : psa_reply) (i : nat) : size_t :=
  if (i <? req_out_len rq)%nat
  then reply_len rp i (req_out_vec rq !!! i)
  else len (req_out_vec rq !!! i).

(** What C1 asks of a call that ended in [st'], for the length out-parameter
    at [cell]: zero, or what it was before the call. *)
Definition length_withheld (st : client) (cell : Z) (st' : client) : Prop :=
  mem st' cell = 0 \/ mem st' cell = mem st cell.

(** [q] is one of the cells the descriptor [v] gives access to. *)
Definition in_extent (q : Z) (v : psa_vec) : Prop :=
  match base v with
  | at_ptr (Ptr a) => a <= q < a + len v
  | at_obj (Ptr a) => q = a
  | _ => False
  end.






(** Scenario C of the specification, and the handles the requests carry. *)
Definition scenario_c : list api_call :=
  [call_cipher_encrypt_setup (Ptr 100) 7 9;
   call_cipher_update (Ptr 100) (Ptr 200) 16 (Ptr 300) 16 (Ptr 400);
   call_cipher_update (Ptr 100) (Ptr 200) 16 (Ptr 300) 16 (Ptr 400);
   call_cipher_finish (Ptr 100) (Ptr 300) 16 (Ptr 400)].

(** [#define TFM_PSA_API m], or [#undef] for [None], the rest of the build
    being that of [env]. *)
Definition set_TFM_PSA_API (m : macro) (env : tfm_build) : tfm_build :=
  {| TFM_PSA_API := m;
     TFM_CRYPTO_KEY_MODULE_DISABLED := TFM_CRYPTO_KEY_MODULE_DISABLED env;
     TFM_CRYPTO_CIPHER_MODULE_DISABLED := TFM_CRYPTO_CIPHER_MODULE_DISABLED env;
     TFM_CRYPTO_HASH_MODULE_DISABLED := TFM_CRYPTO_HASH_MODULE_DISABLED env;
     TFM_CRYPTO_MAC_MODULE_DISABLED := TFM_CRYPTO_MAC_MODULE_DISABLED env;
     TFM_CRYPTO_AEAD_MODULE_DISABLED := TFM_CRYPTO_AEAD_MODULE_DISABLED env;
     TFM_CRYPTO_ASYM_SIGN_MODULE_DISABLED := TFM_CRYPTO_ASYM_SIGN_MODULE_DISABLED env;
     TFM_CRYPTO_ASYM_ENCRYPT_MODULE_DISABLED := TFM_CRYPTO_ASYM_ENCRYPT_MODULE_DISABLED env;
     TFM_CRYPTO_KEY_DERIVATION_MODULE_DISABLED := TFM_CRYPTO_KEY_DERIVATION_MODULE_DISABLED env;
     TFM_CRYPTO_RNG_MODULE_DISABLED := TFM_CRYPTO_RNG_MODULE_DISABLED env;
     PSA_SUCCESS := PSA_SUCCESS env;
     PSA_ERROR_NOT_SUPPORTED := PSA_ERROR_NOT_SUPPORTED env;
     PSA_ERROR_INVALID_ARGUMENT := PSA_ERROR_INVALID_ARGUMENT env;
     PSA_ERROR_BAD_STATE := PSA_ERROR_BAD_STATE env;
     TFM_CRYPTO_MAX_NONCE_LENGTH := TFM_CRYPTO_MAX_NONCE_LENGTH env;
     sizeof_tfm_crypto_pack_iovec := sizeof_tfm_crypto_pack_iovec env;
     sizeof_psa_key_attributes_t := sizeof_psa_key_attributes_t env;
     sizeof_psa_key_id_t := sizeof_psa_key_id_t env;
     sizeof_psa_hash_operation_t := sizeof_psa_hash_operation_t env;
     sizeof_size_t := sizeof_size_t env |}.

(** The descriptors of a request and their counts, the binding left aside. *)
Definition request_shape (rq : psa_request)
  : list psa_invec * nat * list psa_outvec * nat :=
  (req_in_vec rq, req_in_len rq, req_out_vec rq, req_out_len rq).

(** A reply that reports, for every output descriptor handed over, at most
    the capacity the descriptor came with. *)
Definition respects_capacity (rq : psa_request) (rp : psa_reply) : Prop :=
  forall i v, dispatched_out rq !! i = Some v -> reply_len rp i v <= len v.

(** The IPC build with [TFM_CRYPTO_HASH_MODULE_DISABLED] defined as [v]. *)
Definition hash_module_build (v : Z) : tfm_build :=
  {| TFM_PSA_API := TFM_PSA_API ipc_build;
     TFM_CRYPTO_KEY_MODULE_DISABLED := TFM_CRYPTO_KEY_MODULE_DISABLED ipc_build;
     TFM_CRYPTO_CIPHER_MODULE_DISABLED := TFM_CRYPTO_CIPHER_MODULE_DISABLED ipc_build;
     TFM_CRYPTO_HASH_MODULE_DISABLED := Some v;
     TFM_CRYPTO_MAC_MODULE_DISABLED := TFM_CRYPTO_MAC_MODULE_DISABLED ipc_build;
     TFM_CRYPTO_AEAD_MODULE_DISABLED := TFM_CRYPTO_AEAD_MODULE_DISABLED ipc_build;
     TFM_CRYPTO_ASYM_SIGN_MODULE_DISABLED := TFM_CRYPTO_ASYM_SIGN_MODULE_DISABLED ipc_build;
     TFM_CRYPTO_ASYM_ENCRYPT_MODULE_DISABLED := TFM_CRYPTO_ASYM_ENCRYPT_MODULE_DISABLED ipc_build;
     TFM_CRYPTO_KEY_DERIVATION_MODULE_DISABLED := TFM_CRYPTO_KEY_DERIVATION_MODULE_DISABLED ipc_build;
     TFM_CRYPTO_RNG_MODULE_DISABLED := TFM_CRYPTO_RNG_MODULE_DISABLED ipc_build;
     PSA_SUCCESS := PSA_SUCCESS ipc_build;
     PSA_ERROR_NOT_SUPPORTED := PSA_ERROR_NOT_SUPPORTED ipc_build;
     PSA_ERROR_INVALID_ARGUMENT := PSA_ERROR_INVALID_ARGUMENT ipc_build;
     PSA_ERROR_BAD_STATE := PSA_ERROR_BAD_STATE ipc_build;
     TFM_CRYPTO_MAX_NONCE_LENGTH := TFM_CRYPTO_MAX_NONCE_LENGTH ipc_build;
     sizeof_tfm_crypto_pack_iovec := sizeof_tfm_crypto_pack_iovec ipc_build;
     sizeof_psa_key_attributes_t := sizeof_psa_key_attributes_t ipc_build;
     sizeof_psa_key_id_t := sizeof_psa_key_id_t ipc_build;
     sizeof_psa_hash_operation_t := sizeof_psa_hash_operation_t ipc_build;
     sizeof_size_t := sizeof_size_t ipc_build |}.

(** The entry points of the hash module guarded by [#ifdef], and the two
    guarded by [#if (... != 0)]. *)
Definition hash_ifdef_guarded : list string :=
  ["psa_hash_setup"; "psa_hash_update"; "psa_hash_finish"; "psa_hash_verify";
   "psa_hash_abort"; "psa_hash_clone"]%string.
Definition hash_if_guarded : list string :=
  ["psa_hash_compute"; "psa_hash_compare"]%string.

(** * The accelerator configuration header

    [crypto_accelerator_config.h] of the CC312 port holds preprocessor
    directives only.  A directive is modelled by its effect on the set of
    defined macro names; the value a [#define] gives is dropped, no test of
    the header reads one.  The [extern "C"] lines define nothing and are
    left out. *)

Section AcceleratorConfig.
Local Open Scope string_scope.

Definition macro_set := gset string.
Definition directive := macro_set -> macro_set.

(** [defined(x)] *)
Definition defined (x : string) (D : macro_set) : bool := bool_decide (x ∈ D).

(** [#define x] and [#undef x] *)
Definition define (x : string) : directive := fun D => {[ x ]} ∪ D.
Definition undef (x : string) : directive := fun D => D ∖ {[ x ]}.

(** Directives one after the other. *)
Definition block (ds : list directive) : directive :=
  fun D => foldl (fun D d => d D) D ds.

(** [#ifdef x ... #endif], [#ifndef x ... #endif] and
    [#if defined(x1) || ... || defined(xn) ... #endif] *)
Definition when_defined (x : string) (d : directive) : directive :=
  fun D => if defined x D then d D else D.
Definition unless_defined (x : string) (d : directive) : directive :=
  fun D => if defined x D then D else d D.
Definition when_any_defined (xs : list string) (d : directive) : directive :=
  fun D => if existsb (fun x => defined x D) xs then d D else D.

(** Lines 28-82: the body of [#ifdef LEGACY_DRIVER_API_ENABLED]. *)
Definition legacy_driver_section : directive :=
  block
    [ when_defined "PSA_WANT_KEY_TYPE_AES"
        (block [ define "MBEDTLS_AES_ALT";
                 define "MBEDTLS_AES_SETKEY_ENC_ALT";
                 define "MBEDTLS_AES_SETKEY_DEC_ALT";
                 define "MBEDTLS_AES_ENCRYPT_ALT";
                 define "MBEDTLS_AES_DECRYPT_ALT" ]);
      when_defined "PSA_WANT_KEY_TYPE_ARIA" (define "MBEDTLS_ARIA_ALT");
      when_defined "PSA_WANT_ALG_CCM" (define "MBEDTLS_CCM_ALT");
      when_defined "PSA_WANT_KEY_TYPE_CHACHA20"
        (block [ define "MBEDTLS_CHACHA20_ALT";
                 when_defined "PSA_WANT_ALG_CHACHA20_POLY1305"
                   (define "MBEDTLS_CHACHAPOLY_ALT") ]);
      when_defined "PSA_WANT_ALG_CMAC" (define "MBEDTLS_CMAC_ALT");
      when_defined "PSA_WANT_ALG_ECDH"
        (block [ define "MBEDTLS_ECDH_GEN_PUBLIC_ALT";
                 define "MBEDTLS_ECDH_COMPUTE_SHARED_ALT" ]);
      when_defined "PSA_WANT_ALG_ECDSA"
        (block [ define "MBEDTLS_ECDSA_VERIFY_ALT";
                 define "MBEDTLS_ECDSA_SIGN_ALT";
                 unless_defined "CRYPTO_HW_ACCELERATOR_OTP_PROVISIONING"
                   (define "MBEDTLS_ECDSA_GENKEY_ALT") ]);
      when_defined "PSA_WANT_ALG_GCM" (define "MBEDTLS_GCM_ALT");
      when_defined "PSA_WANT_ALG_SHA_1"
        (block [ define "MBEDTLS_SHA1_ALT";
                 define "MBEDTLS_SHA1_PROCESS_ALT" ]);
      when_defined "PSA_WANT_ALG_SHA_256"
        (block [ define "MBEDTLS_SHA256_ALT";
                 define "MBEDTLS_SHA256_PROCESS_ALT" ]) ].

(** Lines 86-91: the names the [#if] before the RSA macros tests. *)
Definition rsa_wants : list string :=
  [ "PSA_WANT_ALG_RSA_OAEP";
    "PSA_WANT_ALG_RSA_PKCS1V15_CRYPT";
    "PSA_WANT_ALG_RSA_PKCS1V15_SIGN";
    "PSA_WANT_ALG_RSA_PSS";
    "PSA_WANT_KEY_TYPE_RSA_KEY_PAIR";
    "PSA_WANT_KEY_TYPE_RSA_PUBLIC_KEY" ].

(** Lines 86-97 *)
Definition rsa_section : directive :=
  when_any_defined rsa_wants
    (block [ when_defined "LEGACY_DRIVER_API_ENABLED"
               (block [ define "MBEDTLS_RSA_ALT";
                        define "MBEDTLS_PK_RSA_ALT_SUPPORT" ]);
             define "MBEDTLS_GENPRIME" ]).

(** The whole header, lines 8-104. *)
Definition crypto_accelerator_config : directive :=
  unless_defined "CRYPTO_ACCELERATOR_CONF_H"
    (block [ define "CRYPTO_ACCELERATOR_CONF_H";
             define "PSA_WANT_KEY_TYPE_AES";
             when_defined "PSA_WANT_ALG_CFB" (undef "PSA_WANT_ALG_CFB");
             when_defined "LEGACY_DRIVER_API_ENABLED" legacy_driver_section;
             rsa_section ]).

(** The names the legacy section can define, and those of the RSA section. *)
Definition legacy_alt_macros : list string :=
  [ "MBEDTLS_AES_ALT"; "MBEDTLS_AES_SETKEY_ENC_ALT"; "MBEDTLS_AES_SETKEY_DEC_ALT";
    "MBEDTLS_AES_ENCRYPT_ALT"; "MBEDTLS_AES_DECRYPT_ALT"; "MBEDTLS_ARIA_ALT";
    "MBEDTLS_CCM_ALT"; "MBEDTLS_CHACHA20_ALT"; "MBEDTLS_CHACHAPOLY_ALT";
    "MBEDTLS_CMAC_ALT"; "MBEDTLS_ECDH_GEN_PUBLIC_ALT";
    "MBEDTLS_ECDH_COMPUTE_SHARED_ALT"; "MBEDTLS_ECDSA_VERIFY_ALT";
    "MBEDTLS_ECDSA_SIGN_ALT"; "MBEDTLS_ECDSA_GENKEY_ALT"; "MBEDTLS_GCM_ALT";
    "MBEDTLS_SHA1_ALT"; "MBEDTLS_SHA1_PROCESS_ALT"; "MBEDTLS_SHA256_ALT";
    "MBEDTLS_SHA256_PROCESS_ALT" ].
Definition rsa_macros : list string :=
  [ "MBEDTLS_RSA_ALT"; "MBEDTLS_PK_RSA_ALT_SUPPORT"; "MBEDTLS_GENPRIME" ].

(** [legacy_alt_macros] without [MBEDTLS_ECDSA_GENKEY_ALT]. *)
Definition legacy_alt_macros_provisioning : list string :=
  Eval cbv in
    List.filter (fun x => negb (String.eqb x "MBEDTLS_ECDSA_GENKEY_ALT")) legacy_alt_macros.

(** [grows_within keep S d]: on a set that has the names of [keep], the
    directive [d] removes no name and adds names of [S] only. *)
Definition grows_within (keep S : macro_set) (d : directive) : Prop :=
  forall D, keep ⊆ D -> D ⊆ d D /\ d D ⊆ D ∪ S.

(** The set after lines 9-24: the guard and [PSA_WANT_KEY_TYPE_AES] are in,
    [PSA_WANT_ALG_CFB] is out. *)
Definition after_prefix (D : macro_set) : macro_set :=
  ({["PSA_WANT_KEY_TYPE_AES"]} ∪ ({["CRYPTO_ACCELERATOR_CONF_H"]} ∪ D))
    ∖ {["PSA_WANT_ALG_CFB"]}.

(** The set after line 84. *)
Definition after_legacy (D : macro_set) : macro_set :=
  when_defined "LEGACY_DRIVER_API_ENABLED" legacy_driver_section (after_prefix D).

(** A configuration that wants CFB, GCM and RSA-PSS with the legacy driver
    interface, and one without the legacy driver interface. *)
Definition legacy_config : macro_set :=
  {[ "LEGACY_DRIVER_API_ENABLED"; "PSA_WANT_ALG_CFB"; "PSA_WANT_ALG_GCM";
     "PSA_WANT_ALG_ECDSA"; "PSA_WANT_ALG_RSA_PSS";
     "CRYPTO_HW_ACCELERATOR_OTP_PROVISIONING" ]}.
Definition driver_only_config : macro_set :=
  {[ "PSA_WANT_ALG_CFB"; "PSA_WANT_ALG_GCM"; "PSA_WANT_ALG_RSA_PSS" ]}.

End AcceleratorConfig.

(** * Properties *)

Create HintDb entry_points.
#[global] Hint Unfold
  psa_crypto_init psa_open_key psa_close_key psa_import_key
  psa_destroy_key psa_get_key_attributes psa_reset_key_attributes psa_export_key
  psa_export_public_key psa_purge_key psa_copy_key psa_cipher_generate_iv
  psa_cipher_set_iv psa_cipher_encrypt_setup psa_cipher_decrypt_setup psa_cipher_update
  psa_cipher_abort psa_cipher_finish psa_hash_setup psa_hash_update
  psa_hash_finish psa_hash_verify psa_hash_abort psa_hash_clone
  psa_hash_compute psa_hash_compare psa_mac_sign_setup psa_mac_verify_setup
  psa_mac_update psa_mac_sign_finish psa_mac_verify_finish psa_mac_abort
  psa_aead_encrypt psa_aead_decrypt psa_aead_encrypt_setup psa_aead_decrypt_setup
  psa_aead_generate_nonce psa_aead_set_nonce psa_aead_set_lengths psa_aead_update_ad
  psa_aead_update psa_aead_finish psa_aead_verify psa_aead_abort
  psa_sign_message psa_verify_message psa_sign_hash psa_verify_hash
  psa_asymmetric_encrypt psa_asymmetric_decrypt psa_key_derivation_get_capacity psa_key_derivation_output_bytes
  psa_key_derivation_input_key psa_key_derivation_abort psa_key_derivation_key_agreement psa_generate_random
  psa_generate_key psa_mac_compute psa_mac_verify psa_cipher_encrypt
  psa_cipher_decrypt psa_raw_key_agreement psa_key_derivation_setup psa_key_derivation_set_capacity
  psa_key_derivation_input_bytes psa_key_derivation_output_key
  : entry_points.

(** Unfolds a call down to the monad operations. *)
Ltac unfold_call :=
  unfold invoke; autounfold with entry_points;
  unfold API_DISPATCH, API_DISPATCH_NO_OUTVEC, psa_call, handle_of.

(** Runs the monad operations of the goal on the state at hand. *)
Ltac run_api :=
  unfold mbind, mret, api_bind, api_ret;
  cbn [bind ret load store fault call_primitive is_null negb andb orb fst snd].

(** ** Entry points compiled out *)

(** X14.  An entry point whose module is disabled answers [PSA_ERROR_NOT_SUPPORTED]
    ([psa_reset_key_attributes] answers nothing) and leaves memory and the
    channel alone. *)
Lemma disabled_not_supported (env : tfm_build) (svc : service) (c : api_call) (st : client) :
  module_disabled env c = true ->
  invoke env svc c st =
    (Some (match c with
           | call_reset_key_attributes _ => None
           | _ => Some (PSA_ERROR_NOT_SUPPORTED env)
           end), st).
Proof.
  intros Hoff; destruct c; cbn [module_disabled] in Hoff; try discriminate;
    unfold_call; rewrite Hoff; reflexivity.
Qed.

(** ** Local precondition checks *)

(** C2.  For every operation with an optional buffer (the additional data
    of the one-shot AEAD calls, the input of [psa_aead_update_ad] and
    [psa_aead_update], the ciphertext or plaintext output of
    [psa_aead_finish] and [psa_aead_verify], the salt of the asymmetric
    encryption calls): a null reference with a nonzero length is answered
    with [PSA_ERROR_INVALID_ARGUMENT], locally: the state, and with it the
    list of calls made through the channel, is unchanged, whatever the
    other arguments are, so the check precedes the trimming of the
    descriptor count. *)
Theorem optional_mismatch_rejected
    (env : tfm_build) (svc : service) (c : api_call) (st : client) (l : size_t) :
  module_disabled env c = false ->
  operation_of c <> Some NULL ->
  optional_buffer c = Some (NULL, l) ->
  l <> 0 ->
  invoke env svc c st = (Some (Some (PSA_ERROR_INVALID_ARGUMENT env)), st).
Proof.
  intros Hon Hop Hopt Hl.
  assert (Hnz : negb (l =? 0) = true) by (apply negb_true_iff, Z.eqb_neq, Hl).
  destruct c; cbn [optional_buffer] in Hopt; try discriminate;
    injection Hopt as -> ->; cbn [module_disabled] in Hon;
    cbn [operation_of] in Hop;
    try (destruct operation as [|a]; [congruence|]);
    unfold_call; rewrite Hon; run_api; rewrite Hnz; reflexivity.
Qed.

Lemma optional_mismatch_rejected_witness :
  let c := call_aead_encrypt 1 2 (Ptr 500) 12 NULL 5 (Ptr 200) 16 (Ptr 300) 32 (Ptr 400) in
  (module_disabled ipc_build c = false /\ operation_of c <> Some NULL /\
   optional_buffer c = Some (NULL, 5) /\ 5 <> 0) /\
  invoke ipc_build counting_service c fresh_client = (Some (Some (-135)), fresh_client).
Proof.
  cbv zeta. split.
  - repeat split; [discriminate | lia].
  - apply (optional_mismatch_rejected ipc_build counting_service _ fresh_client 5);
      [reflexivity | discriminate | reflexivity | lia].
Defined.

Lemma set_nonce_at_length (idx : Z) (b : uint8_t) (iov : tfm_crypto_pack_iovec) :
  length (nonce (aead_in (set_nonce_at idx b iov))) = length (nonce (aead_in iov)).
Proof. cbn [set_nonce_at set_aead_in aead_in nonce]. apply length_insert. Qed.

(** The copy loop on a non-null nonce that fits in the inline array reads
    memory and changes nothing. *)
Lemma copy_nonce_ptr (todo : nat) (a : Z) (st : client) :
  forall (idx : Z) (iov : tfm_crypto_pack_iovec),
    0 <= idx ->
    idx + Z.of_nat todo <= Z.of_nat (length (nonce (aead_in iov))) ->
    copy_nonce todo idx (Ptr a) iov st
    = (Some (copied_nonce (mem st) todo idx a iov), st).
Proof.
  induction todo as [|todo IH]; intros idx iov Hidx Hfit;
    cbn [copy_nonce copied_nonce].
  - reflexivity.
  - unfold mbind, api_bind, bind. cbn [load ptr_add]. unfold store_nonce.
    replace (0 <=? idx) with true by (symmetry; apply Z.leb_le; lia).
    replace (idx <? _) with true by (symmetry; apply Z.ltb_lt; lia).
    cbn [andb ret]. apply IH; [lia | rewrite set_nonce_at_length; lia].
Qed.




(** C7.  [psa_hash_clone] onto a target operation whose handle is not zero
    answers [PSA_ERROR_BAD_STATE]; the state is unchanged: both operation
    objects are as they were and nothing went through the channel. *)
Theorem hash_clone_bound_target
    (env : tfm_build) (svc : service) (st : client) (source target : Z) :
  ifdef (TFM_CRYPTO_HASH_MODULE_DISABLED env) = false ->
  mem st target <> 0 ->
  psa_hash_clone env svc (Ptr source) (Ptr target) st
    = (Some (PSA_ERROR_BAD_STATE env), st).
Proof.
  intros Hon Hbound. apply Z.eqb_neq in Hbound.
  unfold psa_hash_clone, handle_of. rewrite Hon. run_api.
  rewrite Hbound. reflexivity.
Qed.

Lemma hash_clone_bound_target_witness :
  let st := {| mem := fun a => if a =? 104 then 7 else 0; calls := [] |} in
  (ifdef (TFM_CRYPTO_HASH_MODULE_DISABLED ipc_build) = false /\ mem st 104 <> 0) /\
  psa_hash_clone ipc_build counting_service (Ptr 100) (Ptr 104) st
    = (Some (-137), st).
Proof.
  cbv zeta. split.
  - split; [reflexivity | cbn; lia].
  - apply (hash_clone_bound_target ipc_build counting_service _ 100 104);
      [reflexivity | cbn; lia].
Defined.

(** C8.  [psa_generate_random] with [output_size] 0 answers [PSA_SUCCESS] at
    once; nothing goes through the channel. *)
Theorem generate_random_nothing
    (env : tfm_build) (svc : service) (st : client) (output : pointer) :
  ifdef (TFM_CRYPTO_RNG_MODULE_DISABLED env) = false ->
  psa_generate_random env svc output 0 st = (Some (PSA_SUCCESS env), st).
Proof.
  intros Hon. unfold psa_generate_random. rewrite Hon. reflexivity.
Qed.

Lemma generate_random_nothing_witness :
  ifdef (TFM_CRYPTO_RNG_MODULE_DISABLED ipc_build) = false /\
  psa_generate_random ipc_build counting_service (Ptr 300) 0 fresh_client
    = (Some 0, fresh_client).
Proof.
  split; [reflexivity |].
  apply (generate_random_nothing ipc_build counting_service fresh_client (Ptr 300)).
  reflexivity.
Defined.

(** C9.  In [psa_aead_encrypt] and [psa_aead_decrypt] a null nonce with a
    nonzero [nonce_length] within the inline maximum is not rejected: the
    call is dispatched, [nonce_length] is ignored and the envelope carries
    an inline [nonce_length] of 0. *)
Theorem null_nonce_length_ignored
    (env : tfm_build) (svc : service) (st : client)
    (key_id : psa_key_id_t) (alg : psa_algorithm_t) (nonce_length : size_t)
    (additional_data : pointer) (additional_data_length : size_t)
    (input : pointer) (input_length : size_t)
    (output : pointer) (output_size : size_t) (output_length : pointer) :
  ifdef (TFM_CRYPTO_AEAD_MODULE_DISABLED env) = false ->
  nonce_length <> 0 ->
  nonce_length <= TFM_CRYPTO_MAX_NONCE_LENGTH env ->
  (additional_data = NULL -> additional_data_length = 0) ->
  sent_with_blank_nonce env svc st output_length
    (psa_aead_encrypt env svc key_id alg NULL nonce_length
       additional_data additional_data_length input input_length
       output output_size output_length st)
  /\
  sent_with_blank_nonce env svc st output_length
    (psa_aead_decrypt env svc key_id alg NULL nonce_length
       additional_data additional_data_length input input_length
       output output_size output_length st).
Proof.
  intros Hon _ Hfit Had.
  assert (Hfit' : (TFM_CRYPTO_MAX_NONCE_LENGTH env <? nonce_length) = false)
    by (apply Z.ltb_ge, Hfit).
  assert (Had' : is_null additional_data && negb (additional_data_length =? 0) = false).
  { destruct additional_data; [rewrite Had by reflexivity|]; reflexivity. }
  unfold sent_with_blank_nonce, psa_aead_encrypt, psa_aead_decrypt,
    API_DISPATCH, psa_call.
  rewrite Hon, Had', Hfit'. run_api.
  split; destruct (ifdef (TFM_PSA_API env)), additional_data, output_length;
    run_api; eexists; (split; [reflexivity|]); (split; [reflexivity|]);
    intros Hnn; try congruence; reflexivity.
Qed.

Lemma null_nonce_length_ignored_witness :
  (ifdef (TFM_CRYPTO_AEAD_MODULE_DISABLED ipc_build) = false /\ 12 <> 0 /\
   12 <= TFM_CRYPTO_MAX_NONCE_LENGTH ipc_build) /\
  sent_with_blank_nonce ipc_build counting_service fresh_client (Ptr 400)
    (psa_aead_encrypt ipc_build counting_service 1 2 NULL 12
       (Ptr 600) 4 (Ptr 200) 16 (Ptr 300) 32 (Ptr 400) fresh_client)
  /\
  sent_with_blank_nonce ipc_build counting_service fresh_client (Ptr 400)
    (psa_aead_decrypt ipc_build counting_service 1 2 NULL 12
       (Ptr 600) 4 (Ptr 200) 16 (Ptr 300) 32 (Ptr 400) fresh_client).
Proof.
  split.
  - repeat split; cbn; lia.
  - apply (null_nonce_length_ignored ipc_build counting_service fresh_client);
      [reflexivity | lia | cbn; lia | discriminate].
Defined.

(** ** Optional output of [psa_aead_finish] and [psa_aead_verify] *)

Lemma list_neq_snoc {A} (l : list A) (x : A) : l <> l ++ [x].
Proof.
  intros H. apply (f_equal length) in H. rewrite length_app in H. cbn in H. lia.
Qed.

Lemma mem_write_eq (m : memory) (a v : Z) : mem_write m a v a = v.
Proof. unfold mem_write. now rewrite Z.eqb_refl. Qed.

Lemma mem_write_ne (m : memory) (a b v : Z) : b <> a -> mem_write m a v b = m b.
Proof. intros H. unfold mem_write. apply Z.eqb_neq in H. now rewrite H. Qed.

(** C10, as the code has it.  In a build with [TFM_PSA_API] defined,
    [psa_aead_finish] elides the ciphertext descriptor whenever
    [ciphertext_size] is 0, the reference being null or not, and then
    stores 0 in [*ciphertext_length]; with a ciphertext of nonzero size and
    a null [ciphertext_length] it answers [PSA_ERROR_INVALID_ARGUMENT]
    without dispatching.  [psa_aead_verify] does the same for its plaintext
    output.  In a build without [TFM_PSA_API] both hand their output array
    over whole, the descriptor of the optional output last, whatever its
    reference and size, and whether the length out-parameter is null or
    not: nothing is elided and the out-parameter is not checked. *)
Theorem aead_finish_verify_elision
    (env : tfm_build) (svc : service) (st : client) (operation : Z) :
  ifdef (TFM_CRYPTO_AEAD_MODULE_DISABLED env) = false ->
  (ifdef (TFM_PSA_API env) = true ->
   (forall ciphertext ciphertext_length tag tag_size tag_length,
      ciphertext_length <> tag_length ->
      elided_output st 2 ciphertext_length
        (psa_aead_finish env svc (Ptr operation) ciphertext 0 ciphertext_length
           tag tag_size tag_length st))
   /\
   (forall ciphertext ciphertext_size tag tag_size tag_length,
      ciphertext_size <> 0 ->
      psa_aead_finish env svc (Ptr operation) (Ptr ciphertext) ciphertext_size NULL
        tag tag_size tag_length st
      = (Some (PSA_ERROR_INVALID_ARGUMENT env), st))
   /\
   (forall plaintext plaintext_length tag tag_length,
      elided_output st 1 plaintext_length
        (psa_aead_verify env svc (Ptr operation) plaintext 0 plaintext_length
           tag tag_length st))
   /\
   (forall plaintext plaintext_size tag tag_length,
      plaintext_size <> 0 ->
      psa_aead_verify env svc (Ptr operation) (Ptr plaintext) plaintext_size NULL
        tag tag_length st
      = (Some (PSA_ERROR_INVALID_ARGUMENT env), st)))
  /\
  (ifdef (TFM_PSA_API env) = false ->
   (forall ciphertext ciphertext_size ciphertext_length tag tag_size tag_length,
      (ciphertext = NULL -> ciphertext_size = 0) ->
      kept_output st (vec (at_ptr ciphertext) ciphertext_size)
        (psa_aead_finish env svc (Ptr operation) ciphertext ciphertext_size
           ciphertext_length tag tag_size tag_length st))
   /\
   (forall plaintext plaintext_size plaintext_length tag tag_length,
      (plaintext = NULL -> plaintext_size = 0) ->
      kept_output st (vec (at_ptr plaintext) plaintext_size)
        (psa_aead_verify env svc (Ptr operation) plaintext plaintext_size
           plaintext_length tag tag_length st))).
Proof.
  intros Hon.
  unfold elided_output, kept_output, psa_aead_finish, psa_aead_verify, API_DISPATCH,
    psa_call, handle_of.
  rewrite Hon. split; intros Hbuild; rewrite Hbuild.
  - repeat split.
    + intros ciphertext ciphertext_length tag tag_size tag_length Hdiff.
      destruct ciphertext, ciphertext_length as [|cl], tag_length as [|tl];
        run_api; cbn;
        eexists _, _; (split; [reflexivity|]); (split; [reflexivity|]);
        (split; [reflexivity|]); intros cl' [= <-]; cbn [mem];
        first [ apply mem_write_eq
              | rewrite mem_write_ne by congruence; apply mem_write_eq ].
    + intros ciphertext ciphertext_size tag tag_size tag_length Hsize.
      apply Z.eqb_neq in Hsize. run_api. rewrite Hsize. reflexivity.
    + intros plaintext plaintext_length tag tag_length.
      destruct plaintext, plaintext_length as [|pl]; run_api; cbn;
        eexists _, _; (split; [reflexivity|]); (split; [reflexivity|]);
        (split; [reflexivity|]); intros pl' [= <-]; cbn [mem];
        apply mem_write_eq.
    + intros plaintext plaintext_size tag tag_length Hsize.
      apply Z.eqb_neq in Hsize. run_api. rewrite Hsize. reflexivity.
  - split.
    + intros ciphertext ciphertext_size ciphertext_length tag tag_size tag_length Hopt.
      destruct ciphertext as [|ct];
        [rewrite (Hopt eq_refl); change (0 =? 0) with true|];
        destruct ciphertext_length as [|cl], tag_length as [|tl];
        run_api; cbn; eexists _, _; repeat split; reflexivity.
    + intros plaintext plaintext_size plaintext_length tag tag_length Hopt.
      destruct plaintext as [|pt];
        [rewrite (Hopt eq_refl); change (0 =? 0) with true|];
        destruct plaintext_length as [|pl];
        run_api; cbn; eexists _, _; repeat split; reflexivity.
Qed.

Lemma aead_finish_verify_elision_witness :
  (ifdef (TFM_CRYPTO_AEAD_MODULE_DISABLED ipc_build) = false /\
   ifdef (TFM_PSA_API ipc_build) = true) /\
  elided_output fresh_client 2 (Ptr 400)
    (psa_aead_finish ipc_build counting_service (Ptr 100) (Ptr 300) 0 (Ptr 400)
       (Ptr 500) 16 (Ptr 600) fresh_client).
Proof.
  split; [split; reflexivity|].
  pose proof (aead_finish_verify_elision ipc_build counting_service fresh_client 100
                eq_refl) as (Hipc & _).
  destruct (Hipc eq_refl) as (Hfinish & _).
  apply Hfinish. discriminate.
Defined.

(** In the library build nothing is elided: the same call hands over all
    three output descriptors. *)
Lemma aead_finish_library_build_keeps_descriptor :
  ~ elided_output fresh_client 2 (Ptr 400)
      (psa_aead_finish library_build counting_service (Ptr 100) NULL 0 (Ptr 400)
         (Ptr 500) 16 (Ptr 600) fresh_client).
Proof.
  intros (rq & rp & Hcalls & Hlen & _).
  vm_compute in Hcalls. injection Hcalls as <- _. discriminate Hlen.
Qed.

(** ** What goes through the channel *)

Section Emits.

Context (P : psa_request -> Prop).

Lemma emits_silent {A} (m : api A) :
  (forall st, calls (m st).2 = calls st) -> emits P m.
Proof.
  intros H st. exists []. rewrite H, app_nil_r. split; [reflexivity | constructor].
Qed.

Lemma emits_ret {A} (a : A) : emits P (ret a).
Proof. now apply emits_silent. Qed.

Lemma emits_fault {A} : emits P (@fault A).
Proof. now apply emits_silent. Qed.

Lemma emits_load (p : pointer) : emits P (load p).
Proof. apply emits_silent. intros st. now destruct p. Qed.

Lemma emits_store (p : pointer) (v : Z) : emits P (store p v).
Proof. apply emits_silent. intros st. now destruct p. Qed.

Lemma emits_bind {A B} (m : api A) (k : A -> api B) :
  emits P m -> (forall a, emits P (k a)) -> emits P (m ≫= k).
Proof.
  intros Hm Hk st. unfold mbind, api_bind, bind.
  destruct (Hm st) as (xs & Hxs & HP).
  destruct (m st) as [[a|] st1]; cbn [snd] in *.
  - destruct (Hk a st1) as (ys & Hys & HQ).
    exists (xs ++ ys). rewrite Hys, Hxs, app_assoc. split; [reflexivity|].
    apply Forall_app; auto.
  - now exists xs.
Qed.

Lemma emits_call_primitive (svc : service) (entry : entry_point)
    (in_vec : list psa_invec) (in_len : nat)
    (out_vec : list psa_outvec) (out_len : nat) :
  P {| req_entry := entry; req_in_vec := in_vec; req_in_len := in_len;
       req_out_vec := out_vec; req_out_len := out_len |} ->
  emits P (call_primitive svc entry in_vec in_len out_vec out_len).
Proof.
  intros HP st. eexists [_]. split; [reflexivity|].
  constructor; [exact HP | constructor].
Qed.

Lemma emits_copy_nonce (todo : nat) (idx : Z) (nonce : pointer)
    (iov : tfm_crypto_pack_iovec) :
  emits P (copy_nonce todo idx nonce iov).
Proof.
  revert idx iov. induction todo as [|todo IH]; intros idx iov; cbn [copy_nonce].
  - apply emits_ret.
  - apply emits_bind; [apply emits_load | intros b].
    apply emits_bind; [|intros iov'; apply IH].
    apply emits_silent. intros st. unfold store_nonce.
    now destruct (_ && _).
Qed.

End Emits.

(** Walks through the body of an entry point with the rules above; [side]
    settles the condition on each request met. *)
Ltac emits_walk side :=
  repeat first
    [ apply emits_ret
    | apply emits_fault
    | apply emits_load
    | apply emits_store
    | apply emits_copy_nonce
    | apply emits_call_primitive; side
    | apply emits_bind; [| intros ?]
    | match goal with
      | |- emits _ (if ?b then _ else _) => destruct b
      | |- emits _ (match ?x with _ => _ end) => destruct x
      end ].

Ltac count_descriptors :=
  unfold within_iovec_limit; cbn;
  repeat match goal with
         | |- context [if ?b then _ else _] => destruct b
         end;
  cbn; lia.

(** C4.  Whatever the operation, the build, the service and the arguments,
    every request the call sends through the channel has at most 4
    descriptors, inputs and outputs together. *)
Theorem descriptor_count_bounded
    (env : tfm_build) (svc : service) (c : api_call) :
  emits within_iovec_limit (invoke env svc c).
Proof.
  destruct c; unfold_call; cbv zeta; emits_walk count_descriptors.
Qed.

(** ** Optional buffers and the descriptor count *)

(** The side conditions of [copy_nonce_ptr] where the entry points run the
    loop: after the test of the length against the maximum. *)
Ltac nonce_fits :=
  cbn [iov_init set_alg set_key_id set_aead_in aead_in nonce];
  rewrite ?length_replicate;
  repeat match goal with
         | H : (_ <? _) = false |- _ => apply Z.ltb_ge in H
         end;
  lia.

(** Runs both the calls in the hypotheses and the call in the goal, splitting
    on every test and every pointer whose outcome the run depends on. *)
Ltac explore :=
  repeat first
    [ progress (unfold mbind, mret, api_bind, api_ret in * )
    | progress (change (0 =? 0) with true in * )
    | progress (cbn [bind ret load store fault call_primitive is_null negb andb orb
                     fst snd length Nat.sub Nat.eqb] in * )
    | progress (rewrite copy_nonce_ptr in * by nonce_fits)
    | match goal with
      | H : context [copy_nonce] |- _ => progress (unfold bind in H; cbv beta in H)
      | |- context [copy_nonce] => progress (unfold bind; cbv beta)
      end
    | match goal with
      | H : context [store ?p _] |- _ => is_var p; destruct p
      | |- context [store ?p _] => is_var p; destruct p
      | H : context [load ?p] |- _ => is_var p; destruct p
      | |- context [load ?p] => is_var p; destruct p
      | H : context [is_null ?p] |- _ => is_var p; destruct p
      | |- context [is_null ?p] => is_var p; destruct p
      | H : context [match ?p with NULL => _ | Ptr _ => _ end] |- _ => is_var p; destruct p
      | |- context [match ?p with NULL => _ | Ptr _ => _ end] => is_var p; destruct p
      | H : context [if ?b then _ else _] |- _ => destruct b eqn:?
      | |- context [if ?b then _ else _] => destruct b eqn:?
      end
    | progress (unfold bind in *; cbv beta in * ) ].

(** Closes the cases in which the hypothesis says that a call that sent
    nothing sent something. *)
Ltac nothing_sent :=
  match goal with
  | H : calls ?st = calls ?st ++ [_] |- _ => exfalso; exact (list_neq_snoc _ _ H)
  | H : ?l ++ [_] = ?l |- _ => exfalso; symmetry in H; exact (list_neq_snoc _ _ H)
  end.

(** C3, as the code has it.  For every operation with an optional buffer,
    the call with the buffer and the call without it, run from the same
    state, each send one request.  In a build with [TFM_PSA_API] defined,
    leaving the buffer out takes exactly one descriptor off the count
    handed over, the last one of its array, and every other descriptor
    keeps its index.  (An optional output of size 0 is left out as well,
    hence the condition on [l].)  In a build without [TFM_PSA_API] both
    requests hand their arrays over whole, and a null descriptor stands
    where the buffer is left out. *)
Theorem optional_omitted_one_fewer
    (env : tfm_build) (svc : service) (c : api_call) (st : client)
    (b : Z) (l : size_t) :
  is_Some (optional_buffer c) ->
  reaches_dispatch env c ->
  exists rq rq',
    calls (invoke env svc (with_optional c NULL 0) st).2 = calls st ++ [(rq, svc st rq)] /\
    calls (invoke env svc (with_optional c (Ptr b) l) st).2 = calls st ++ [(rq', svc st rq')] /\
    if ifdef (TFM_PSA_API env)
    then (optional_is_output c = true -> l <> 0) ->
         one_fewer (vec (at_ptr (Ptr b)) l) rq rq'
    else kept_whole (vec (at_ptr (Ptr b)) l) rq rq'.
Proof.
  intros [pl Hopt] (Hon & Hop & Hnonce & Hlen).
  destruct c; cbn [optional_buffer] in Hopt; try discriminate; clear Hopt;
    cbn [with_optional optional_is_output module_disabled operation_of
         oneshot_nonce length_reports] in *.
  all: try (specialize (Hnonce _ _ eq_refl); apply Z.ltb_ge in Hnonce).
  all: try (destruct operation as [|op]; [congruence|]; clear Hop).
  all: unfold_call; rewrite Hon; try rewrite Hnonce; cbv zeta.
  all: destruct (ifdef (TFM_PSA_API env)) eqn:Hbuild.
  all: explore; cbn [snd calls] in *.
  all: try (exfalso; apply Hlen; cbn; solve [repeat constructor]).
  all: try discriminate.
  all: try match goal with H : false = true |- _ => discriminate H end.
  all: eexists _, _; (split; [reflexivity|]); (split; [reflexivity|]).
  all: try (intros Hl; try (exfalso; apply (Hl eq_refl);
                              match goal with
                              | H : (_ =? 0) = true |- _ => apply Z.eqb_eq in H; exact H
                              end)).
  all: unfold one_fewer, kept_whole, dispatched_in, dispatched_out; cbn.
  all: first
    [ left; repeat split; reflexivity
    | right; repeat split; reflexivity
    | repeat (split; [reflexivity|]);
      first [ left; eexists [_; _]; repeat split; reflexivity
            | left; eexists [_]; repeat split; reflexivity
            | right; eexists [_; _]; repeat split; reflexivity
            | right; eexists [_]; repeat split; reflexivity ] ].
Qed.

Lemma optional_omitted_one_fewer_witness :
  let c := call_aead_encrypt 1 2 (Ptr 500) 12 NULL 0 (Ptr 200) 16 (Ptr 300) 32 (Ptr 400) in
  (is_Some (optional_buffer c) /\ reaches_dispatch ipc_build c) /\
  exists rq rq',
    calls (invoke ipc_build counting_service (with_optional c NULL 0) fresh_client).2
      = calls fresh_client ++ [(rq, counting_service fresh_client rq)] /\
    calls (invoke ipc_build counting_service (with_optional c (Ptr 600) 4) fresh_client).2
      = calls fresh_client ++ [(rq', counting_service fresh_client rq')] /\
    one_fewer (vec (at_ptr (Ptr 600)) 4) rq rq'.
Proof.
  cbv zeta.
  assert (Hreach : reaches_dispatch ipc_build
            (call_aead_encrypt 1 2 (Ptr 500) 12 NULL 0 (Ptr 200) 16 (Ptr 300) 32 (Ptr 400))).
  { repeat split; [discriminate | intros p n [= <- <-]; cbn; lia |].
    cbn. intros H. apply elem_of_cons in H as [H|H]; [discriminate H|].
    now apply elem_of_nil in H. }
  assert (Hopt : is_Some (optional_buffer
            (call_aead_encrypt 1 2 (Ptr 500) 12 NULL 0 (Ptr 200) 16 (Ptr 300) 32 (Ptr 400))))
    by (eexists; reflexivity).
  split; [split; [exact Hopt | exact Hreach]|].
  destruct (optional_omitted_one_fewer ipc_build counting_service _ fresh_client 600 4
              Hopt Hreach) as (rq & rq' & Hsent & Hsent' & Hfewer).
  exists rq, rq'. split; [exact Hsent|]. split; [exact Hsent'|].
  apply Hfewer. discriminate.
Defined.

(** In the library build the count is not trimmed: with or without the
    additional data, [psa_aead_encrypt] hands over three input
    descriptors. *)
Lemma library_build_omission_keeps_count :
  ~ omission_trims library_build counting_service
      (call_aead_encrypt 1 2 (Ptr 500) 12 NULL 0 (Ptr 200) 16 (Ptr 300) 32 (Ptr 400))
      fresh_client 600 4.
Proof.
  intros H. unfold omission_trims in H.
  edestruct H as (rq & rp & Hcalls & Hrel); [lazy; reflexivity|].
  lazy in Hcalls. injection Hcalls as <- _.
  destruct Hrel as [(Hin & _) | (Hout & _)]; [lazy in Hin | lazy in Hout]; discriminate.
Qed.

(** ** Output lengths *)

(** C1, as the code has it.  For every operation that reports an output
    length: once the request has gone through the channel, the [len] of the
    output descriptor is copied into the caller's [*_length] out-parameter,
    and the status of the service is returned, whatever that status is; no
    entry point looks at the status before the copy. *)
Theorem length_copied_whatever_status
    (env : tfm_build) (svc : service) (c : api_call) (st st' : client)
    (s : option psa_status_t) (rq : psa_request) (rp : psa_reply)
    (cell : Z) (i : nat) :
  invoke env svc c st = (Some s, st') ->
  calls st' = calls st ++ [(rq, rp)] ->
  (Ptr cell, i) ∈ length_reports c ->
  NoDup (length_reports c).*1 ->
  mem st' cell = len_after rq rp i /\ s = Some (reply_status rp).
Proof.
  intros Hrun Hsent Hcell Hdistinct.
  destruct c; cbn [length_reports] in Hcell, Hdistinct;
    try (apply elem_of_nil in Hcell; contradiction).
  all: repeat (apply elem_of_cons in Hcell as [Hcell|Hcell]);
    try (apply elem_of_nil in Hcell; contradiction);
    injection Hcell as <- ->.
  all: unfold invoke in Hrun; autounfold with entry_points in Hrun;
    unfold API_DISPATCH, API_DISPATCH_NO_OUTVEC, psa_call, handle_of in Hrun;
    cbv zeta in Hrun.
  all: explore; unfold ret, fault in Hrun; try discriminate Hrun;
    injection Hrun as <- <-; cbn [calls mem] in *; try nothing_sent;
    apply app_inv_head in Hsent; injection Hsent as <- <-.
  all: (split; [|reflexivity]).
  all: first
    [ rewrite mem_write_eq
    | rewrite mem_write_ne;
      [ rewrite mem_write_eq
      | cbn in Hdistinct; apply NoDup_cons in Hdistinct as [Hfresh _];
        intros ->; apply Hfresh; left ] ].
  all: unfold len_after; cbn; try reflexivity.
  all: repeat match goal with
              | H : negb _ = false |- _ => apply negb_false_iff in H
              | H : (_ =? 0) = true |- _ => apply Z.eqb_eq in H
              end;
    congruence.
Qed.

Lemma length_copied_whatever_status_witness :
  let svc := failing_service (-133) 5 in
  let st := {| mem := fun a => if a =? 400 then 99 else 0; calls := [] |} in
  let c := call_hash_finish (Ptr 100) (Ptr 300) 32 (Ptr 400) in
  let r := invoke ipc_build svc c st in
  exists rq rp,
    calls r.2 = calls st ++ [(rq, rp)] /\
    reply_status rp = -133 /\ len_after rq rp 1 = 5 /\
    mem r.2 400 = len_after rq rp 1 /\ Some (-133) = Some (reply_status rp).
Proof.
  cbv zeta. eexists _, _.
  split; [vm_compute; reflexivity|].
  split; [reflexivity|]. split; [reflexivity|].
  eapply (length_copied_whatever_status ipc_build (failing_service (-133) 5)
            (call_hash_finish (Ptr 100) (Ptr 300) 32 (Ptr 400))).
  - reflexivity.
  - reflexivity.
  - cbn. left.
  - cbn. repeat constructor. intros H. apply elem_of_nil in H. exact H.
Defined.

(** A request the service fails after producing 5 bytes: the calls return
    the failure status, and the out-parameter, 99 before the call, holds 5
    after it. *)
Lemma failed_call_overwrites_length :
  let svc := failing_service (-133) 5 in
  let st := {| mem := fun a => if a =? 400 then 99 else 0; calls := [] |} in
  let finish := psa_hash_finish ipc_build svc (Ptr 100) (Ptr 300) 32 (Ptr 400) st in
  let export := psa_export_key ipc_build svc 7 (Ptr 300) 32 (Ptr 400) st in
  let update := psa_cipher_update ipc_build svc (Ptr 100) (Ptr 200) 16 (Ptr 300) 32 (Ptr 400) st in
  -133 <> PSA_SUCCESS ipc_build /\
  (finish.1 = Some (-133) /\ ~ length_withheld st 400 finish.2) /\
  (export.1 = Some (-133) /\ ~ length_withheld st 400 export.2) /\
  (update.1 = Some (-133) /\ ~ length_withheld st 400 update.2).
Proof.
  cbv zeta. split; [discriminate|].
  repeat split; try reflexivity; intros [H|H]; vm_compute in H; discriminate.
Qed.

(** ** Continuation handles *)

Lemma mem_fill_outside (xs : list Z) :
  forall (m : memory) (a q : Z),
    q < a \/ a + Z.of_nat (length xs) <= q -> mem_fill m a xs q = m q.
Proof.
  induction xs as [|x xs IH]; intros m a q Hq; cbn [mem_fill]; [reflexivity|].
  cbn [length] in Hq. rewrite IH by lia. apply mem_write_ne. lia.
Qed.

Lemma write_through_outside (v : psa_outvec) (xs : list Z) (m : memory) (q : Z) :
  ~ in_extent q v -> write_through v xs m q = m q.
Proof.
  unfold in_extent, write_through, cells. intros Hq.
  destruct (base v) as [[|a]|[|a]| |]; try reflexivity;
    apply mem_fill_outside; rewrite length_take; lia.
Qed.

(** What the reply writes stays within the cells of the output descriptors
    handed over. *)
Lemma write_back_outside (rp : psa_reply) (q : Z) (vs : list psa_outvec) :
  forall (i : nat) (m : memory),
    (forall v, v ∈ vs -> ~ in_extent q v) -> (write_back rp i vs m).2 q = m q.
Proof.
  induction vs as [|v vs IH]; intros i m Hq; cbn [write_back snd]; [reflexivity|].
  rewrite IH by (intros v' Hv'; apply Hq; now right).
  apply write_through_outside, Hq. now left.
Qed.







Example scenario_c_handles :
  let r := run ipc_build counting_service scenario_c fresh_client in
  r.1 = Some tt /\
  map (fun x => op_handle <$> envelope x.1) (calls r.2) = [Some 0; Some 1; Some 2; Some 3] /\
  map (fun x => reply_word x.2 0) (calls r.2) = [Some 1; Some 2; Some 3; Some 4].
Proof. repeat split; vm_compute; reflexivity. Qed.

(** Scenario A: a digest of 3 bytes into a buffer of 32 bytes. *)
Example scenario_a_digest :
  let r := psa_hash_compute ipc_build counting_service 9 (Ptr 200) 3 (Ptr 300) 32 (Ptr 400)
             fresh_client in
  r.1 = Some 0 /\
  map (fun x => (length (dispatched_in x.1), map len (dispatched_out x.1))) (calls r.2)
    = [(2%nat, [32])] /\
  mem r.2 400 = 32.
Proof. repeat split; vm_compute; reflexivity. Qed.

(** ** The tables agree with the entry points *)

Lemma copied_nonce_op_handle (m : memory) (todo : nat) (a : Z) :
  forall idx iov, op_handle (copied_nonce m todo idx a iov) = op_handle iov.
Proof.
  induction todo as [|todo IH]; intros idx iov; cbn [copied_nonce];
    [reflexivity | now rewrite IH].
Qed.

(** X17.  Only the entry points that [operation_of] lists put a handle in the
    envelope: the others send the zero of the initialiser. *)
Lemma no_operation_zero_handle (env : tfm_build) (svc : service) (c : api_call)
    (st : client) (rq : psa_request) (rp : psa_reply) :
  operation_of c = None ->
  calls (invoke env svc c st).2 = calls st ++ [(rq, rp)] ->
  op_handle <$> envelope rq = Some 0.
Proof.
  intros Hop Hsent. destruct c; cbn [operation_of] in Hop; try discriminate.
  all: unfold invoke in Hsent; autounfold with entry_points in Hsent;
    unfold API_DISPATCH, API_DISPATCH_NO_OUTVEC, psa_call, handle_of in Hsent;
    cbv zeta in Hsent.
  all: explore; cbn [snd calls] in *; try nothing_sent;
    apply app_inv_head in Hsent; injection Hsent as <- <-;
    cbn; rewrite ?copied_nonce_op_handle; reflexivity.
Qed.

(** X18.  Only the entry points that [optional_buffer] lists trim a count: the
    others hand over their arrays whole. *)
Lemma no_optional_whole_arrays (env : tfm_build) (svc : service) (c : api_call) :
  optional_buffer c = None ->
  emits (fun rq => req_in_len rq = length (req_in_vec rq) /\
                   req_out_len rq = length (req_out_vec rq))
        (invoke env svc c).
Proof.
  intros Hopt. destruct c; cbn [optional_buffer] in Hopt; try discriminate;
    unfold_call; cbv zeta; emits_walk ltac:(cbn; split; reflexivity).
Qed.

(** Every request carries the envelope as its first input descriptor, and
    the envelope names the function asked for. *)
Lemma envelope_first (env : tfm_build) (svc : service) (c : api_call) :
  emits (fun rq => is_Some (envelope rq)) (invoke env svc c).
Proof.
  destruct c; unfold_call; cbv zeta;
    emits_walk ltac:(cbn; repeat match goal with
                                 | |- context [if ?b then _ else _] => destruct b
                                 end; cbn; eexists; reflexivity).
Qed.

(** The bound of C4 holds along any sequence of calls. *)
Lemma run_descriptor_count_bounded (env : tfm_build) (svc : service) (cs : list api_call) :
  emits within_iovec_limit (run env svc cs).
Proof.
  induction cs as [|c cs IH]; cbn [run].
  - apply emits_ret.
  - apply emits_bind; [|intros _; exact IH].
    destruct c; unfold_call; cbv zeta; emits_walk count_descriptors.
Qed.

(** The bound is reached: [psa_aead_encrypt] with additional data hands over
    three inputs and one output. *)
Example aead_encrypt_four_descriptors :
  let r := psa_aead_encrypt ipc_build counting_service 1 2 (Ptr 500) 12
             (Ptr 600) 4 (Ptr 200) 16 (Ptr 300) 32 (Ptr 400) fresh_client in
  map (fun x => (req_in_len x.1, req_out_len x.1)) (calls r.2) = [(3%nat, 1%nat)].
Proof. vm_compute. reflexivity. Qed.

(** X16.  The envelope of a streaming call carries the handle found in the
    operation object, whatever the other pointers are. *)
Lemma envelope_carries_object_handle (env : tfm_build) (svc : service) (c : api_call)
    (st : client) (a : Z) (rq : psa_request) (rp : psa_reply) :
  operation_of c = Some (Ptr a) ->
  calls (invoke env svc c st).2 = calls st ++ [(rq, rp)] ->
  op_handle <$> envelope rq = Some (mem st a).
Proof.
  intros Hop Hsent.
  destruct c; cbn [operation_of] in Hop; try discriminate; injection Hop as ->.
  all: unfold invoke in Hsent; autounfold with entry_points in Hsent;
    unfold API_DISPATCH, API_DISPATCH_NO_OUTVEC, psa_call, handle_of in Hsent;
    cbv zeta in Hsent.
  all: explore; cbn [snd calls] in *; try nothing_sent;
    apply app_inv_head in Hsent; injection Hsent as <- <-; reflexivity.
Qed.

(** ** The inline nonce *)

Lemma copied_nonce_lookup (m : memory) (a : Z) (todo : nat) :
  forall (idx : Z) (iov : tfm_crypto_pack_iovec) (j : nat),
    0 <= idx ->
    nonce (aead_in (copied_nonce m todo idx a iov)) !! j =
      if decide ((Z.to_nat idx <= j < Z.to_nat idx + todo)%nat /\
                 (j < length (nonce (aead_in iov)))%nat)
      then Some (m (a + Z.of_nat j))
      else nonce (aead_in iov) !! j.
Proof.
  induction todo as [|todo IH]; intros idx iov j Hidx; cbn [copied_nonce].
  - case_decide; [lia | reflexivity].
  - rewrite IH by lia. cbn [set_nonce_at set_aead_in aead_in nonce].
    rewrite length_insert.
    replace (Z.to_nat (idx + 1)) with (S (Z.to_nat idx)) by lia.
    destruct (decide (j = Z.to_nat idx)) as [->|Hne].
    + rewrite Z2Nat.id by lia.
      repeat case_decide; try lia; try reflexivity.
      * apply list_lookup_insert_eq. tauto.
      * rewrite list_insert_ge; [reflexivity|].
        apply Nat.nlt_ge. intros Hlt. apply H0. split; [lia | exact Hlt].
    + rewrite list_lookup_insert_ne by lia.
      repeat case_decide; try lia; reflexivity.
Qed.

(** A nonce of [n] bytes that fits goes into the envelope whole: the inline
    length is [n] and the first [n] inline bytes are the bytes of the
    caller's nonce. *)
Lemma nonce_sent_whole (env : tfm_build) (svc : service) (st : client)
    (key_id : psa_key_id_t) (alg : psa_algorithm_t)
    (nonce_at : Z) (n : size_t)
    (additional_data : pointer) (additional_data_length : size_t)
    (input : pointer) (input_length : size_t)
    (output : pointer) (output_size : size_t) (output_length : pointer)
    (rq : psa_request) (rp : psa_reply) (iov : tfm_crypto_pack_iovec) :
  calls (psa_aead_encrypt env svc key_id alg (Ptr nonce_at) n
           additional_data additional_data_length input input_length
           output output_size output_length st).2 = calls st ++ [(rq, rp)] ->
  envelope rq = Some iov ->
  nonce_length (aead_in iov) = n /\
  forall j, 0 <= j < n ->
    nonce (aead_in iov) !! Z.to_nat j = Some (mem st (nonce_at + j)).
Proof.
  intros Hsent Henv.
  unfold psa_aead_encrypt, API_DISPATCH, psa_call in Hsent. cbv zeta in Hsent.
  explore; cbn [snd calls] in *; try nothing_sent;
    apply app_inv_head in Hsent; injection Hsent as <- <-;
    cbn in Henv; injection Henv as <-;
    (split; [reflexivity|]); intros j Hj;
    cbn [set_nonce_length set_aead_in aead_in nonce];
    rewrite copied_nonce_lookup by lia;
    match goal with H : (_ <? _) = false |- _ => apply Z.ltb_ge in H end;
    cbn [iov_init set_alg set_key_id aead_in nonce]; rewrite length_replicate;
    (case_decide; [rewrite Z2Nat.id by lia; reflexivity | lia]).
Qed.

(** The same for [psa_aead_decrypt]. *)
Lemma nonce_sent_whole_decrypt (env : tfm_build) (svc : service) (st : client)
    (key_id : psa_key_id_t) (alg : psa_algorithm_t)
    (nonce_at : Z) (n : size_t)
    (additional_data : pointer) (additional_data_length : size_t)
    (input : pointer) (input_length : size_t)
    (output : pointer) (output_size : size_t) (output_length : pointer)
    (rq : psa_request) (rp : psa_reply) (iov : tfm_crypto_pack_iovec) :
  calls (psa_aead_decrypt env svc key_id alg (Ptr nonce_at) n
           additional_data additional_data_length input input_length
           output output_size output_length st).2 = calls st ++ [(rq, rp)] ->
  envelope rq = Some iov ->
  nonce_length (aead_in iov) = n /\
  forall j, 0 <= j < n ->
    nonce (aead_in iov) !! Z.to_nat j = Some (mem st (nonce_at + j)).
Proof.
  intros Hsent Henv.
  unfold psa_aead_decrypt, API_DISPATCH, psa_call in Hsent. cbv zeta in Hsent.
  explore; cbn [snd calls] in *; try nothing_sent;
    apply app_inv_head in Hsent; injection Hsent as <- <-;
    cbn in Henv; injection Henv as <-;
    (split; [reflexivity|]); intros j Hj;
    cbn [set_nonce_length set_aead_in aead_in nonce];
    rewrite copied_nonce_lookup by lia;
    match goal with H : (_ <? _) = false |- _ => apply Z.ltb_ge in H end;
    cbn [iov_init set_alg set_key_id aead_in nonce]; rewrite length_replicate;
    (case_decide; [rewrite Z2Nat.id by lia; reflexivity | lia]).
Qed.

(** * Further properties of the entry points *)

(** ** The shape of a call *)

(** A call either leaves the state as it found it, or sends exactly one
    request, answered by the service from the state the call started in;
    then the layer itself stores only through the length out-parameters,
    and the status it returns, if it returns, is the status of the reply. *)
Lemma invoke_cases (env : tfm_build) (svc : service) (c : api_call) (st : client) :
  (invoke env svc c st).2 = st
  \/
  exists rq,
    calls (invoke env svc c st).2 = calls st ++ [(rq, svc st rq)] /\
    (forall q, Ptr q ∉ (length_reports c).*1 ->
       mem (invoke env svc c st).2 q
       = (write_back (svc st rq) 0 (dispatched_out rq) (mem st)).2 q) /\
    (forall s, (invoke env svc c st).1 = Some s ->
       s = match c with
           | call_reset_key_attributes _ => None
           | _ => Some (reply_status (svc st rq))
           end).
Proof.
  destruct c; unfold_call; cbv zeta; explore.
  all: first
    [ left; reflexivity
    | right; eexists; (split; [reflexivity|]); split;
      [ intros q Hq; cbn [length_reports] in Hq; cbn [mem snd];
        repeat (rewrite mem_write_ne;
                [|intros ->; apply Hq; cbn; solve [repeat constructor]]);
        reflexivity
      | intros s Hs; cbn [fst] in Hs; first [discriminate Hs | injection Hs as <-];
        reflexivity ] ].
Qed.

(** X1.  A call sends at most one request: nothing is retried. *)
Theorem at_most_one_request (env : tfm_build) (svc : service) (c : api_call) (st : client) :
  exists xs,
    calls (invoke env svc c st).2 = calls st ++ xs /\ (length xs <= 1)%nat.
Proof.
  destruct (invoke_cases env svc c st) as [Hsame | (rq & Hsent & _)].
  - exists []. rewrite Hsame, app_nil_r. split; [reflexivity | cbn; lia].
  - eexists [_]. split; [exact Hsent | cbn; lia].
Qed.

(** X2.  A call that sent nothing changed nothing: the answers given locally
    ([PSA_ERROR_NOT_SUPPORTED], [PSA_ERROR_INVALID_ARGUMENT],
    [PSA_ERROR_BAD_STATE], the [PSA_SUCCESS] of [psa_crypto_init] and of an
    empty [psa_generate_random]) leave caller memory as it was. *)
Theorem nothing_sent_nothing_changed
    (env : tfm_build) (svc : service) (c : api_call) (st : client) :
  calls (invoke env svc c st).2 = calls st ->
  (invoke env svc c st).2 = st.
Proof.
  intros Hquiet. destruct (invoke_cases env svc c st) as [Hsame | (rq & Hsent & _)].
  - exact Hsame.
  - rewrite Hsent in Hquiet. symmetry in Hquiet.
    exfalso. exact (list_neq_snoc _ _ Hquiet).
Qed.

Lemma nothing_sent_nothing_changed_witness :
  let c := call_hash_clone (Ptr 100) (Ptr 104) in
  let st := {| mem := fun a => if a =? 104 then 7 else 0; calls := [] |} in
  calls (invoke ipc_build counting_service c st).2 = calls st /\
  (invoke ipc_build counting_service c st).2 = st.
Proof.
  cbv zeta. split; [reflexivity|].
  apply (nothing_sent_nothing_changed ipc_build counting_service). reflexivity.
Defined.

(** X3.  The status a call returns after sending a request is the status of the
    reply, whatever it is: nothing is mapped, retried or turned into a
    success. *)
Theorem status_passed_through
    (env : tfm_build) (svc : service) (c : api_call) (st st' : client)
    (s : psa_status_t) :
  invoke env svc c st = (Some (Some s), st') ->
  calls st' <> calls st ->
  exists rq,
    calls st' = calls st ++ [(rq, svc st rq)] /\ s = reply_status (svc st rq).
Proof.
  intros Hrun Hsent.
  destruct (invoke_cases env svc c st) as [Hsame | (rq & Hcalls & _ & Hstatus)];
    rewrite Hrun in *; cbn [fst snd] in *.
  - subst st'. contradiction.
  - exists rq. split; [exact Hcalls|].
    specialize (Hstatus _ eq_refl). destruct c; congruence.
Qed.

Lemma status_passed_through_witness :
  let svc := failing_service (-133) 5 in
  let c := call_sign_hash 7 9 (Ptr 200) 32 (Ptr 300) 64 (Ptr 400) in
  let r := invoke ipc_build svc c fresh_client in
  calls r.2 <> calls fresh_client /\
  exists rq,
    calls r.2 = calls fresh_client ++ [(rq, svc fresh_client rq)] /\
    -133 = reply_status (svc fresh_client rq).
Proof.
  cbv zeta. split; [discriminate|].
  eapply (status_passed_through ipc_build (failing_service (-133) 5)
            (call_sign_hash 7 9 (Ptr 200) 32 (Ptr 300) 64 (Ptr 400)) fresh_client);
    [reflexivity | discriminate].
Defined.

(** ** Caller memory *)



(** X5.  No entry point checks a length out-parameter before the dispatch: when a
    request has been sent and one of the [*_length] pointers is null, the
    call ends in the store through the null pointer.  (The null check of
    [psa_aead_finish] and [psa_aead_verify] sits before the dispatch and
    covers the optional output only when its descriptor is handed over.) *)
Theorem null_length_faults_after_dispatch
    (env : tfm_build) (svc : service) (c : api_call) (st : client)
    (rq : psa_request) (rp : psa_reply) :
  NULL ∈ (length_reports c).*1 ->
  calls (invoke env svc c st).2 = calls st ++ [(rq, rp)] ->
  (invoke env svc c st).1 = None.
Proof.
  intros Hnull Hsent.
  destruct c; cbn [length_reports] in Hnull;
    try (apply elem_of_nil in Hnull; contradiction).
  all: cbn in Hnull;
    repeat (apply elem_of_cons in Hnull as [Hnull|Hnull]);
    try (apply elem_of_nil in Hnull; contradiction); subst.
  all: revert Hsent; unfold_call; cbv zeta; intros Hsent.
  all: explore; cbn [fst snd calls] in *; try nothing_sent; reflexivity.
Qed.

Lemma null_length_faults_after_dispatch_witness :
  let c := call_aead_finish (Ptr 100) NULL 0 NULL (Ptr 500) 16 (Ptr 600) in
  let r := invoke ipc_build counting_service c fresh_client in
  (NULL ∈ (length_reports c).*1) /\
  (exists rq rp, calls r.2 = calls fresh_client ++ [(rq, rp)]) /\
  r.1 = None.
Proof.
  cbv zeta. split; [cbn; left|]. split; [eexists _, _; reflexivity|].
  eapply (null_length_faults_after_dispatch ipc_build counting_service
            (call_aead_finish (Ptr 100) NULL 0 NULL (Ptr 500) 16 (Ptr 600)) fresh_client).
  - cbn. left.
  - reflexivity.
Defined.

(** X6.  With a service that never reports more than the capacity of a
    descriptor, the length an entry point stores in a [*_length]
    out-parameter is at most the capacity of the descriptor it reports on,
    which is the size the caller passed for that buffer. *)
Theorem reported_length_within_capacity
    (env : tfm_build) (svc : service) (c : api_call) (st st' : client)
    (s : option psa_status_t) (rq : psa_request) (rp : psa_reply)
    (cell : Z) (i : nat) :
  invoke env svc c st = (Some s, st') ->
  calls st' = calls st ++ [(rq, rp)] ->
  respects_capacity rq rp ->
  (Ptr cell, i) ∈ length_reports c ->
  NoDup (length_reports c).*1 ->
  mem st' cell <= len (req_out_vec rq !!! i).
Proof.
  intros Hrun Hsent Hresp Hcell Hdistinct.
  destruct c; cbn [length_reports] in Hcell, Hdistinct;
    try (apply elem_of_nil in Hcell; contradiction).
  all: repeat (apply elem_of_cons in Hcell as [Hcell|Hcell]);
    try (apply elem_of_nil in Hcell; contradiction);
    injection Hcell as <- ->.
  all: unfold invoke in Hrun; autounfold with entry_points in Hrun;
    unfold API_DISPATCH, API_DISPATCH_NO_OUTVEC, psa_call, handle_of in Hrun;
    cbv zeta in Hrun.
  all: explore; unfold ret, fault in Hrun; try discriminate Hrun;
    injection Hrun as <- <-; cbn [calls mem] in *; try nothing_sent;
    apply app_inv_head in Hsent; injection Hsent as <- <-.
  all: first
    [ rewrite mem_write_eq
    | rewrite mem_write_ne;
      [ rewrite mem_write_eq
      | cbn in Hdistinct; apply NoDup_cons in Hdistinct as [Hfresh _];
        intros ->; apply Hfresh; left ] ].
  all: first
    [ match goal with
      | |- reply_len _ ?i ?v <= _ => exact (Hresp i v eq_refl)
      end
    | cbn;
      repeat match goal with
             | H : negb _ = false |- _ => apply negb_false_iff in H
             | H : (_ =? 0) = true |- _ => apply Z.eqb_eq in H
             end;
      lia ].
Qed.

Lemma reported_length_within_capacity_witness :
  let c := call_hash_finish (Ptr 100) (Ptr 300) 32 (Ptr 400) in
  let r := invoke ipc_build counting_service c fresh_client in
  exists rq rp,
    calls r.2 = calls fresh_client ++ [(rq, rp)] /\
    respects_capacity rq rp /\
    mem r.2 400 <= len (req_out_vec rq !!! 1%nat).
Proof.
  cbv zeta. eexists _, _. split; [reflexivity|].
  match goal with
  | |- respects_capacity ?rq ?rp /\ _ => assert (Hresp : respects_capacity rq rp)
  end.
  { intros [|[|i]] v Hv; cbn in Hv; try discriminate Hv;
      injection Hv as <-; cbn; lia. }
  split; [exact Hresp|].
  eapply (reported_length_within_capacity ipc_build counting_service
            (call_hash_finish (Ptr 100) (Ptr 300) 32 (Ptr 400)) fresh_client);
    [reflexivity | reflexivity | exact Hresp | cbn; left
    | cbn; repeat constructor; intros H; apply elem_of_nil in H; exact H].
Defined.

(** ** Selectors *)

Lemma copied_nonce_srv_id (m : memory) (todo : nat) (a : Z) :
  forall idx iov, srv_id (copied_nonce m todo idx a iov) = srv_id iov.
Proof.
  induction todo as [|todo IH]; intros idx iov; cbn [copied_nonce];
    [reflexivity | now rewrite IH].
Qed.

(** What every request starts with, and where it goes. *)
Lemma sent_envelope (env : tfm_build) (svc : service) (c : api_call) (st : client)
    (rq : psa_request) (rp : psa_reply) :
  calls (invoke env svc c st).2 = calls st ++ [(rq, rp)] ->
  exists iov,
    dispatched_in rq !! 0%nat = Some (vec (at_iov iov) (sizeof_tfm_crypto_pack_iovec env)) /\
    sid_of c = Some (srv_id iov) /\
    req_entry rq = if ifdef (TFM_PSA_API env) then via_psa_call
                   else via_veneer (veneer_of_sid (srv_id iov)).
Proof.
  intros Hsent. destruct c.
  all: revert Hsent; unfold_call; cbv zeta; intros Hsent.
  all: explore; cbn [snd calls] in *; try nothing_sent;
    apply app_inv_head in Hsent; injection Hsent as <- <-;
    eexists; (split; [reflexivity|]); cbn;
    rewrite ?copied_nonce_srv_id; split; reflexivity.
Qed.

Lemma sid_names_entry_point (c c' : api_call) (sid : tfm_crypto_sid) :
  sid_of c = Some sid -> sid_of c' = Some sid -> entry_name c = entry_name c'.
Proof.
  destruct c; cbn [sid_of]; intros [= <-]; destruct c'; cbn [sid_of]; intros Hsid;
    first [discriminate Hsid | reflexivity].
Qed.

(** X7.  Every request starts with the envelope: its first input descriptor
    refers to the envelope, with the size of the envelope as length, and the
    envelope carries the function identifier of the entry point called. *)
Theorem envelope_leads_request
    (env : tfm_build) (svc : service) (c : api_call) (st : client)
    (rq : psa_request) (rp : psa_reply) :
  calls (invoke env svc c st).2 = calls st ++ [(rq, rp)] ->
  exists iov,
    envelope rq = Some iov /\
    dispatched_in rq !! 0%nat = Some (vec (at_iov iov) (sizeof_tfm_crypto_pack_iovec env)) /\
    sid_of c = Some (srv_id iov).
Proof.
  intros Hsent.
  destruct (sent_envelope env svc c st rq rp Hsent) as (iov & Hfirst & Hsid & _).
  exists iov. split; [|split; assumption].
  unfold envelope. destruct (dispatched_in rq) as [|v vs]; [discriminate Hfirst|].
  injection Hfirst as ->. reflexivity.
Qed.

Lemma envelope_leads_request_witness :
  let c := call_mac_compute 7 9 (Ptr 200) 16 (Ptr 300) 32 (Ptr 400) in
  let r := invoke ipc_build counting_service c fresh_client in
  exists rq rp iov,
    calls r.2 = calls fresh_client ++ [(rq, rp)] /\
    envelope rq = Some iov /\
    dispatched_in rq !! 0%nat = Some (vec (at_iov iov) 56) /\
    sid_of c = Some (srv_id iov).
Proof.
  cbv zeta. eexists _, _.
  edestruct (envelope_leads_request ipc_build counting_service
               (call_mac_compute 7 9 (Ptr 200) 16 (Ptr 300) 32 (Ptr 400)) fresh_client)
    as (iov & Henv & Hfirst & Hsid); [reflexivity|].
  exists iov. split; [reflexivity|]. split; [exact Henv|]. split; [exact Hfirst | exact Hsid].
Defined.

(** X8.  In a build without [TFM_PSA_API] the veneer an entry point calls is the
    one named after the function identifier it put in the envelope: the two
    ways the source names the function agree. *)
Theorem veneer_matches_selector
    (env : tfm_build) (svc : service) (c : api_call) (st : client)
    (rq : psa_request) (rp : psa_reply) :
  ifdef (TFM_PSA_API env) = false ->
  calls (invoke env svc c st).2 = calls st ++ [(rq, rp)] ->
  exists iov,
    envelope rq = Some iov /\
    req_entry rq = via_veneer (veneer_of_sid (srv_id iov)).
Proof.
  intros Hlib Hsent.
  destruct (sent_envelope env svc c st rq rp Hsent) as (iov & Hfirst & _ & Hentry).
  rewrite Hlib in Hentry. exists iov. split; [|exact Hentry].
  unfold envelope. destruct (dispatched_in rq) as [|v vs]; [discriminate Hfirst|].
  injection Hfirst as ->. reflexivity.
Qed.

Lemma veneer_matches_selector_witness :
  let c := call_export_public_key 7 (Ptr 300) 64 (Ptr 400) in
  let r := invoke library_build counting_service c fresh_client in
  ifdef (TFM_PSA_API library_build) = false /\
  exists rq rp iov,
    calls r.2 = calls fresh_client ++ [(rq, rp)] /\
    envelope rq = Some iov /\
    req_entry rq = via_veneer (veneer_of_sid (srv_id iov)).
Proof.
  cbv zeta. split; [reflexivity|]. eexists _, _.
  edestruct (veneer_matches_selector library_build counting_service
               (call_export_public_key 7 (Ptr 300) 64 (Ptr 400)) fresh_client)
    as (iov & Henv & Hentry); [reflexivity | reflexivity |].
  exists iov. split; [reflexivity|]. split; [exact Henv | exact Hentry].
Defined.

(** X9.  The function identifier tells the entry points apart: two calls, in any
    builds and states, whose requests carry the same [srv_id] are calls of
    the same entry point. *)
Theorem selector_identifies_entry_point
    (env env' : tfm_build) (svc svc' : service) (c c' : api_call) (st st' : client)
    (rq rq' : psa_request) (rp rp' : psa_reply) :
  calls (invoke env svc c st).2 = calls st ++ [(rq, rp)] ->
  calls (invoke env' svc' c' st').2 = calls st' ++ [(rq', rp')] ->
  srv_id <$> envelope rq = srv_id <$> envelope rq' ->
  entry_name c = entry_name c'.
Proof.
  intros Hsent Hsent' Hsame.
  destruct (sent_envelope env svc c st rq rp Hsent) as (iov & Hfirst & Hsid & _).
  destruct (sent_envelope env' svc' c' st' rq' rp' Hsent') as (iov' & Hfirst' & Hsid' & _).
  unfold envelope in Hsame.
  destruct (dispatched_in rq) as [|v vs]; [discriminate Hfirst|].
  destruct (dispatched_in rq') as [|v' vs']; [discriminate Hfirst'|].
  injection Hfirst as ->. injection Hfirst' as ->. cbn in Hsame.
  injection Hsame as Hsame. rewrite <- Hsame in Hsid'.
  exact (sid_names_entry_point c c' _ Hsid Hsid').
Qed.

Lemma selector_identifies_entry_point_witness :
  let c := call_hash_update (Ptr 100) (Ptr 200) 16 in
  let c' := call_hash_update (Ptr 104) (Ptr 208) 3 in
  let r := invoke ipc_build counting_service c fresh_client in
  let r' := invoke library_build (failing_service (-133) 0) c' fresh_client in
  exists rq rp rq' rp',
    calls r.2 = calls fresh_client ++ [(rq, rp)] /\
    calls r'.2 = calls fresh_client ++ [(rq', rp')] /\
    srv_id <$> envelope rq = srv_id <$> envelope rq' /\
    entry_name c = entry_name c'.
Proof.
  cbv zeta. eexists _, _, _, _.
  split; [reflexivity|]. split; [reflexivity|]. split; [reflexivity|].
  eapply (selector_identifies_entry_point ipc_build library_build
            counting_service (failing_service (-133) 0)
            (call_hash_update (Ptr 100) (Ptr 200) 16)
            (call_hash_update (Ptr 104) (Ptr 208) 3) fresh_client fresh_client);
    reflexivity.
Defined.

(** ** The two bindings *)

(** X10.  For the entry points without an optional buffer the binding changes the
    callee and nothing else: built with or without [TFM_PSA_API], and
    whatever the services answer, a call from the same state sends the same
    descriptor arrays with the same counts. *)
Theorem bindings_send_same_descriptors
    (env : tfm_build) (svc svc' : service) (c : api_call) (st : client) (v : Z) :
  optional_buffer c = None ->
  map (fun x => request_shape x.1)
      (calls (invoke (set_TFM_PSA_API (Some v) env) svc c st).2)
  = map (fun x => request_shape x.1)
      (calls (invoke (set_TFM_PSA_API None env) svc' c st).2).
Proof.
  intros Hopt. destruct c; cbn [optional_buffer] in Hopt; try discriminate.
  all: unfold_call; cbv zeta;
    cbn [set_TFM_PSA_API ifdef if_nonzero TFM_PSA_API
         TFM_CRYPTO_KEY_MODULE_DISABLED TFM_CRYPTO_CIPHER_MODULE_DISABLED
         TFM_CRYPTO_HASH_MODULE_DISABLED TFM_CRYPTO_MAC_MODULE_DISABLED
         TFM_CRYPTO_AEAD_MODULE_DISABLED TFM_CRYPTO_ASYM_SIGN_MODULE_DISABLED
         TFM_CRYPTO_ASYM_ENCRYPT_MODULE_DISABLED
         TFM_CRYPTO_KEY_DERIVATION_MODULE_DISABLED TFM_CRYPTO_RNG_MODULE_DISABLED
         PSA_SUCCESS PSA_ERROR_NOT_SUPPORTED PSA_ERROR_INVALID_ARGUMENT
         PSA_ERROR_BAD_STATE TFM_CRYPTO_MAX_NONCE_LENGTH
         sizeof_tfm_crypto_pack_iovec sizeof_psa_key_attributes_t
         sizeof_psa_key_id_t sizeof_psa_hash_operation_t sizeof_size_t].
  all: explore; cbn [snd calls]; rewrite ?map_app; reflexivity.
Qed.

Lemma bindings_send_same_descriptors_witness :
  let c := call_cipher_finish (Ptr 100) (Ptr 300) 16 (Ptr 400) in
  optional_buffer c = None /\
  map (fun x => request_shape x.1)
      (calls (invoke (set_TFM_PSA_API (Some 1) library_build) counting_service
                c fresh_client).2)
  = map (fun x => request_shape x.1)
      (calls (invoke (set_TFM_PSA_API None library_build) (failing_service (-133) 0)
                c fresh_client).2).
Proof.
  cbv zeta. split; [reflexivity|].
  apply (bindings_send_same_descriptors library_build counting_service
           (failing_service (-133) 0)). reflexivity.
Defined.

(** ** Operation objects *)

(** Settles that a cell lies outside the output descriptors handed over,
    listed in the goal, by [side]. *)
Ltac outside_descriptors side :=
  apply write_back_outside;
  let v := fresh "v" in
  let Hv := fresh "Hv" in
  let Hin := fresh "Hin" in
  intros v Hv Hin; cbn in Hv;
  repeat (apply elem_of_cons in Hv as [->|Hv]; [cbn in Hin; side Hin|]);
  now apply elem_of_nil in Hv.

(** X11.  [psa_hash_clone] never writes to its source: the only output descriptor
    it hands over is the target object, so the source object is as it was
    whatever the service does, as long as the two are different objects. *)
Theorem hash_clone_keeps_source
    (env : tfm_build) (svc : service) (st : client)
    (source : Z) (target_operation : pointer) :
  target_operation <> Ptr source ->
  mem (psa_hash_clone env svc (Ptr source) target_operation st).2 source
  = mem st source.
Proof.
  intros Hdiff. unfold psa_hash_clone, API_DISPATCH, psa_call, handle_of. cbv zeta.
  explore; cbn [snd mem]; try reflexivity.
  all: outside_descriptors ltac:(fun H => first [contradiction | congruence]).
Qed.

Lemma hash_clone_keeps_source_witness :
  let st := {| mem := fun a => if a =? 100 then 5 else 0; calls := [] |} in
  Ptr 104 <> Ptr 100 /\
  mem (psa_hash_clone ipc_build counting_service (Ptr 100) (Ptr 104) st).2 100 = mem st 100.
Proof.
  cbv zeta. split; [discriminate|].
  apply (hash_clone_keeps_source ipc_build counting_service). discriminate.
Defined.



(** ** The inline nonce of the one-shot AEAD calls *)

Lemma copied_nonce_length (m : memory) (todo : nat) (a : Z) :
  forall idx iov,
    length (nonce (aead_in (copied_nonce m todo idx a iov)))
    = length (nonce (aead_in iov)).
Proof.
  induction todo as [|todo IH]; intros idx iov; cbn [copied_nonce]; [reflexivity|].
  rewrite IH. cbn [set_nonce_at set_aead_in aead_in nonce]. apply length_insert.
Qed.

(** X13.  The envelope of [psa_aead_encrypt] and [psa_aead_decrypt] carries the
    caller's nonce exactly: the inline length is the length passed, the
    inline array has [TFM_CRYPTO_MAX_NONCE_LENGTH] bytes, the first of them
    are the bytes of the nonce in caller memory, in order, and the rest are
    zero. *)
Theorem inline_nonce_faithful
    (env : tfm_build) (svc : service) (c : api_call) (st : client)
    (a : Z) (n : size_t) (rq : psa_request) (rp : psa_reply)
    (iov : tfm_crypto_pack_iovec) :
  oneshot_nonce c = Some (Ptr a, n) ->
  calls (invoke env svc c st).2 = calls st ++ [(rq, rp)] ->
  envelope rq = Some iov ->
  nonce_length (aead_in iov) = n /\
  length (nonce (aead_in iov)) = Z.to_nat (TFM_CRYPTO_MAX_NONCE_LENGTH env) /\
  forall j, 0 <= j < TFM_CRYPTO_MAX_NONCE_LENGTH env ->
    nonce (aead_in iov) !! Z.to_nat j
    = Some (if j <? n then mem st (a + j) else 0).
Proof.
  intros Hnonce Hsent Henv.
  destruct c; cbn [oneshot_nonce] in Hnonce; try discriminate;
    injection Hnonce as -> ->.
  all: revert Hsent; unfold_call; cbv zeta; intros Hsent.
  all: explore; cbn [snd calls] in *; try nothing_sent;
    apply app_inv_head in Hsent; injection Hsent as <- <-;
    cbn in Henv; injection Henv as <-;
    match goal with H : (_ <? _) = false |- _ => apply Z.ltb_ge in H end;
    cbn [set_nonce_length set_aead_in aead_in nonce nonce_length];
    (split; [reflexivity|]);
    (split;
     [ rewrite copied_nonce_length; cbn [iov_init set_alg set_key_id aead_in nonce];
       apply length_replicate
     | intros j Hj; rewrite copied_nonce_lookup by lia;
       cbn [iov_init set_alg set_key_id aead_in nonce]; rewrite length_replicate;
       case_decide;
       [ rewrite Z2Nat.id by lia;
         destruct (Z.ltb_spec j n); [reflexivity | lia]
       | destruct (Z.ltb_spec j n); [lia|];
         apply lookup_replicate_2; lia ] ]).
Qed.

Lemma inline_nonce_faithful_witness :
  let c := call_aead_decrypt 1 2 (Ptr 500) 3 NULL 0 (Ptr 200) 16 (Ptr 300) 32 (Ptr 400) in
  let st := {| mem := fun a => if 500 <=? a then a - 499 else 0; calls := [] |} in
  let r := invoke ipc_build counting_service c st in
  exists rq rp iov,
    calls r.2 = calls st ++ [(rq, rp)] /\
    envelope rq = Some iov /\
    nonce_length (aead_in iov) = 3 /\
    length (nonce (aead_in iov)) = Z.to_nat (TFM_CRYPTO_MAX_NONCE_LENGTH ipc_build) /\
    forall j, 0 <= j < TFM_CRYPTO_MAX_NONCE_LENGTH ipc_build ->
      nonce (aead_in iov) !! Z.to_nat j
      = Some (if j <? 3 then mem st (500 + j) else 0).
Proof.
  cbv zeta. eexists _, _, _.
  split; [reflexivity|]. split; [reflexivity|].
  eapply (inline_nonce_faithful ipc_build counting_service
            (call_aead_decrypt 1 2 (Ptr 500) 3 NULL 0 (Ptr 200) 16 (Ptr 300) 32 (Ptr 400)));
    reflexivity.
Defined.

(** ** Entry points compiled out, and the tables *)

Ltac not_listed H :=
  repeat (apply elem_of_cons in H as [H|H]; [discriminate H|]);
  now apply elem_of_nil in H.

Lemma disabled_not_supported_witness :
  let c := call_hash_update (Ptr 100) (Ptr 200) 16 in
  module_disabled (hash_module_build 1) c = true /\
  invoke (hash_module_build 1) counting_service c fresh_client
  = (Some (Some (-134)), fresh_client).
Proof.
  cbv zeta. split; [reflexivity|].
  apply (disabled_not_supported (hash_module_build 1) counting_service
           (call_hash_update (Ptr 100) (Ptr 200) 16) fresh_client).
  reflexivity.
Defined.

(** X15.  The guards of the hash module disagree on a macro defined as 0.  The
    streaming entry points test [#ifdef TFM_CRYPTO_HASH_MODULE_DISABLED] and
    answer [PSA_ERROR_NOT_SUPPORTED] without touching anything;
    [psa_hash_compute] and [psa_hash_compare] test
    [#if (TFM_CRYPTO_HASH_MODULE_DISABLED != 0)] and send their request. *)
Theorem hash_guards_disagree
    (env : tfm_build) (svc : service) (c c' : api_call) (st : client) :
  TFM_CRYPTO_HASH_MODULE_DISABLED env = Some 0 ->
  entry_name c ∈ hash_ifdef_guarded ->
  entry_name c' ∈ hash_if_guarded ->
  invoke env svc c st = (Some (Some (PSA_ERROR_NOT_SUPPORTED env)), st) /\
  exists rq, calls (invoke env svc c' st).2 = calls st ++ [(rq, svc st rq)].
Proof.
  intros Hzero Hc Hc'. unfold hash_ifdef_guarded in Hc. unfold hash_if_guarded in Hc'.
  split.
  - clear Hc'. destruct c; cbn [entry_name] in Hc;
      try solve [exfalso; not_listed Hc];
      unfold_call; rewrite Hzero; reflexivity.
  - clear Hc. destruct c'; cbn [entry_name] in Hc';
      try solve [exfalso; not_listed Hc'];
      unfold_call; rewrite Hzero; cbn [if_nonzero Z.eqb negb]; cbv zeta;
      explore; eexists; reflexivity.
Qed.

Lemma hash_guards_disagree_witness :
  let c := call_hash_update (Ptr 100) (Ptr 200) 16 in
  let c' := call_hash_compute 9 (Ptr 200) 16 (Ptr 300) 32 (Ptr 400) in
  invoke (hash_module_build 0) counting_service c fresh_client
  = (Some (Some (-134)), fresh_client) /\
  exists rq,
    calls (invoke (hash_module_build 0) counting_service c' fresh_client).2
    = calls fresh_client ++ [(rq, counting_service fresh_client rq)].
Proof.
  cbv zeta.
  apply (hash_guards_disagree (hash_module_build 0) counting_service
           (call_hash_update (Ptr 100) (Ptr 200) 16)
           (call_hash_compute 9 (Ptr 200) 16 (Ptr 300) 32 (Ptr 400)) fresh_client).
  - reflexivity.
  - cbn. right; left.
  - cbn. left.
Defined.

Lemma no_operation_zero_handle_witness :
  let c := call_destroy_key 7 in
  let r := invoke ipc_build counting_service c fresh_client in
  operation_of c = None /\
  exists rq rp,
    calls r.2 = calls fresh_client ++ [(rq, rp)] /\
    op_handle <$> envelope rq = Some 0.
Proof.
  cbv zeta. split; [reflexivity|]. eexists _, _. split; [reflexivity|].
  eapply (no_operation_zero_handle ipc_build counting_service
            (call_destroy_key 7) fresh_client); reflexivity.
Defined.

Lemma envelope_carries_object_handle_witness :
  let c := call_hash_update (Ptr 100) (Ptr 200) 16 in
  let st := {| mem := fun a => if a =? 100 then 5 else 0; calls := [] |} in
  let r := invoke ipc_build counting_service c st in
  operation_of c = Some (Ptr 100) /\
  exists rq rp,
    calls r.2 = calls st ++ [(rq, rp)] /\
    op_handle <$> envelope rq = Some (mem st 100).
Proof.
  cbv zeta. split; [reflexivity|]. eexists _, _. split; [reflexivity|].
  eapply (envelope_carries_object_handle ipc_build counting_service
            (call_hash_update (Ptr 100) (Ptr 200) 16)); reflexivity.
Defined.

Lemma no_optional_whole_arrays_witness :
  let c := call_hash_update (Ptr 100) (Ptr 200) 16 in
  optional_buffer c = None /\
  emits (fun rq => req_in_len rq = length (req_in_vec rq) /\
                   req_out_len rq = length (req_out_vec rq))
        (invoke ipc_build counting_service c).
Proof.
  cbv zeta. split; [reflexivity|].
  apply (no_optional_whole_arrays ipc_build counting_service
           (call_hash_update (Ptr 100) (Ptr 200) 16)).
  reflexivity.
Defined.

(** * The accelerator configuration header: properties *)

Section AcceleratorConfigProperties.
Local Open Scope string_scope.

Section Grows.
Context (keep S : macro_set).

Lemma grows_define (x : string) : x ∈ S -> grows_within keep S (define x).
Proof. intros Hx D _. unfold define. set_solver. Qed.

Lemma grows_when_defined (x : string) (d : directive) :
  grows_within keep S d -> grows_within keep S (when_defined x d).
Proof.
  intros Hd D HD. unfold when_defined. destruct (defined x D); [now apply Hd | set_solver].
Qed.

Lemma grows_unless_defined (x : string) (d : directive) :
  grows_within keep S d -> grows_within keep S (unless_defined x d).
Proof.
  intros Hd D HD. unfold unless_defined. destruct (defined x D); [set_solver | now apply Hd].
Qed.

Lemma grows_unless_kept (x : string) (d : directive) :
  x ∈ keep -> grows_within keep S (unless_defined x d).
Proof.
  intros Hx D HD. unfold unless_defined, defined.
  rewrite bool_decide_eq_true_2 by set_solver. set_solver.
Qed.

Lemma grows_when_any (xs : list string) (d : directive) :
  grows_within keep S d -> grows_within keep S (when_any_defined xs d).
Proof.
  intros Hd D HD. unfold when_any_defined.
  destruct (existsb _ xs); [now apply Hd | set_solver].
Qed.

Lemma grows_block (ds : list directive) :
  Forall (grows_within keep S) ds -> grows_within keep S (block ds).
Proof.
  unfold block. induction 1 as [|d ds Hd _ IH]; intros D HD; cbn [foldl]; [set_solver|].
  destruct (Hd D HD) as [H1 H2].
  destruct (IH (d D)) as [H3 H4]; [set_solver|]. set_solver.
Qed.

Lemma block_keeps_first (d : directive) (ds : list directive) (D : macro_set) (x : string) :
  Forall (grows_within keep S) ds -> keep ⊆ D -> D ⊆ d D ->
  x ∈ d D -> x ∈ block (d :: ds) D.
Proof.
  intros Hds HD Hd Hx. change (block (d :: ds) D) with (block ds (d D)).
  destruct (grows_block ds Hds (d D)) as [H _]; [set_solver|]. now apply H.
Qed.

End Grows.

Lemma in_list_to_set (x : string) (xs : list string) :
  x ∈ xs -> x ∈ (list_to_set xs : macro_set).
Proof. apply elem_of_list_to_set. Qed.

Lemma not_in_list_to_set (x : string) (xs : list string) :
  forallb (fun y => negb (String.eqb x y)) xs = true ->
  x ∉ (list_to_set xs : macro_set).
Proof.
  intros Hall Hx. apply elem_of_list_to_set in Hx.
  induction xs as [|y ys IH]; [now apply elem_of_nil in Hx|].
  cbn in Hall. apply andb_true_iff in Hall as [Hy Hys].
  apply elem_of_cons in Hx as [->|Hx]; [|now apply IH].
  rewrite String.eqb_refl in Hy. discriminate Hy.
Qed.

Ltac in_names :=
  lazymatch goal with
  | |- _ ∈ _ ∪ _ => apply elem_of_union; first [left; in_names | right; in_names]
  | |- _ ∈ {[ _ ]} => apply elem_of_singleton; reflexivity
  | |- _ ∈ list_to_set _ => apply in_list_to_set; solve [repeat constructor]
  end.

Ltac grows :=
  repeat first
    [ apply grows_block; repeat apply Forall_cons_2; try apply Forall_nil_2
    | apply grows_when_defined
    | apply grows_unless_kept; solve [in_names]
    | apply grows_unless_defined
    | apply grows_when_any
    | apply grows_define; solve [in_names] ].

Lemma legacy_grows :
  grows_within ∅ (list_to_set legacy_alt_macros) legacy_driver_section.
Proof. unfold legacy_driver_section, legacy_alt_macros. grows. Qed.

Lemma legacy_grows_provisioning :
  grows_within {["CRYPTO_HW_ACCELERATOR_OTP_PROVISIONING"]}
    (list_to_set legacy_alt_macros_provisioning) legacy_driver_section.
Proof. unfold legacy_driver_section, legacy_alt_macros_provisioning. grows. Qed.

Lemma rsa_grows (keep : macro_set) :
  grows_within keep (list_to_set rsa_macros) rsa_section.
Proof. unfold rsa_section, rsa_macros. grows. Qed.

Lemma remove_absent (x : string) (D : macro_set) : x ∉ D -> D = D ∖ {[ x ]}.
Proof. intros Hx. apply set_eq. set_solver. Qed.

Lemma defined_true (x : string) (D : macro_set) : x ∈ D -> defined x D = true.
Proof. intros Hx. unfold defined. now apply bool_decide_eq_true_2. Qed.

Lemma defined_false (x : string) (D : macro_set) : x ∉ D -> defined x D = false.
Proof. intros Hx. unfold defined. now apply bool_decide_eq_false_2. Qed.

Lemma config_unfold (D : macro_set) :
  "CRYPTO_ACCELERATOR_CONF_H" ∉ D ->
  crypto_accelerator_config D = rsa_section (after_legacy D).
Proof.
  intros Hg. unfold crypto_accelerator_config, unless_defined.
  rewrite (defined_false _ _ Hg).
  cbn [block foldl]. unfold after_legacy. f_equal. f_equal.
  unfold when_defined, undef, define, after_prefix, defined.
  case_bool_decide as Hc; [reflexivity|]. now apply remove_absent.
Qed.

Lemma config_guarded (D : macro_set) :
  "CRYPTO_ACCELERATOR_CONF_H" ∈ D -> crypto_accelerator_config D = D.
Proof.
  intros Hg. unfold crypto_accelerator_config, unless_defined.
  now rewrite (defined_true _ _ Hg).
Qed.

Lemma in_after_prefix (x : string) (D : macro_set) :
  x ∈ after_prefix D <->
  (x = "PSA_WANT_KEY_TYPE_AES" \/ x = "CRYPTO_ACCELERATOR_CONF_H" \/ x ∈ D)
  /\ x <> "PSA_WANT_ALG_CFB".
Proof.
  unfold after_prefix.
  rewrite elem_of_difference, !elem_of_union, !elem_of_singleton. tauto.
Qed.

Lemma after_legacy_grows (D : macro_set) :
  after_prefix D ⊆ after_legacy D /\
  after_legacy D ⊆ after_prefix D ∪ list_to_set legacy_alt_macros.
Proof.
  apply (grows_when_defined ∅ _ _ _ legacy_grows). apply empty_subseteq.
Qed.

Lemma rsa_section_grows (D : macro_set) :
  D ⊆ rsa_section D /\ rsa_section D ⊆ D ∪ list_to_set rsa_macros.
Proof. apply (rsa_grows ∅). apply empty_subseteq. Qed.

Lemma guard_defined (D : macro_set) :
  "CRYPTO_ACCELERATOR_CONF_H" ∈ crypto_accelerator_config D.
Proof.
  destruct (decide ("CRYPTO_ACCELERATOR_CONF_H" ∈ D)) as [Hg|Hg].
  - now rewrite config_guarded.
  - rewrite config_unfold by exact Hg.
    apply (proj1 (rsa_section_grows _)), (proj1 (after_legacy_grows _)), in_after_prefix.
    split; [now right; left | discriminate].
Qed.

(** What a name of the result can be. *)
Lemma in_config (x : string) (D : macro_set) :
  "CRYPTO_ACCELERATOR_CONF_H" ∉ D ->
  x ∈ crypto_accelerator_config D ->
  x ∈ after_prefix D \/ x ∈ legacy_alt_macros \/ x ∈ rsa_macros.
Proof.
  intros Hg Hx. rewrite config_unfold in Hx by exact Hg.
  apply (proj2 (rsa_section_grows _)), elem_of_union in Hx as [Hx|Hx];
    [|right; right; now apply elem_of_list_to_set in Hx].
  apply (proj2 (after_legacy_grows _)), elem_of_union in Hx as [Hx|Hx];
    [now left | right; left; now apply elem_of_list_to_set in Hx].
Qed.

Lemma from_prefix (x : string) (D : macro_set) :
  "CRYPTO_ACCELERATOR_CONF_H" ∉ D ->
  x ∈ after_prefix D -> x ∈ crypto_accelerator_config D.
Proof.
  intros Hg Hx. rewrite config_unfold by exact Hg.
  now apply (proj1 (rsa_section_grows _)), (proj1 (after_legacy_grows _)).
Qed.

(** X19.  The include guard works: a second inclusion changes nothing. *)
Theorem header_idempotent (D : macro_set) :
  crypto_accelerator_config (crypto_accelerator_config D) = crypto_accelerator_config D.
Proof. apply config_guarded, guard_defined. Qed.

(** X20.  The first inclusion leaves [PSA_WANT_ALG_CFB] undefined and takes
    no other name away. *)
Theorem header_removes_only_cfb (D : macro_set) :
  "CRYPTO_ACCELERATOR_CONF_H" ∉ D ->
  ("PSA_WANT_ALG_CFB" ∉ crypto_accelerator_config D) /\
  forall x, x ∈ D -> x <> "PSA_WANT_ALG_CFB" -> x ∈ crypto_accelerator_config D.
Proof.
  intros Hg. split.
  - intros Hx. apply in_config in Hx as [Hx|[Hx|Hx]]; [|not_listed Hx|not_listed Hx|exact Hg].
    apply in_after_prefix in Hx as [_ Hx]. now apply Hx.
  - intros x Hx Hne. apply from_prefix; [exact Hg|]. apply in_after_prefix. tauto.
Qed.

Lemma header_removes_only_cfb_witness :
  ("PSA_WANT_ALG_CFB" ∉ crypto_accelerator_config legacy_config) /\
  forall x, x ∈ legacy_config -> x <> "PSA_WANT_ALG_CFB" ->
            x ∈ crypto_accelerator_config legacy_config.
Proof.
  apply (header_removes_only_cfb legacy_config).
  apply (bool_decide_unpack _). vm_compute. reflexivity.
Defined.

Ltac by_evaluation := apply (bool_decide_unpack _); vm_compute; reflexivity.

(** X21.  Without the legacy driver interface the header selects no
    alternative implementation: all it can add is its guard,
    [PSA_WANT_KEY_TYPE_AES] and [MBEDTLS_GENPRIME]. *)
Theorem no_alt_without_legacy_driver (D : macro_set) (x : string) :
  "LEGACY_DRIVER_API_ENABLED" ∉ D ->
  x ∈ crypto_accelerator_config D ->
  x ∈ D \/ x = "CRYPTO_ACCELERATOR_CONF_H" \/ x = "PSA_WANT_KEY_TYPE_AES"
  \/ x = "MBEDTLS_GENPRIME".
Proof.
  intros Hl Hx.
  destruct (decide ("CRYPTO_ACCELERATOR_CONF_H" ∈ D)) as [Hg|Hg].
  { rewrite config_guarded in Hx by exact Hg. now left. }
  rewrite config_unfold in Hx by exact Hg.
  assert (Hl' : "LEGACY_DRIVER_API_ENABLED" ∉ after_prefix D).
  { intros H. apply in_after_prefix in H as [[H|[H|H]] _]; [discriminate H|discriminate H|].
    now apply Hl. }
  unfold after_legacy, when_defined in Hx. rewrite (defined_false _ _ Hl') in Hx.
  assert (Hin : x ∈ after_prefix D \/ x = "MBEDTLS_GENPRIME").
  { unfold rsa_section, when_any_defined in Hx.
    destruct (existsb _ rsa_wants); [|now left].
    cbn [block foldl] in Hx. unfold when_defined in Hx.
    rewrite (defined_false _ _ Hl') in Hx. unfold define in Hx.
    apply elem_of_union in Hx as [Hx|Hx]; [right; now apply elem_of_singleton in Hx|now left]. }
  destruct Hin as [Hin|Hin]; [|tauto].
  apply in_after_prefix in Hin. tauto.
Qed.

Lemma no_alt_without_legacy_driver_witness :
  "MBEDTLS_GENPRIME" ∈ driver_only_config \/
  "MBEDTLS_GENPRIME" = "CRYPTO_ACCELERATOR_CONF_H" \/
  "MBEDTLS_GENPRIME" = "PSA_WANT_KEY_TYPE_AES" \/
  "MBEDTLS_GENPRIME" = "MBEDTLS_GENPRIME".
Proof.
  apply (no_alt_without_legacy_driver driver_only_config "MBEDTLS_GENPRIME"); by_evaluation.
Defined.

(** X22.  With the legacy driver interface the first inclusion always selects
    the AES alternative implementation, whether or not the configuration
    asked for AES: the header defines [PSA_WANT_KEY_TYPE_AES] itself. *)
Theorem aes_alt_with_legacy_driver (D : macro_set) (x : string) :
  "CRYPTO_ACCELERATOR_CONF_H" ∉ D ->
  "LEGACY_DRIVER_API_ENABLED" ∈ D ->
  x ∈ [ "MBEDTLS_AES_ALT"; "MBEDTLS_AES_SETKEY_ENC_ALT"; "MBEDTLS_AES_SETKEY_DEC_ALT";
        "MBEDTLS_AES_ENCRYPT_ALT"; "MBEDTLS_AES_DECRYPT_ALT" ] ->
  x ∈ crypto_accelerator_config D.
Proof.
  intros Hg Hl Hx. rewrite config_unfold by exact Hg.
  apply (proj1 (rsa_section_grows _)).
  assert (Hl' : "LEGACY_DRIVER_API_ENABLED" ∈ after_prefix D).
  { apply in_after_prefix. split; [tauto|discriminate]. }
  assert (Ha : "PSA_WANT_KEY_TYPE_AES" ∈ after_prefix D).
  { apply in_after_prefix. split; [tauto|discriminate]. }
  unfold after_legacy, when_defined. rewrite (defined_true _ _ Hl').
  unfold legacy_driver_section.
  apply (block_keeps_first ∅ (list_to_set legacy_alt_macros)).
  - unfold legacy_alt_macros. repeat apply Forall_cons_2; try apply Forall_nil_2; grows.
  - apply empty_subseteq.
  - assert (Hd : grows_within ∅ (list_to_set legacy_alt_macros)
                   (when_defined "PSA_WANT_KEY_TYPE_AES"
                      (block [ define "MBEDTLS_AES_ALT";
                               define "MBEDTLS_AES_SETKEY_ENC_ALT";
                               define "MBEDTLS_AES_SETKEY_DEC_ALT";
                               define "MBEDTLS_AES_ENCRYPT_ALT";
                               define "MBEDTLS_AES_DECRYPT_ALT" ])))
      by (unfold legacy_alt_macros; grows).
    apply Hd, empty_subseteq.
  - unfold when_defined. rewrite (defined_true _ _ Ha).
    cbn [block foldl]. unfold define. rewrite !elem_of_union, !elem_of_singleton.
    repeat (apply elem_of_cons in Hx as [Hx|Hx]; [tauto|]).
    now apply elem_of_nil in Hx.
Qed.

Lemma aes_alt_with_legacy_driver_witness :
  "MBEDTLS_AES_ALT" ∈ crypto_accelerator_config legacy_config.
Proof.
  apply (aes_alt_with_legacy_driver legacy_config "MBEDTLS_AES_ALT"); by_evaluation.
Defined.

Lemma rsa_want_survives (D : macro_set) (x : string) :
  x ∈ rsa_wants -> (x ∈ after_legacy D <-> x ∈ D).
Proof.
  intros Hx. split.
  - intros H. apply (proj2 (after_legacy_grows _)), elem_of_union in H as [H|H].
    + apply in_after_prefix in H as [[H|[H|H]] _]; [| |exact H]; subst x; not_listed Hx.
    + apply elem_of_list_to_set in H.
      unfold rsa_wants in Hx.
      repeat (apply elem_of_cons in Hx as [->|Hx]; [not_listed H|]).
      now apply elem_of_nil in Hx.
  - intros H. apply (proj1 (after_legacy_grows _)), in_after_prefix.
    split; [tauto|]. intros ->. not_listed Hx.
Qed.

(** X23.  After the first inclusion [MBEDTLS_GENPRIME] is defined exactly when
    it was defined before or the configuration wants one of the RSA
    algorithms or key types, with or without the legacy driver interface. *)
Theorem genprime_iff_rsa_wanted (D : macro_set) :
  "CRYPTO_ACCELERATOR_CONF_H" ∉ D ->
  "MBEDTLS_GENPRIME" ∈ crypto_accelerator_config D <->
  "MBEDTLS_GENPRIME" ∈ D \/ exists x, x ∈ rsa_wants /\ x ∈ D.
Proof.
  intros Hg. rewrite config_unfold by exact Hg.
  unfold rsa_section, when_any_defined.
  destruct (existsb _ rsa_wants) eqn:E.
  - split; [intros _ | intros _].
    + apply existsb_exists in E as (x & Hx & Hd). right. exists x.
      apply list_elem_of_In in Hx. split; [exact Hx|].
      apply (rsa_want_survives D x Hx). unfold defined in Hd.
      now apply bool_decide_eq_true_1 in Hd.
    + cbn [block foldl]. unfold define. apply elem_of_union. left.
      now apply elem_of_singleton.
  - split.
    + intros H. left.
      apply (proj2 (after_legacy_grows _)), elem_of_union in H as [H|H].
      * apply in_after_prefix in H as [[H|[H|H]] _]; [discriminate H|discriminate H|exact H].
      * apply elem_of_list_to_set in H. not_listed H.
    + intros [H|(x & Hx & H)].
      * apply (proj1 (after_legacy_grows _)), in_after_prefix. split; [tauto|discriminate].
      * assert (Ht : existsb (fun x => defined x (after_legacy D)) rsa_wants = true).
        { apply existsb_exists. exists x. split; [now apply list_elem_of_In|].
          apply defined_true. now apply rsa_want_survives. }
        rewrite Ht in E. discriminate E.
Qed.

Lemma genprime_iff_rsa_wanted_witness :
  "MBEDTLS_GENPRIME" ∈ crypto_accelerator_config driver_only_config <->
  "MBEDTLS_GENPRIME" ∈ driver_only_config \/
  exists x, x ∈ rsa_wants /\ x ∈ driver_only_config.
Proof. apply (genprime_iff_rsa_wanted driver_only_config). by_evaluation. Defined.

(** X24.  When the key is provisioned in OTP the header never selects the
    ECDSA key generation of the accelerator. *)
Theorem provisioning_keeps_genkey_out (D : macro_set) :
  "CRYPTO_HW_ACCELERATOR_OTP_PROVISIONING" ∈ D ->
  "MBEDTLS_ECDSA_GENKEY_ALT" ∉ D ->
  "MBEDTLS_ECDSA_GENKEY_ALT" ∉ crypto_accelerator_config D.
Proof.
  intros Ho Hk Hx.
  destruct (decide ("CRYPTO_ACCELERATOR_CONF_H" ∈ D)) as [Hg|Hg].
  { rewrite config_guarded in Hx by exact Hg. now apply Hk. }
  rewrite config_unfold in Hx by exact Hg.
  apply (proj2 (rsa_section_grows _)), elem_of_union in Hx as [Hx|Hx];
    [|apply elem_of_list_to_set in Hx; not_listed Hx].
  assert (Ho' : {["CRYPTO_HW_ACCELERATOR_OTP_PROVISIONING"]} ⊆ after_prefix D).
  { apply singleton_subseteq_l, in_after_prefix. split; [tauto|discriminate]. }
  apply (proj2 (grows_when_defined _ _ "LEGACY_DRIVER_API_ENABLED" _
                  legacy_grows_provisioning _ Ho')), elem_of_union in Hx as [Hx|Hx].
  - apply in_after_prefix in Hx as [[Hx|[Hx|Hx]] _]; [discriminate Hx|discriminate Hx|].
    now apply Hk.
  - apply elem_of_list_to_set in Hx. not_listed Hx.
Qed.

Lemma provisioning_keeps_genkey_out_witness :
  "MBEDTLS_ECDSA_GENKEY_ALT" ∉ crypto_accelerator_config legacy_config.
Proof. apply (provisioning_keeps_genkey_out legacy_config); by_evaluation. Defined.

End AcceleratorConfigProperties.
